(** * crawl4ai-scraper: content cleaning, URL patterns, discovery and batch crawl

    A shallow embedding of [content_filters.py] and [crawler.py].

    Python [str] values are modelled as lists of code points below 256
    (type [ascii]); on that range [str.lower], [str.strip], [str.split] and
    the regular-expression classes used by the program are written out
    exactly (the three code points above 255 that the program writes
    itself are described at [_enhance_admonitions]).  Python [int] values
    that can be negative are [Z]; lengths and counts are [nat]. *)

From Stdlib Require Import Ascii String List ZArith Lia Bool Permutation.
From stdpp Require Import gmap strings list sorting.
Import ListNotations.

Abbreviation str := (list ascii).

Definition py (s : string) : str := list_ascii_of_string s.
Arguments py s%_string.

(** ** Python string primitives *)

Module PyStr.

Definition code (c : ascii) : N := N_of_ascii c.

Definition chr_eqb (a b : ascii) : bool := Ascii.eqb a b.

Definition nl : ascii := "010"%char.

(** [str.isspace] on one code point (Py_UNICODE_ISSPACE below 256). *)
Definition isspace (c : ascii) : bool :=
  let n := code c in
  ((9 <=? n) && (n <=? 13) || (28 <=? n) && (n <=? 32) || (n =? 133) || (n =? 160))%N.

(** [str.lower] on one code point: A-Z and the Latin-1 capitals. *)
Definition lower_char (c : ascii) : ascii :=
  let n := code c in
  if ((65 <=? n) && (n <=? 90) || (192 <=? n) && (n <=? 222) && negb (n =? 215))%N
  then ascii_of_N (n + 32) else c.

Definition lower (s : str) : str := map lower_char s.

(** The regular-expression classes [[A-Z]] and [[a-z]]. *)
Definition is_AZ (c : ascii) : bool := ((65 <=? code c) && (code c <=? 90))%N.
Definition is_az (c : ascii) : bool := ((97 <=? code c) && (code c <=? 122))%N.

Fixpoint drop_while (p : ascii -> bool) (s : str) : str :=
  match s with
  | [] => []
  | c :: t => if p c then drop_while p t else s
  end.

Fixpoint take_while (p : ascii -> bool) (s : str) : str :=
  match s with
  | [] => []
  | c :: t => if p c then c :: take_while p t else []
  end.

Definition lstrip (s : str) : str := drop_while isspace s.
Definition rstrip (s : str) : str := rev (drop_while isspace (rev s)).
Definition strip (s : str) : str := rstrip (lstrip s).

Fixpoint startswith (p s : str) : bool :=
  match p, s with
  | [], _ => true
  | _ :: _, [] => false
  | a :: p', b :: s' => chr_eqb a b && startswith p' s'
  end.

Definition endswith (p s : str) : bool := startswith (rev p) (rev s).

Definition str_eqb (a b : str) : bool := bool_decide (a = b).

(** [sub in s]. *)
Fixpoint contains (sub s : str) : bool :=
  startswith sub s ||
  match s with
  | [] => false
  | _ :: t => contains sub t
  end.

(** [c in s] for a single character. *)
Definition has_char (c : ascii) (s : str) : bool := existsb (chr_eqb c) s.

(** Left-to-right scan that underlies [str.replace], [str.count] and
    [re.sub] for patterns that never match the empty string.  [m prev s]
    says whether a match starts at the head of [s] ([prev] is the
    character before it, [None] at position 0) and, if so, gives its
    length (at least 1) and the text that replaces it; scanning resumes
    after the match, [skip] counting the characters of a match still to
    be passed over. *)
Fixpoint scan (m : option ascii -> str -> option (nat * str))
         (prev : option ascii) (skip : nat) (s : str) : str :=
  match s with
  | [] => []
  | c :: t =>
      match skip with
      | S k => scan m (Some c) k t
      | O =>
          match m prev s with
          | Some (n, repl) => repl ++ scan m (Some c) (Nat.pred n) t
          | None => c :: scan m (Some c) 0 t
          end
      end
  end.

(** [s.replace(old, new)] for a non-empty [old] (the program never
    passes an empty one). *)
Definition replace (old new s : str) : str :=
  scan (fun _ r => if startswith old r then Some (length old, new) else None) None 0 s.

(** [s.count(sub)]: non-overlapping occurrences, [sub] non-empty. *)
Fixpoint count_go (sub : str) (skip : nat) (s : str) : nat :=
  match s with
  | [] => 0
  | _ :: t =>
      match skip with
      | S k => count_go sub k t
      | O => if startswith sub s then S (count_go sub (Nat.pred (length sub)) t)
             else count_go sub 0 t
      end
  end.
Definition count (sub s : str) : nat := count_go sub 0 s.

(** [s.split(sep)] for a one-character separator: always at least one
    field. *)
Fixpoint split_on (sep : ascii) (s : str) : list str :=
  match s with
  | [] => [[]]
  | c :: t =>
      if chr_eqb c sep then [] :: split_on sep t
      else match split_on sep t with
           | [] => [[c]]
           | w :: ws => (c :: w) :: ws
           end
  end.

(** [s.split()]: the maximal runs of non-whitespace characters. *)
Fixpoint split_ws_go (cur : str) (s : str) : list str :=
  match s with
  | [] => match cur with [] => [] | _ => [rev cur] end
  | c :: t =>
      if isspace c
      then match cur with [] => split_ws_go [] t | _ => rev cur :: split_ws_go [] t end
      else split_ws_go (c :: cur) t
  end.
Definition split_ws (s : str) : list str := split_ws_go [] s.

(** [sep.join(parts)]. *)
Fixpoint join (sep : str) (parts : list str) : str :=
  match parts with
  | [] => []
  | [p] => p
  | p :: ps => p ++ sep ++ join sep ps
  end.

(** [any(p in s for p in pats)]. *)
Definition any_in (pats : list str) (s : str) : bool :=
  existsb (fun p => contains p s) pats.

(** [s[:-1]]. *)
Definition drop_last (s : str) : str := removelast s.

(** [s.rstrip(chars)] and [s.strip(chars)]. *)
Definition rstrip_chars (chars s : str) : str :=
  rev (drop_while (fun c => has_char c chars) (rev s)).

Definition strip_chars (chars s : str) : str :=
  rstrip_chars chars (drop_while (fun c => has_char c chars) s).

(** [s[:k]]; a negative [k] counts from the end. *)
Definition slice_to (k : Z) (s : str) : str :=
  if (0 <=? k)%Z then firstn (Z.to_nat k) s
  else firstn (length s - Z.to_nat (- k)) s.

End PyStr.

(** ** Regular expressions produced by the wildcard conversion *)

Module Regex.

(** The sets of characters a one-character item of these expressions
    can stand for. *)
Inductive cset : Type :=
| CAny                 (* [.] : any character but a newline *)
| CNotSlash            (* [[^/]] *)
| CLit (c : ascii).    (* an ordinary or escaped character *)

Inductive item : Type :=
| IStart               (* [^] *)
| IEnd                 (* [$] *)
| IOne (c : cset)
| IStar (c : cset).    (* a one-character item followed by [*] *)

(** An expression is an alternation ([|]) of sequences of items. *)
Definition regex : Type := list (list item).

Definition cset_mem (cs : cset) (a : ascii) : bool :=
  match cs with
  | CAny => negb (PyStr.chr_eqb a PyStr.nl)
  | CNotSlash => negb (PyStr.chr_eqb a "/"%char)
  | CLit c => PyStr.chr_eqb a c
  end.

(** Characters that [re] accepts after a backslash as that character
    itself: the ASCII punctuation. *)
Definition is_punct (c : ascii) : bool :=
  let n := PyStr.code c in
  ((33 <=? n) && (n <=? 47) || (58 <=? n) && (n <=? 64) ||
   (91 <=? n) && (n <=? 96) || (123 <=? n) && (n <=? 126))%N.

(** Characters with a meaning of their own when they stand unescaped at
    the start of an item; only [^], [$], [.] and the class [[^/]] are
    read here, the others put the expression outside the fragment. *)
Definition is_special (c : ascii) : bool :=
  PyStr.has_char c (py "\^$.|?*+()[]{}").

(** One atom at the head of the text: the item and the rest. *)
Definition parse_atom (s : str) : option (cset + bool) * str :=
  match s with
  | "^"%char :: t => (Some (inr true), t)
  | "$"%char :: t => (Some (inr false), t)
  | "."%char :: t => (Some (inl CAny), t)
  | "["%char :: "^"%char :: "/"%char :: "]"%char :: t => (Some (inl CNotSlash), t)
  | "\"%char :: c :: t => if is_punct c then (Some (inl (CLit c)), t) else (None, s)
  | c :: t => if is_special c then (None, s) else (Some (inl (CLit c)), t)
  | [] => (None, s)
  end.

(** The parser works on the text with fuel equal to its length; [None]
    means the text is outside the fragment modelled here (which
    includes the texts [re] itself rejects). *)
Fixpoint parse_seq (fuel : nat) (s : str) : option (list item * str) :=
  match fuel with
  | O => match s with [] => Some ([], []) | _ => None end
  | S fuel' =>
      match s with
      | [] => Some ([], [])
      | "|"%char :: _ => Some ([], s)
      | _ =>
          match parse_atom s with
          | (Some (inr b), t) =>
              match t with
              | "*"%char :: _ => None
              | _ =>
                  match parse_seq fuel' t with
                  | Some (its, r) => Some ((if b then IStart else IEnd) :: its, r)
                  | None => None
                  end
              end
          | (Some (inl cs), "*"%char :: t) =>
              match t with
              | "*"%char :: _ | "?"%char :: _ | "+"%char :: _ => None
              | _ =>
                  match parse_seq fuel' t with
                  | Some (its, r) => Some (IStar cs :: its, r)
                  | None => None
                  end
              end
          | (Some (inl cs), t) =>
              match t with
              | "?"%char :: _ | "+"%char :: _ | "{"%char :: _ => None
              | _ =>
                  match parse_seq fuel' t with
                  | Some (its, r) => Some (IOne cs :: its, r)
                  | None => None
                  end
              end
          | (None, _) => None
          end
      end
  end.

Fixpoint parse_alt (fuel : nat) (s : str) : option regex :=
  match fuel with
  | O => None
  | S fuel' =>
      match parse_seq (length s) s with
      | Some (its, []) => Some [its]
      | Some (its, "|"%char :: r) =>
          match parse_alt fuel' r with
          | Some alts => Some (its :: alts)
          | None => None
          end
      | _ => None
      end
  end.

Definition parse (s : str) : option regex := parse_alt (S (length s)) s.

(** [$] without MULTILINE: at the end, or just before a final newline. *)
Definition at_end (s : str) : bool :=
  match s with
  | [] => true
  | [c] => PyStr.chr_eqb c PyStr.nl
  | _ => false
  end.

(** [star cs k st s]: [cs*] followed by the continuation [k]; [st] tells
    whether the position is still the start of the subject. *)
Fixpoint star (cs : cset) (k : bool -> str -> bool) (st : bool) (s : str) : bool :=
  k st s ||
  match s with
  | [] => false
  | a :: t => cset_mem cs a && star cs k false t
  end.

Fixpoint match_items (its : list item) : bool -> str -> bool :=
  match its with
  | [] => fun _ _ => true
  | it :: rest =>
      let k := match_items rest in
      match it with
      | IStart => fun st s => st && k st s
      | IEnd => fun st s => at_end s && k st s
      | IOne cs => fun _ s =>
          match s with
          | [] => false
          | a :: t => cset_mem cs a && k false t
          end
      | IStar cs => star cs k
      end
  end.

(** [re.match(r, s) is not None]: some alternative matches a prefix of
    the subject from position 0. *)
Definition matches (r : regex) (s : str) : bool :=
  existsb (fun its => match_items its true s) r.

(** [re.match(pattern, s)] as the program uses it: [Some b] tells
    whether there is a match; [None] stands for a pattern outside the
    fragment. *)
Definition re_match (pattern s : str) : option bool :=
  match parse pattern with
  | Some r => Some (matches r s)
  | None => None
  end.

End Regex.

(** ** [URLPatternHandler] *)

Module URLPatternHandler.

Import PyStr.

Definition convert_wildcard_to_regex (pattern : str) : str :=
  let pattern := replace (py ".") (py "\.") pattern in
  let pattern := replace (py "+") (py "\+") pattern in
  let pattern := replace (py "^") (py "\^") pattern in
  let pattern := replace (py "$") (py "\$") pattern in
  let pattern := replace (py "(") (py "\(") pattern in
  let pattern := replace (py ")") (py "\)") pattern in
  let pattern := replace (py "[") (py "\[") pattern in
  let pattern := replace (py "]") (py "\]") pattern in
  let pattern := replace (py "{") (py "\{") pattern in
  let pattern := replace (py "}") (py "\}") pattern in
  let pattern := replace (py "**") (py "<<<DOUBLESTAR>>>") pattern in
  let pattern := replace (py "*") (py "[^/]*") pattern in
  let pattern := replace (py "<<<DOUBLESTAR>>>") (py ".*") pattern in
  let pattern := replace (py "?") (py ".") pattern in
  py "^" ++ pattern ++ py "$".

Section Matching.

(** [re.match(regex, url)]: [Some true] for a match object, [Some
    false] for [None], and [None] when [re] raises [re.error]. *)
Variable re_match : str -> str -> option bool.

(** The two loops of [match_url_pattern]: the first pattern that
    matches decides; a pattern that makes [re] raise ends the call. *)
Fixpoint first_match (url : str) (patterns : list str) : option bool :=
  match patterns with
  | [] => Some false
  | pattern :: rest =>
      match re_match (convert_wildcard_to_regex pattern) url with
      | None => None
      | Some true => Some true
      | Some false => first_match url rest
      end
  end.

(** [patterns] and [exclude_patterns] may be [None] in Python; [None]
    and the empty list are both falsy.  The result is [None] when the
    call raises. *)
Definition match_url_pattern (url : str) (patterns : option (list str))
           (exclude_patterns : option (list str)) : option bool :=
  match first_match url (default [] exclude_patterns) with
  | None => None
  | Some true => Some false
  | Some false =>
      match default [] patterns with
      | [] => Some true
      | ps => first_match url ps
      end
  end.

(** The URL matches the wildcard pattern. *)
Definition url_matches (url pattern : str) : Prop :=
  re_match (convert_wildcard_to_regex pattern) url = Some true.

End Matching.

End URLPatternHandler.

(** ** [ContentCleaner] *)

Module ContentCleaner.

Import PyStr.

(** The pattern lists an instance holds (set in [__init__], extended by
    the configurable subclass). *)
Record t : Type := {
  nav_indicators : list str;
  footer_indicators : list str;
  skip_patterns : list str
}.

Definition __init__ : t := {|
  nav_indicators :=
    [py "search"; py "menu"; py "navigation"; py "navbar"; py "sidebar"; py "breadcrumb";
     py "home"; py "contact"; py "about"; py "login"; py "sign in"; py "sign up"; py "register";
     py "skip to content"; py "skip to main"; py "toggle menu"; py "close menu"];
  footer_indicators :=
    [py "copyright"; ["169"%char]; py "all rights reserved"; py "privacy policy";
     py "terms of service"; py "terms of use"; py "cookie policy"; py "was this page helpful";
     py "feedback"; py "x.com"; py "twitter.com"; py "linkedin.com"; py "facebook.com";
     py "github.com"; py "on this page"; py "yesno"; py "rate this page"; py "improve this page";
     py "last modified"; py "last updated"; py "edit this page"];
  skip_patterns :=
    [py "copy page"; py "copy link"; py "share this"; py "print this page"; py "bookmark";
     py "loading..."; py "please wait"; py "skip to content"; py "toggle navigation"]
|}.

(** *** Run-on-line repair: the three [re.sub] calls *)

Definition prev_in (prev : option ascii) (cs : str) : bool :=
  match prev with
  | Some p => has_char p cs
  | None => false
  end.

(** [(?<![eg])(?<![ie])\. ([A-Z])] replaced by [.\n\n\1]. *)
Definition sentence_break_at (prev : option ascii) (s : str) : option (nat * str) :=
  match s with
  | "."%char :: " "%char :: c :: _ =>
      if is_AZ c && negb (prev_in prev (py "eg")) && negb (prev_in prev (py "ie"))
      then Some (3, ["."%char; nl; nl; c])
      else None
  | _ => None
  end.

(** First alternative of [(k1|k2|...)] that lets the rest of the
    pattern match. *)
Fixpoint first_alternative {A} (f : str -> option A) (kws : list str) : option A :=
  match kws with
  | [] => None
  | kw :: rest =>
      match f kw with
      | Some r => Some r
      | None => first_alternative f rest
      end
  end.

Definition admonition_keywords : list str :=
  [py "Tip"; py "Note"; py "Warning"; py "Important"; py "Caution"].

(** [(?<!\n)(Tip|Note|Warning|Important|Caution)\s+([A-Z])] replaced by
    [\n\n**\1:** \2].  [\s+] is followed by a capital, so it takes the
    whole run of whitespace. *)
Definition admonition_at (prev : option ascii) (s : str) : option (nat * str) :=
  if prev_in prev [nl] then None
  else first_alternative (fun kw =>
    if startswith kw s then
      let r := skipn (length kw) s in
      let ws := take_while isspace r in
      match ws, skipn (length ws) r with
      | _ :: _, c :: _ =>
          if is_AZ c
          then Some (length kw + length ws + 1,
                     [nl; nl] ++ py "**" ++ kw ++ py ":** " ++ [c])
          else None
      | _, _ => None
      end
    else None) admonition_keywords.

Definition section_starters : list str :=
  [py "Using"; py "Creating"; py "Configuring"; py "Setting up"; py "Installing";
   py "Troubleshooting"; py "Managing"; py "Building"; py "Deploying"].

(** The lookahead [(?=\s[A-Z])]. *)
Definition space_capital_ahead (s : str) : bool :=
  match s with
  | a :: b :: _ => isspace a && is_AZ b
  | _ => false
  end.

(** The lazy [[^.]*?] before the lookahead: the least number of
    characters, none of them a period, after which the lookahead
    holds. *)
Fixpoint lazy_no_period (s : str) : option nat :=
  if space_capital_ahead s then Some 0
  else match s with
       | [] => None
       | a :: t => if chr_eqb a "."%char then None else option_map S (lazy_no_period t)
       end.

(** [(?<!\n)(Using|...|Deploying)\s+([a-z][^.]*?)(?=\s[A-Z])] replaced by
    [\n\n## \1 \2]. *)
Definition section_starter_at (prev : option ascii) (s : str) : option (nat * str) :=
  if prev_in prev [nl] then None
  else first_alternative (fun kw =>
    if startswith kw s then
      let r := skipn (length kw) s in
      let ws := take_while isspace r in
      match ws, skipn (length ws) r with
      | _ :: _, c :: r' =>
          if is_az c then
            match lazy_no_period r' with
            | Some j =>
                Some (length kw + length ws + 1 + j,
                      [nl; nl] ++ py "## " ++ kw ++ py " " ++ c :: firstn j r')
            | None => None
            end
          else None
      | _, _ => None
      end
    else None) section_starters.

(** The first step of [clean_markdown_content]: unescape literal
    backslash-n sequences when they outnumber the real line breaks. *)
Definition unescape_newlines (markdown : str) : str :=
  if contains (py "\n") markdown && (count [nl] markdown <? count (py "\n") markdown)
  then replace (py "\n") [nl] markdown
  else markdown.

(** The second step: a document that is mostly one long line gets
    sentence breaks, admonition blocks and section headings.  (The loop
    over [markdown.split('.')] that follows in the source only executes
    [pass].) *)
Definition repair_run_on (markdown : str) : str :=
  if (count [nl] markdown <? 10) && (500 <? length markdown)
  then
    let markdown := scan sentence_break_at None 0 markdown in
    let markdown := scan admonition_at None 0 markdown in
    let markdown := scan section_starter_at None 0 markdown in
    markdown
  else markdown.

(** *** Line predicates *)

(** [^#{2,6}\\s+] as written in the source, a raw string with doubled
    backslashes: two to six [#], then a backslash, then one or more
    letters [s].  Gives the length of the match. *)
Definition re_heading_prefix (line : str) : option nat :=
  let hashes := take_while (chr_eqb "#"%char) line in
  if (2 <=? length hashes) && (length hashes <=? 6) then
    match skipn (length hashes) line with
    | "\"%char :: r =>
        let ss := take_while (chr_eqb "s"%char) r in
        if 1 <=? length ss then Some (length hashes + 1 + length ss) else None
    | _ => None
    end
  else None.

(** [re.match(r'^#{2,6}\\s+\\w', line)]: the prefix above, then a
    backslash and the letter [w]. *)
Definition re_match_section_heading (line : str) : bool :=
  match re_heading_prefix line with
  | Some n => startswith (py "\w") (skipn n line)
  | None => false
  end.

(** [re.sub(r'^#{2,6}\\s+', '', line)]. *)
Definition re_sub_heading_prefix (line : str) : str :=
  match re_heading_prefix line with
  | Some n => skipn n line
  | None => line
  end.

(** [re.match(r'^\\d+\\.\\s', s)] as written (doubled backslashes): a
    backslash, one or more letters [d], a backslash, any character but a
    newline, a backslash, the letter [s]. *)
Definition re_match_numbered_item (s : str) : bool :=
  match s with
  | "\"%char :: r =>
      let ds := take_while (chr_eqb "d"%char) r in
      (1 <=? length ds) &&
      match skipn (length ds) r with
      | "\"%char :: a :: "\"%char :: "s"%char :: _ => negb (chr_eqb a nl)
      | _ => false
      end
  | _ => false
  end.

Definition _is_main_heading (line : str) : bool :=
  startswith (py "# ") line && (3 <? length (strip line)).

Definition _is_section_heading (line : str) : bool :=
  re_match_section_heading line.

Definition _is_substantial_paragraph (self : t) (line : str) : bool :=
  let stripped := strip line in
  if length stripped <? 20 then false
  else
    let words := split_ws stripped in
    if length words <? 4 then false
    else if any_in (firstn 5 (nav_indicators self)) (lower stripped) then false
    else true.

Definition _is_content_list (self : t) (line : str) : bool :=
  let stripped := strip line in
  if negb (startswith (py "- ") stripped || startswith (py "* ") stripped ||
           re_match_numbered_item stripped) then false
  else if length stripped <? 10 then false
  else if any_in (nav_indicators self) (lower stripped) then false
  else true.

(** [len(title_words & heading_words) / max(len(title_words), 1) >= 0.5]
    on the two word sets, written without the division. *)
Definition title_overlap (title heading_text : str) : bool :=
  let title_words : gset str := list_to_set (split_ws (lower title)) in
  let heading_words : gset str := list_to_set (split_ws heading_text) in
  Nat.max (size title_words) 1 <=? 2 * size (title_words ∩ heading_words).

Definition _is_main_content_start (self : t) (line title : str)
           (all_lines : list str) (index : nat) : bool :=
  if (if startswith (py "# ") line then
        let heading_text := lower (strip (skipn 2 line)) in
        if negb (any_in [py "home"; py "menu"; py "navigation"; py "page"] heading_text) then
          if (match title with [] => false | _ => title_overlap title heading_text end) then true
          else 10 <? length heading_text
        else false
      else false) then true
  else if (if re_match_section_heading line && (10 <? length (strip line)) then
             let heading_text := lower (strip (re_sub_heading_prefix line)) in
             negb (any_in (nav_indicators self) heading_text)
           else false) then true
  else if _is_substantial_paragraph self line then true
  else if _is_content_list self line then true
  else if startswith (py "```") line || startswith (py "`") (strip line) then true
  else false.

Definition nav_section_starts : list str :=
  [py "search"; py "navigation"; py "menu"; py "breadcrumb";
   py "skip to"; py "table of contents"; py "getting started";
   py "##### getting started"; py "##### build with"; py "##### deployment";
   py "##### administration"; py "##### configuration"; py "##### reference"].

Definition _is_navigation_section (line : str) (all_lines : list str) (index : nat) : bool :=
  any_in nav_section_starts (lower line).

Definition _is_likely_navigation (line : str) : bool :=
  if (3 <? count (py "[") line) && (3 <? count (py "](") line) then true
  else if any_in [py "overview"; py "quickstart"; py "getting started"; py "reference"; py "home"]
                 (lower line) && (length (strip line) <? 100) then true
  else false.

Definition _is_footer_line (self : t) (line : str) : bool :=
  any_in (footer_indicators self) (lower line).

Definition _should_skip_line (self : t) (line : str) : bool :=
  any_in (skip_patterns self) (lower line).

(** *** Formatting enhancement *)

(** The two replacement texts that carry a sign.  The warning sign
    U+26A0 with its variation selector U+FE0F and the exclamation mark
    U+2757 lie above code point 255.  Each of these three code points is
    written here as one character, with the codes 128, 129 and 130: like
    the signs they are neither white space nor word characters, they have
    no lower-case form, and no text of the program mentions them, so that
    [len], [strip], [lower] and the patterns see an enhanced line as
    Python sees it (17 and 18 characters for the two texts). *)
Definition warning_sign : str := ["128"; "129"]%char.
Definition important_sign : str := ["130"]%char.

Definition warning_text : str := py "> **" ++ warning_sign ++ py " Warning:**".
Definition important_text : str := py "> **" ++ important_sign ++ py " Important:**".

Definition _enhance_admonitions (line : str) : str :=
  let stripped := strip line in
  if startswith (py "Note:") stripped || startswith (py "NOTE:") stripped then
    replace (py "NOTE:") (py "> **Note:**") (replace (py "Note:") (py "> **Note:**") line)
  else if startswith (py "Tip:") stripped || startswith (py "TIP:") stripped then
    replace (py "TIP:") (py "> **Tip:**") (replace (py "Tip:") (py "> **Tip:**") line)
  else if startswith (py "Warning:") stripped || startswith (py "WARNING:") stripped then
    replace (py "WARNING:") warning_text (replace (py "Warning:") warning_text line)
  else if startswith (py "Important:") stripped || startswith (py "IMPORTANT:") stripped then
    replace (py "IMPORTANT:") important_text (replace (py "Important:") important_text line)
  else line.

(** [_enhance_code_blocks] records [_prev_line] on the instance and
    returns the line unchanged; nothing reads the attribute back into a
    result. *)
Definition _enhance_code_blocks (line : str) : str := line.

(** [[^\\s]] as written: any character but a backslash and the letter
    [s]. *)
Definition not_backslash_s (c : ascii) : bool :=
  negb (chr_eqb c "\"%char) && negb (chr_eqb c "s"%char).

(** [(\\?KEY[^\\s]+)] as written: an optional backslash, the key, then
    one or more characters that are neither a backslash nor [s];
    replaced by the empty string. *)
Definition tracking_at (key : str) (prev : option ascii) (s : str) : option (nat * str) :=
  let try (r : str) (pre : nat) : option (nat * str) :=
    if startswith key r then
      match take_while not_backslash_s (skipn (length key) r) with
      | [] => None
      | run => Some (pre + length key + length run, [])
      end
    else None in
  match s with
  | "\"%char :: r =>
      match try r 1 with
      | Some x => Some x
      | None => try s 0
      end
  | _ => try s 0
  end.

Definition _enhance_links (line : str) : str :=
  let line := scan (tracking_at (py "utm_")) None 0 line in
  let line := scan (tracking_at (py "ref=")) None 0 line in
  line.

Definition enhance_markdown_formatting (line : str) : str :=
  match strip line with
  | [] => line
  | _ => _enhance_links (_enhance_code_blocks (_enhance_admonitions line))
  end.

(** *** Whitespace clean-up *)

(** [\n{3,}] replaced by two newlines. *)
Definition newline_run_at (prev : option ascii) (s : str) : option (nat * str) :=
  let run := take_while (chr_eqb nl) s in
  if 3 <=? length run then Some (length run, [nl; nl]) else None.

Fixpoint drop_blank_head (lines : list str) : list str :=
  match lines with
  | [] => []
  | l :: rest => match strip l with [] => drop_blank_head rest | _ => lines end
  end.

Definition _clean_whitespace (content : str) : str :=
  let content := scan newline_run_at None 0 content in
  let lines := map rstrip (split_on nl content) in
  let lines := drop_blank_head lines in
  let lines := rev (drop_blank_head (rev lines)) in
  join [nl] lines.

(** *** The classification pass *)

Record ClassificationState : Type := {
  cleaned_lines : list str;
  content_started : bool;
  in_footer : bool;
  skip_navigation_section : bool
}.

Definition initial_state : ClassificationState := {|
  cleaned_lines := [];
  content_started := false;
  in_footer := false;
  skip_navigation_section := true
|}.

(** What one pass through the loop body does to the loop. *)
Inductive flow : Type :=
| Next (st : ClassificationState)     (* [continue], or the end of the body *)
| Break (st : ClassificationState).   (* [break] *)

Definition loop_body (self : t) (title : str) (lines : list str) (i : nat)
           (line : str) (st : ClassificationState) : flow :=
  let stripped := strip line in
  if negb (content_started st) && (match stripped with [] => true | _ => false end) then Next st
  else if negb (in_footer st) && _is_footer_line self stripped then
    Break {| cleaned_lines := cleaned_lines st; content_started := content_started st;
             in_footer := true; skip_navigation_section := skip_navigation_section st |}
  else if _should_skip_line self stripped then Next st
  else if skip_navigation_section st && _is_navigation_section stripped lines i then Next st
  else
    let started :=
      if negb (content_started st)
      then (if _is_main_content_start self stripped title lines i then Some true else None)
      else Some false in
    match started with
    | None => Next st
    | Some fresh =>
        let st1 :=
          if fresh
          then {| cleaned_lines := cleaned_lines st; content_started := true;
                  in_footer := in_footer st; skip_navigation_section := false |}
          else st in
        if content_started st1 && _is_likely_navigation stripped then Next st1
        else
          let processed_line := enhance_markdown_formatting line in
          Next {| cleaned_lines := cleaned_lines st1 ++ [processed_line];
                  content_started := content_started st1;
                  in_footer := in_footer st1;
                  skip_navigation_section := skip_navigation_section st1 |}
    end.

(** [for i, line in enumerate(lines)], from index [i] on. *)
Fixpoint classify_from (self : t) (title : str) (lines : list str) (i : nat)
         (rest : list str) (st : ClassificationState) : ClassificationState :=
  match rest with
  | [] => st
  | line :: rest' =>
      match loop_body self title lines i line st with
      | Next st' => classify_from self title lines (S i) rest' st'
      | Break st' => st'
      end
  end.

Definition classify (self : t) (title : str) (lines : list str) : ClassificationState :=
  classify_from self title lines 0 lines initial_state.

(** The document as the classification pass sees it. *)
Definition unwrap (markdown : str) : str :=
  repair_run_on (unescape_newlines markdown).

Definition clean_markdown_content (self : t) (markdown title : str) : str :=
  match markdown with
  | [] => markdown
  | _ =>
      let lines := split_on nl (unwrap markdown) in
      let st := classify self title lines in
      _clean_whitespace (join [nl] (cleaned_lines st))
  end.

End ContentCleaner.

(** ** [urllib.parse.urlparse]

    The library function [normalize_url] and [extract_domain] rest on,
    written after CPython 3.12.  [None] stands for [ValueError]. *)

Module UrlParse.

Import PyStr.

Record ParseResult : Type := {
  scheme : str;
  netloc : str;
  path : str;
  params : str;
  query : str;
  fragment : str
}.

Definition is_c0_or_space (c : ascii) : bool := (code c <=? 32)%N.

Definition is_ascii_alpha (c : ascii) : bool := is_AZ c || is_az c.

Definition is_digit (c : ascii) : bool := ((48 <=? code c) && (code c <=? 57))%N.

(** [scheme_chars]: letters, digits and [+-.]. *)
Definition is_scheme_char (c : ascii) : bool :=
  is_ascii_alpha c || is_digit c || has_char c (py "+-.").

Definition uses_params : list str :=
  [py ""; py "ftp"; py "hdl"; py "prospero"; py "http"; py "imap"; py "https"; py "shttp";
   py "rtsp"; py "rtspu"; py "sip"; py "sips"; py "mms"; py "sftp"; py "tel"].

(** [url.replace(b, "")] for a single character [b]. *)
Definition remove_char (b : ascii) (s : str) : str :=
  List.filter (fun c => negb (chr_eqb c b)) s.

(** The text before the first [c] and, when there is one, the text
    after it ([s.find(c)] with the two slices, [s.split(c, 1)]). *)
Fixpoint break_at (c : ascii) (s : str) : str * option str :=
  match s with
  | [] => ([], None)
  | a :: t =>
      if chr_eqb a c then ([], Some t)
      else let '(pre, post) := break_at c t in (a :: pre, post)
  end.

Definition is_netloc_delim (c : ascii) : bool := has_char c (py "/?#").

(** [_splitnetloc(url, 2)]: up to the first of [/], [?], [#]. *)
Definition _splitnetloc (url : str) : str * str :=
  let r := skipn 2 url in
  (take_while (fun c => negb (is_netloc_delim c)) r,
   drop_while (fun c => negb (is_netloc_delim c)) r).

(** [netloc.partition('[')[2].partition(']')[0]]. *)
Definition bracketed_host (netloc : str) : str :=
  match break_at "["%char netloc with
  | (_, Some after) => fst (break_at "]"%char after)
  | (_, None) => []
  end.

(** No tab, carriage return or newline. *)
Definition plain (s : str) : Prop :=
  has_char "009"%char s = false /\ has_char "013"%char s = false /\
  has_char "010"%char s = false.

(** What the scheme of a parse result looks like. *)
Definition scheme_shape (s : str) : Prop :=
  (exists c pre, s = c :: pre /\ is_ascii_alpha c = true /\ is_c0_or_space c = false) /\
  forallb is_scheme_char s = true /\ lower s = s.

Definition path_shape (p : str) : Prop :=
  (p = [] \/ exists r, p = "/"%char :: r) /\
  has_char "#"%char p = false /\ has_char "?"%char p = false.

Section Split.

(** [_check_bracketed_host]: whether the text between the brackets is
    accepted as an IPv6 or IPvFuture literal ([ipaddress] decides). *)
Variable check_bracketed_host : str -> bool.

(** [_checknetloc] rejects a host whose NFKC form holds one of
    [/?#@:]; no code point below 256 normalizes to one of them, so it
    never raises here. *)
Definition urlsplit (url : str) : option (str * str * str * str * str) :=
  let url := drop_while is_c0_or_space url in
  let url := remove_char "010"%char (remove_char "013"%char (remove_char "009"%char url)) in
  let '(scheme, url) :=
    match break_at ":"%char url with
    | (c :: pre, Some post) =>
        if is_ascii_alpha c && forallb is_scheme_char (c :: pre)
        then (lower (c :: pre), post)
        else ([], url)
    | _ => ([], url)
    end in
  let '(netloc, url) :=
    if startswith (py "//") url then _splitnetloc url else ([], url) in
  let lb := has_char "["%char netloc in
  let rb := has_char "]"%char netloc in
  if lb && negb rb || rb && negb lb then None
  else if lb && rb && negb (check_bracketed_host (bracketed_host netloc)) then None
  else
    let '(url, fragment) :=
      match break_at "#"%char url with
      | (pre, Some post) => (pre, post)
      | (_, None) => (url, [])
      end in
    let '(url, query) :=
      match break_at "?"%char url with
      | (pre, Some post) => (pre, post)
      | (_, None) => (url, [])
      end in
    Some (scheme, netloc, url, query, fragment).

(** The last path segment: the text after the last [/]. *)
Definition last_segment (url : str) : str :=
  rev (take_while (fun c => negb (chr_eqb c "/"%char)) (rev url)).

(** [_splitparams]: the parameters start at the first [;] of the last
    path segment. *)
Definition _splitparams (url : str) : str * str :=
  let tail := last_segment url in
  let head := firstn (length url - length tail) url in
  match break_at ";"%char tail with
  | (before, Some after) => (head ++ before, after)
  | (_, None) => (url, [])
  end.

Definition urlparse (url : str) : option ParseResult :=
  match urlsplit url with
  | None => None
  | Some (scheme, netloc, url, query, fragment) =>
      let '(url, params) :=
        if existsb (str_eqb scheme) uses_params && has_char ";"%char url
        then _splitparams url else (url, []) in
      Some {| scheme := scheme; netloc := netloc; path := url; params := params;
              query := query; fragment := fragment |}
  end.

Definition brackets_ok (n : str) : Prop :=
  (has_char "["%char n && negb (has_char "]"%char n) ||
   has_char "]"%char n && negb (has_char "["%char n)) = false /\
  (has_char "["%char n && has_char "]"%char n &&
   negb (check_bracketed_host (bracketed_host n))) = false.

(** The parts of a URL that has a scheme and a host, as [urlparse]
    delivers them. *)
Record parts_shape (r : ParseResult) : Prop := {
  shape_scheme : scheme_shape (scheme r);
  shape_netloc : forallb (fun c => negb (is_netloc_delim c)) (netloc r) = true;
  shape_brackets : brackets_ok (netloc r);
  shape_path : path_shape (path r);
  shape_query : has_char "#"%char (query r) = false;
  shape_plain : plain (netloc r) /\ plain (path r) /\ plain (query r)
}.

End Split.

End UrlParse.

(** ** [CrawlConfig] (the settings the modelled code reads) *)

Module CrawlConfig.

Record t : Type := {
  max_depth : Z;
  max_pages : Z;
  include_external : bool;
  extraction_method : str;
  content_css_selectors : list str;
  content_xpath : list str;
  exclude_css_selectors : list str;
  exclude_xpath : list str;
  cleaning_profile : str;
  selector_template : option str;
  min_content_length : Z;
  preserve_elements : list str;
  custom_nav_patterns : list str;
  custom_footer_patterns : list str;
  custom_skip_patterns : list str
}.

Definition __init__ : t := {|
  max_depth := 2;
  max_pages := 50;
  include_external := false;
  extraction_method := py "auto";
  content_css_selectors := [];
  content_xpath := [];
  exclude_css_selectors := [];
  exclude_xpath := [];
  cleaning_profile := py "moderate";
  selector_template := None;
  min_content_length := 100;
  preserve_elements := [py "code"; py "pre"; py "blockquote"];
  custom_nav_patterns := [];
  custom_footer_patterns := [];
  custom_skip_patterns := []
|}.

End CrawlConfig.

(** ** [URLDiscovery] *)

Module URLDiscovery.

Import PyStr.

(** What [crawler.arun] does for the discovery pass: it raises, or it
    returns a result with its success flag and the [href] values of
    [result.links['internal']] (the empty text for an entry without
    [href]; no entries when [result.links] is empty or absent). *)
Inductive ArunOutcome : Type :=
| ArunRaises
| ArunReturns (success : bool) (internal : list str).

(** The local variables of [discover_urls], [self.url_relationships],
    and the log of the URLs handed to [crawler.arun]. *)
Record State : Type := {
  discovered : gset str;
  to_visit : list str;
  visited : gset str;
  depth_map : gmap str Z;
  url_relationships : gmap str (list str);
  fetched : list str
}.

(** Code-point order on texts, as [sorted] uses it. *)
Fixpoint str_leb (a b : str) : bool :=
  match a, b with
  | [], _ => true
  | _ :: _, [] => false
  | x :: a', y :: b' =>
      if (code x <? code y)%N then true
      else if (code y <? code x)%N then false
      else str_leb a' b'
  end.

Definition str_le (a b : str) : Prop := str_leb a b = true.

#[export] Instance str_le_dec : RelDecision str_le.
Proof. intros a b. unfold str_le. apply _. Defined.

Section Discovery.

Variable check_bracketed_host : str -> bool.

(** [urllib.parse.urljoin(base, url)]; [None] when it raises. *)
Variable urljoin : str -> str -> option str.

(** [re.match], as in [URLPatternHandler]. *)
Variable re_match : str -> str -> option bool.

Variable arun : str -> ArunOutcome.

Variable config : CrawlConfig.t.

Definition extract_domain (url : str) : option str :=
  match UrlParse.urlparse check_bracketed_host url with
  | Some parsed => Some (UrlParse.scheme parsed ++ py "://" ++ UrlParse.netloc parsed)
  | None => None
  end.

Definition is_same_domain (url1 url2 : str) : option bool :=
  match extract_domain url1, extract_domain url2 with
  | Some d1, Some d2 => Some (str_eqb d1 d2)
  | _, _ => None
  end.

(** The part of [normalize_url] after the optional [urljoin]. *)
Definition strip_fragment_and_slash (url : str) : option str :=
  match UrlParse.urlparse check_bracketed_host url with
  | None => None
  | Some parsed =>
      let url := UrlParse.scheme parsed ++ py "://" ++ UrlParse.netloc parsed
                 ++ UrlParse.path parsed in
      let url := match UrlParse.query parsed with
                 | [] => url
                 | q => url ++ py "?" ++ q
                 end in
      let url := if endswith (py "/") url && (1 <? length (UrlParse.path parsed))
                 then drop_last url else url in
      Some url
  end.

Definition normalize_url (url : str) (base_url : option str) : option str :=
  match base_url with
  | Some (c :: b) =>
      match urljoin (c :: b) url with
      | Some joined => strip_fragment_and_slash joined
      | None => None
      end
  | _ => strip_fragment_and_slash url
  end.

(** The [for link_data in ...] loop.  An exception ([normalize_url] or
    [is_same_domain] raising) leaves the loop for the enclosing
    [except], with the links enqueued so far kept: the state at that
    point is the result. *)
Fixpoint process_links (start_url current_url : str) (current_depth : Z)
         (links : list str) (st : State) : State :=
  match links with
  | [] => st
  | link :: rest =>
      match link with
      | [] => process_links start_url current_url current_depth rest st
      | _ =>
          match normalize_url link (Some current_url) with
          | None => st
          | Some normalized =>
              match (if CrawlConfig.include_external config then Some true
                     else is_same_domain normalized start_url) with
              | None => st
              | Some false => process_links start_url current_url current_depth rest st
              | Some true =>
                  if bool_decide (normalized ∉ visited st) &&
                     bool_decide (normalized ∉ to_visit st)
                  then
                    process_links start_url current_url current_depth rest
                      {| discovered := discovered st;
                         to_visit := to_visit st ++ [normalized];
                         visited := visited st;
                         depth_map := <[normalized := (current_depth + 1)%Z]> (depth_map st);
                         url_relationships :=
                           <[current_url :=
                               default [] (url_relationships st !! current_url) ++ [normalized]]>
                             (url_relationships st);
                         fetched := fetched st |}
                  else process_links start_url current_url current_depth rest st
              end
          end
      end
  end.

(** One pass through the body of the [while] loop; [None] when the
    loop condition fails. *)
Definition step (start_url : str) (patterns exclude_patterns : option (list str))
           (st : State) : option State :=
  match to_visit st with
  | [] => None
  | current_url :: rest =>
      if negb (Z.of_nat (size (discovered st)) <? CrawlConfig.max_pages config)%Z then None
      else
        let st := {| discovered := discovered st; to_visit := rest; visited := visited st;
                     depth_map := depth_map st; url_relationships := url_relationships st;
                     fetched := fetched st |} in
        if bool_decide (current_url ∈ visited st) then Some st
        else
          let current_depth := default 0%Z (depth_map st !! current_url) in
          if (CrawlConfig.max_depth config <? current_depth)%Z then Some st
          else
            let st := {| discovered := discovered st; to_visit := to_visit st;
                         visited := {[current_url]} ∪ visited st;
                         depth_map := depth_map st;
                         url_relationships := url_relationships st;
                         fetched := fetched st ++ [current_url] |} in
            match arun current_url with
            | ArunRaises => Some st
            | ArunReturns false _ => Some st
            | ArunReturns true internal =>
                match URLPatternHandler.match_url_pattern re_match current_url
                        patterns exclude_patterns with
                | None => Some st
                | Some matched =>
                    let st :=
                      if matched
                      then {| discovered := {[current_url]} ∪ discovered st;
                              to_visit := to_visit st; visited := visited st;
                              depth_map := depth_map st;
                              url_relationships := url_relationships st;
                              fetched := fetched st |}
                      else st in
                    match internal with
                    | [] => Some st
                    | _ =>
                        if (current_depth <? CrawlConfig.max_depth config)%Z
                        then Some (process_links start_url current_url current_depth internal st)
                        else Some st
                    end
                end
            end
  end.

(** The state [discover_urls] starts from on a fresh [URLDiscovery]. *)
Definition initial (start_url : str) : State := {|
  discovered := ∅;
  to_visit := [start_url];
  visited := ∅;
  depth_map := {[start_url := 0%Z]};
  url_relationships := ∅;
  fetched := []
|}.

(** The [while] loop with a bound on the number of passes; [None] when
    the bound is reached first. *)
Fixpoint discover_loop (fuel : nat) (start_url : str)
         (patterns exclude_patterns : option (list str)) (st : State) : option State :=
  match step start_url patterns exclude_patterns st with
  | None => Some st
  | Some st' =>
      match fuel with
      | O => None
      | S fuel' => discover_loop fuel' start_url patterns exclude_patterns st'
      end
  end.

Definition discover_urls (fuel : nat) (start_url : str)
           (patterns exclude_patterns : option (list str)) : option (list str * State) :=
  match discover_loop fuel start_url patterns exclude_patterns (initial start_url) with
  | Some st => Some (merge_sort str_le (elements (discovered st)), st)
  | None => None
  end.

(** The states the loop passes through. *)
Inductive reachable (start_url : str) (patterns exclude_patterns : option (list str))
  : State -> Prop :=
| reachable_initial : reachable start_url patterns exclude_patterns (initial start_url)
| reachable_step st st' :
    reachable start_url patterns exclude_patterns st ->
    step start_url patterns exclude_patterns st = Some st' ->
    reachable start_url patterns exclude_patterns st'.

(** Appending a link to the frontier. *)
Definition enqueue (current_url : str) (current_depth : Z) (normalized : str) (st : State)
  : State :=
  {| discovered := discovered st;
     to_visit := to_visit st ++ [normalized];
     visited := visited st;
     depth_map := <[normalized := (current_depth + 1)%Z]> (depth_map st);
     url_relationships :=
       <[current_url := default [] (url_relationships st !! current_url) ++ [normalized]]>
         (url_relationships st);
     fetched := fetched st |}.

(** What holds of every state of the loop when the maximum depth is
    not negative. *)
Record Inv (start_url : str) (st : State) : Prop := {
  inv_nodup : NoDup (to_visit st);
  inv_queue_fresh : forall u, u ∈ to_visit st -> u ∉ visited st;
  inv_depth_range : forall u d, depth_map st !! u = Some d -> (0 <= d <= CrawlConfig.max_depth config)%Z;
  inv_depth_dom : forall u, is_Some (depth_map st !! u) <-> u ∈ to_visit st \/ u ∈ visited st;
  inv_discovered : forall u, u ∈ discovered st -> u ∈ visited st;
  inv_fetched : forall u, u ∈ fetched st -> u ∈ visited st;
  inv_child_depth : forall p cs c,
    url_relationships st !! p = Some cs -> c ∈ cs ->
    exists dp, depth_map st !! p = Some dp /\ depth_map st !! c = Some (dp + 1)%Z;
  inv_parent : forall u, u ∈ to_visit st \/ u ∈ visited st ->
    (u = start_url /\ depth_map st !! u = Some 0%Z) \/
    (exists p cs, url_relationships st !! p = Some cs /\ u ∈ cs)
}.

(** What holds of every state of the loop whatever the settings are:
    no URL is fetched twice, the fetched URLs are the visited ones, the
    admitted URLs stay within the page budget, and each of them was
    fetched with success and passed the patterns. *)
Record Sound (patterns exclude_patterns : option (list str)) (st : State) : Prop := {
  sound_fetched_nodup : NoDup (fetched st);
  sound_fetched_visited : forall u, u ∈ fetched st <-> u ∈ visited st;
  sound_budget : (Z.of_nat (size (discovered st)) <= Z.max 0 (CrawlConfig.max_pages config))%Z;
  sound_discovered : forall u, u ∈ discovered st ->
    u ∈ fetched st /\
    (exists internal, arun u = ArunReturns true internal) /\
    URLPatternHandler.match_url_pattern re_match u patterns exclude_patterns = Some true
}.

(** The seed, or a URL of the seed's domain. *)
Definition on_domain (start_url u : str) : Prop :=
  u = start_url \/ is_same_domain u start_url = Some true.

(** The links of a page in the form the loop could enqueue them: the
    normalized non-empty [href] values of a successful fetch. *)
Definition children (current_url : str) : list str :=
  match arun current_url with
  | ArunReturns true internal =>
      omap (fun link => match link with
                        | [] => None
                        | _ => normalize_url link (Some current_url)
                        end) internal
  | _ => []
  end.

(** The number of dequeuing passes a queued URL can cause when [n]
    more levels may be followed below it. *)
Fixpoint weight (n : nat) (u : str) : nat :=
  match n with
  | O => 1
  | S n' => 1 + list_sum (map (weight n') (children u))
  end.

Definition levels_below (depth : Z) : nat :=
  Z.to_nat (CrawlConfig.max_depth config - depth).

Definition queue_weight (st : State) : nat :=
  list_sum (map (fun u => weight (levels_below (default 0%Z (depth_map st !! u))) u)
                (to_visit st)).

End Discovery.

End URLDiscovery.

(** ** [SelectorExtractor] *)

Module SelectorExtractor.

Import PyStr.

Record Template : Type := {
  css : list str;
  xpath : list str;
  exclude_css : list str;
  exclude_xpath : list str
}.

(** [get_template]: the table of [_load_templates] is not spelled out;
    the cleaner only copies the four lists of the entry it finds. *)
Section Extract.

Variable selector_templates : str -> option Template.

(** The parts of [extract_by_css] and [extract_by_xpath] done by
    BeautifulSoup and lxml, on a non-empty page and a non-empty
    selector list. *)
Variable soup_select : str -> list str -> list str -> str.
Variable lxml_xpath : str -> list str -> list str -> str.

Definition get_template (template_name : str) : option Template :=
  selector_templates template_name.

Definition extract_by_css (html : str) (selectors exclude_selectors : list str) : str :=
  match html, selectors with
  | [], _ | _, [] => []
  | _, _ => soup_select html selectors exclude_selectors
  end.

Definition extract_by_xpath (html : str) (xpath_expressions exclude : list str) : str :=
  match html, xpath_expressions with
  | [], _ | _, [] => []
  | _, _ => lxml_xpath html xpath_expressions exclude
  end.

(** [\s+] replaced by one space. *)
Definition whitespace_run_at (prev : option ascii) (s : str) : option (nat * str) :=
  match take_while isspace s with
  | [] => None
  | run => Some (length run, [" "%char])
  end.

Definition dedup_key (part : str) : str :=
  scan whitespace_run_at None 0 (firstn 100 (lower part)).

Fixpoint unique_parts (seen : list str) (parts : list str) : list str :=
  match parts with
  | [] => []
  | part :: rest =>
      let normalized := dedup_key part in
      if existsb (str_eqb normalized) seen then unique_parts seen rest
      else part :: unique_parts (normalized :: seen) rest
  end.

Definition extract_combined (html : str) (css_selectors xpath_expressions
                              exclude_css exclude_xpath : list str) : str :=
  let content_parts :=
    match css_selectors with
    | [] => []
    | _ => match extract_by_css html css_selectors exclude_css with
           | [] => []
           | css_content => [css_content]
           end
    end in
  let content_parts :=
    content_parts ++
    match xpath_expressions with
    | [] => []
    | _ => match extract_by_xpath html xpath_expressions exclude_xpath with
           | [] => []
           | xpath_content => [xpath_content]
           end
    end in
  if 1 <? length content_parts
  then join [nl; nl] (unique_parts [] content_parts)
  else join [nl; nl] content_parts.

End Extract.

End SelectorExtractor.

(** ** [ConfigurableContentCleaner] *)

Module ConfigurableContentCleaner.

Import PyStr.

(** The inherited pattern lists ([cleaner]) and the attributes the
    subclass adds. *)
Record t : Type := {
  cleaner : ContentCleaner.t;
  content_css_selectors : list str;
  content_xpath : list str;
  exclude_css_selectors : list str;
  exclude_xpath : list str;
  extraction_method : str;
  min_content_length : Z;
  preserve_elements : list str;
  cleaning_profile : str
}.

Definition with_min_content_length (self : t) (n : Z) : t :=
  {| cleaner := cleaner self;
     content_css_selectors := content_css_selectors self;
     content_xpath := content_xpath self;
     exclude_css_selectors := exclude_css_selectors self;
     exclude_xpath := exclude_xpath self;
     extraction_method := extraction_method self;
     min_content_length := n;
     preserve_elements := preserve_elements self;
     cleaning_profile := cleaning_profile self |}.

Definition with_cleaner (self : t) (c : ContentCleaner.t) : t :=
  {| cleaner := c;
     content_css_selectors := content_css_selectors self;
     content_xpath := content_xpath self;
     exclude_css_selectors := exclude_css_selectors self;
     exclude_xpath := exclude_xpath self;
     extraction_method := extraction_method self;
     min_content_length := min_content_length self;
     preserve_elements := preserve_elements self;
     cleaning_profile := cleaning_profile self |}.

Definition _apply_cleaning_profile (self : t) (profile : str) : t :=
  if str_eqb profile (py "strict") then
    let self := with_min_content_length self 200 in
    with_cleaner self
      {| ContentCleaner.nav_indicators :=
           ContentCleaner.nav_indicators (cleaner self) ++
           [py "menu"; py "nav"; py "sidebar"; py "header"; py "footer"];
         ContentCleaner.footer_indicators := ContentCleaner.footer_indicators (cleaner self);
         ContentCleaner.skip_patterns :=
           ContentCleaner.skip_patterns (cleaner self) ++
           [py "advertisement"; py "sponsored"; py "promotion"] |}
  else if str_eqb profile (py "minimal") then
    with_min_content_length self 50
  else self.

(** [x or []] on an optional list. *)
Definition or_empty (x : option (list str)) : list str := default [] x.

(** [__init__]; an argument left out is passed as its default
    ([None], ['auto'], [100], ['moderate']). *)
Definition __init__ (custom_nav_patterns custom_footer_patterns custom_skip_patterns
                     content_css_selectors content_xpath exclude_css_selectors
                     exclude_xpath : option (list str))
           (extraction_method : str) (min_content_length : Z)
           (preserve_elements : option (list str)) (cleaning_profile : str) : t :=
  let base := ContentCleaner.__init__ in
  let base :=
    {| ContentCleaner.nav_indicators :=
         ContentCleaner.nav_indicators base ++ or_empty custom_nav_patterns;
       ContentCleaner.footer_indicators :=
         ContentCleaner.footer_indicators base ++ or_empty custom_footer_patterns;
       ContentCleaner.skip_patterns :=
         ContentCleaner.skip_patterns base ++ or_empty custom_skip_patterns |} in
  let self :=
    {| cleaner := base;
       content_css_selectors := or_empty content_css_selectors;
       content_xpath := or_empty content_xpath;
       exclude_css_selectors := or_empty exclude_css_selectors;
       exclude_xpath := or_empty exclude_xpath;
       extraction_method := extraction_method;
       min_content_length := min_content_length;
       preserve_elements :=
         match preserve_elements with
         | Some (e :: es) => e :: es
         | _ => [py "code"; py "pre"; py "blockquote"]
         end;
       cleaning_profile := cleaning_profile |} in
  _apply_cleaning_profile self cleaning_profile.

Section Selectors.

Variable selector_templates : str -> option SelectorExtractor.Template.
Variable soup_select : str -> list str -> list str -> str.
Variable lxml_xpath : str -> list str -> list str -> str.

Definition extract_with_selectors (self : t) (html : str) : option str :=
  match content_css_selectors self, content_xpath self with
  | [], [] => None
  | _, _ =>
      if str_eqb (extraction_method self) (py "css") then
        Some (SelectorExtractor.extract_by_css soup_select html
                (content_css_selectors self) (exclude_css_selectors self))
      else if str_eqb (extraction_method self) (py "xpath") then
        Some (SelectorExtractor.extract_by_xpath lxml_xpath html
                (content_xpath self) (exclude_xpath self))
      else
        Some (SelectorExtractor.extract_combined soup_select lxml_xpath html
                (content_css_selectors self) (content_xpath self)
                (exclude_css_selectors self) (exclude_xpath self))
  end.

(** [selector_content and len(selector_content) >= self.min_content_length]. *)
Definition selector_content_kept (self : t) (selector_content : option str) : bool :=
  match selector_content with
  | Some (c :: r) => (min_content_length self <=? Z.of_nat (length (c :: r)))%Z
  | _ => false
  end.

Definition clean_with_selectors (self : t) (html markdown title : str) : str :=
  let selector_content := extract_with_selectors self html in
  if selector_content_kept self selector_content
  then ContentCleaner.clean_markdown_content (cleaner self) (default [] selector_content) title
  else ContentCleaner.clean_markdown_content (cleaner self) markdown title.

Definition set_selector_template (self : t) (template_name : str) : t :=
  match SelectorExtractor.get_template selector_templates template_name with
  | Some template =>
      {| cleaner := cleaner self;
         content_css_selectors := SelectorExtractor.css template;
         content_xpath := SelectorExtractor.xpath template;
         exclude_css_selectors := SelectorExtractor.exclude_css template;
         exclude_xpath := SelectorExtractor.exclude_xpath template;
         extraction_method := extraction_method self;
         min_content_length := min_content_length self;
         preserve_elements := preserve_elements self;
         cleaning_profile := cleaning_profile self |}
  | None => self
  end.

End Selectors.

End ConfigurableContentCleaner.

(** ** [ContentCrawler] *)

Module ContentCrawler.

Import PyStr.

(** An entry of [result.metadata] as [.get(key, default)] reads it: the
    key is missing (or there is no metadata at all), its value is
    [None], or its value is a text. *)
Inductive MetaValue : Type :=
| Missing
| IsNone
| Text (s : str).

(** [metadata.get(key, default) if metadata else default]; the result
    is [None] when the value stored under the key is Python's [None]. *)
Definition meta_get (v : MetaValue) (default : str) : option str :=
  match v with
  | Missing => Some default
  | IsNone => None
  | Text s => Some s
  end.

(** The result object of [crawler.arun], as [crawl_single_url] reads
    it.  [markdown], [html] and [cleaned_html] are the empty text when
    the attribute is missing, [None] or empty; [title] and [description]
    are the two metadata entries; [links_count] is the number of
    internal and external links; [error_message] is the text the
    failure message shows for the attribute ([Unknown error] when the
    result has none). *)
Record CrawlResult : Type := {
  success : bool;
  markdown : str;
  html : str;
  title : MetaValue;
  description : MetaValue;
  cleaned_html : str;
  links_count : nat;
  error_message : str
}.

(** [crawler.arun] raises an exception (with its [str(e)]) or returns. *)
Inductive ArunOutcome : Type :=
| ArunRaises (message : str)
| ArunReturns (result : CrawlResult).

(** The dictionary of a crawled page; [cd_title] and [cd_description]
    are [None] when the value is Python's [None].  The time stamp and
    the two constant entries are left out. *)
Record ContentData : Type := {
  cd_url : str;
  cd_title : option str;
  cd_description : option str;
  cd_markdown : str;
  cd_content_length : nat;
  cd_links_count : nat
}.

(** The dictionaries [crawl_single_url] returns: the content data of a
    page (['success': True]) or a failure record (['success': False]). *)
Inductive UrlResult : Type :=
| Crawled (data : ContentData)
| Failed (url : str) (error : str).

Definition result_url (r : UrlResult) : str :=
  match r with
  | Crawled d => cd_url d
  | Failed u _ => u
  end.

(** [r.get('success')]. *)
Definition get_success (r : UrlResult) : bool :=
  match r with
  | Crawled _ => true
  | Failed _ _ => false
  end.

Inductive Cleaner : Type :=
| Basic (c : ContentCleaner.t)
| Configurable (c : ConfigurableContentCleaner.t).

Record t : Type := {
  config : CrawlConfig.t;
  content_cleaner : Cleaner;
  results : list UrlResult;
  failed_urls : list (str * str)
}.

Record Summary : Type := {
  total_urls : nat;
  successful : nat;
  failed : nat;
  total_content_length : nat;
  summary_results : list UrlResult;
  summary_failed_urls : list (str * str)
}.

(** The characters [url_to_filename] replaces by an underscore, in the
    order of its [replace] calls; code 34 is the double quote. *)
Definition filename_invalid_chars : str :=
  ["/"; "\"; ":"; "*"; "?"; "034"; "<"; ">"; "|"]%char.

(** [url_to_filename]; [None] when [urlparse] raises. *)
Definition url_to_filename (check_bracketed_host : str -> bool) (url : str) : option str :=
  match UrlParse.urlparse check_bracketed_host url with
  | None => None
  | Some parsed =>
      let filename := UrlParse.netloc parsed ++ UrlParse.path parsed in
      let filename :=
        fold_left (fun f c => replace [c] (py "_") f) filename_invalid_chars filename in
      let filename := strip_chars (py "_") filename in
      Some (if endswith (py ".md") filename then filename else filename ++ py ".md")
  end.

Section Crawl.

Variable selector_templates : str -> option SelectorExtractor.Template.
Variable soup_select : str -> list str -> list str -> str.
Variable lxml_xpath : str -> list str -> list str -> str.

(** [crawler.arun] for the task with a given index and URL. *)
Variable arun : nat -> str -> ArunOutcome.

(** Writing the page to its output file ([get_output_path], the
    [mkdir] of its directory and the write): [None] when it is written,
    [Some message] when an exception with that text is raised. *)
Variable persist : ContentData -> option str.

(** [progress_callback]: absent, or a function that returns ([true])
    or raises ([false]). *)
Variable progress_callback : option (nat -> nat -> str -> bool).

(** Writing [crawl_summary.json]: [true] when it is written, [false]
    when opening or writing the file raises. *)
Variable write_summary : Summary -> bool.

Definition __init__ (config : CrawlConfig.t) : t :=
  let custom :=
    match CrawlConfig.content_css_selectors config, CrawlConfig.content_xpath config,
          CrawlConfig.custom_nav_patterns config, CrawlConfig.custom_footer_patterns config,
          CrawlConfig.custom_skip_patterns config with
    | [], [], [], [], [] =>
        negb (str_eqb (CrawlConfig.cleaning_profile config) (py "moderate"))
    | _, _, _, _, _ => true
    end in
  let content_cleaner :=
    if custom then
      let c := ConfigurableContentCleaner.__init__
                 (Some (CrawlConfig.custom_nav_patterns config))
                 (Some (CrawlConfig.custom_footer_patterns config))
                 (Some (CrawlConfig.custom_skip_patterns config))
                 (Some (CrawlConfig.content_css_selectors config))
                 (Some (CrawlConfig.content_xpath config))
                 (Some (CrawlConfig.exclude_css_selectors config))
                 (Some (CrawlConfig.exclude_xpath config))
                 (CrawlConfig.extraction_method config)
                 (CrawlConfig.min_content_length config)
                 (Some (CrawlConfig.preserve_elements config))
                 (CrawlConfig.cleaning_profile config) in
      match CrawlConfig.selector_template config with
      | Some (x :: name) =>
          Configurable (ConfigurableContentCleaner.set_selector_template
                          selector_templates c (x :: name))
      | _ => Configurable c
      end
    else Basic ContentCleaner.__init__ in
  {| config := config; content_cleaner := content_cleaner; results := []; failed_urls := [] |}.

Definition clean_markdown_content (self : t) (markdown title html : str) : str :=
  match content_cleaner self, html with
  | Configurable c, _ :: _ =>
      ConfigurableContentCleaner.clean_with_selectors soup_select lxml_xpath c html markdown title
  | Configurable c, [] => ContentCleaner.clean_markdown_content
                            (ConfigurableContentCleaner.cleaner c) markdown title
  | Basic c, _ => ContentCleaner.clean_markdown_content c markdown title
  end.

Definition record_failure (self : t) (url error_msg : str) : UrlResult * t :=
  (Failed url error_msg,
   {| config := config self; content_cleaner := content_cleaner self;
      results := results self;
      failed_urls := failed_urls self ++ [(url, error_msg)] |}).

(** [crawl_single_url] for the task with index [index]: the
    dictionary it returns and the crawler afterwards. *)
Definition crawl_single_url (self : t) (index : nat) (url : str) : UrlResult * t :=
  match arun index url with
  | ArunRaises message => record_failure self url (py "Exception: " ++ message)
  | ArunReturns result =>
      if success result then
        let raw_markdown := markdown result in
        let raw_html := html result in
        let title := meta_get (title result) (py "Untitled") in
        (* The cleaners read the title in [if title:] only, where [None]
           counts as the empty text does. *)
        let markdown_content :=
          clean_markdown_content self raw_markdown (default [] title) raw_html in
        let markdown_content :=
          if length (strip markdown_content) <? 100 then
            match cleaned_html result, markdown_content with
            | _ :: _, _ =>
                py "[Note: Minimal markdown extracted, showing cleaned content]" ++ [nl; nl]
                  ++ cleaned_html result
            | [], [] => py "[No substantial content could be extracted from this page]"
            | [], _ => markdown_content
            end
          else markdown_content in
        let content_data :=
          {| cd_url := url; cd_title := title;
             cd_description := meta_get (description result) [];
             cd_markdown := markdown_content;
             cd_content_length := length markdown_content;
             cd_links_count := links_count result |} in
        match persist content_data with
        | None => (Crawled content_data, self)
        | Some message => record_failure self url (py "Exception: " ++ message)
        end
      else
        record_failure self url (py "Crawl failed: " ++ error_message result)
  end.

(** One task of [crawl_urls], run to its end: a callback that raises
    ends the task before the page is crawled ([gather] keeps the
    exception), otherwise the result is appended. *)
Definition crawl_with_semaphore (total : nat) (self : t) (task : nat * str) : t :=
  let '(index, url) := task in
  let called :=
    match progress_callback with
    | Some callback => callback index total url
    | None => true
    end in
  if called then
    let '(result, self) := crawl_single_url self index url in
    {| config := config self; content_cleaner := content_cleaner self;
       results := results self ++ [result];
       failed_urls := failed_urls self |}
  else self.

(** [enumerate(urls)]. *)
Definition enumerate (urls : list str) : list (nat * str) :=
  combine (seq 0 (length urls)) urls.

Definition content_length_of (r : UrlResult) : nat :=
  match r with
  | Crawled d => cd_content_length d
  | Failed _ _ => 0
  end.

Definition summarize (self : t) (urls : list str) : Summary :=
  let successful := List.filter (fun r => get_success r) (results self) in
  let failed := List.filter (fun r => negb (get_success r)) (results self) in
  {| total_urls := length urls;
     successful := length successful;
     failed := length failed;
     total_content_length := list_sum (map content_length_of successful);
     summary_results := results self;
     summary_failed_urls := failed_urls self |}.

(** [crawl_urls].  The tasks run concurrently; [order] is the order
    in which they reach the end of [crawl_single_url] (a failure is
    recorded and the result appended without an intervening
    [await]).  The crawler afterwards, and the summary, or [None]
    when writing the summary file raises. *)
Definition crawl_urls (self : t) (urls : list str) (order : list (nat * str))
  : t * option Summary :=
  let self := {| config := config self; content_cleaner := content_cleaner self;
                 results := []; failed_urls := [] |} in
  let self := fold_left (crawl_with_semaphore (length urls)) order self in
  let summary := summarize self urls in
  (self, if write_summary summary then Some summary else None).

(** Whether the progress callback returns for a task (it may raise). *)
Definition callback_passes (total : nat) (task : nat * str) : bool :=
  match progress_callback with
  | Some callback => callback (fst task) total (snd task)
  | None => true
  end.

(** The dictionary [crawl_single_url] returns for a task. *)
Definition task_result (self : t) (index : nat) (url : str) : UrlResult :=
  fst (crawl_single_url self index url).

(** The entry a failure adds to [failed_urls]. *)
Definition failure_entry (r : UrlResult) : list (str * str) :=
  match r with
  | Crawled _ => []
  | Failed u e => [(u, e)]
  end.

(** The output directory.  [crawl_urls] itself never creates it: the
    only [mkdir] calls are those of [get_output_path] and the one right
    after its call, on the way to writing a page, which a task reaches
    when its callback has returned and its fetch reports success. *)
Definition reaches_save (total : nat) (task : nat * str) : bool :=
  callback_passes total task &&
  match arun (fst task) (snd task) with
  | ArunReturns result => success result
  | ArunRaises _ => false
  end.

(** Whether the directory can be there when the summary is written:
    it was there before the call ([existed]) or some task got as far as
    creating it. *)
Definition output_dir_possible (existed : bool) (total : nat) (order : list (nat * str)) : bool :=
  existed || existsb (reaches_save total) order.

(** [crawl_urls] with the output directory followed through the call:
    opening [crawl_summary.json] for writing raises [FileNotFoundError]
    when the directory is missing, and nothing catches it; when the
    directory is there the file is written, or not, as [write_summary]
    says. *)
Definition crawl_urls_on_disk (existed : bool) (self : t) (urls : list str)
           (order : list (nat * str)) : t * option Summary :=
  let '(self, summary) := crawl_urls self urls order in
  (self, if output_dir_possible existed (length urls) order then summary else None).

End Crawl.

End ContentCrawler.

(** ** [OutputManager]: file names *)

Module OutputManager.

Import PyStr.

Definition NAMING_URL_BASED : str := py "url_based".
Definition NAMING_TITLE_BASED : str := py "title_based".
Definition NAMING_TIMESTAMP : str := py "timestamp".
Definition NAMING_HASH : str := py "hash".

(** The attributes the file-name functions read. *)
Record t : Type := {
  naming_convention : str;
  max_filename_length : Z
}.

Definition __init__ : t := {|
  naming_convention := NAMING_URL_BASED;
  max_filename_length := 255
|}.

(** The keys of [content_data] that [_generate_filename] reads; [None]
    for a key that is absent. *)
Record ContentData : Type := {
  url : option str;
  title : option str
}.

(** [\w] on one code point below 256: what [str.isalnum] accepts, and
    the underscore. *)
Definition is_word (c : ascii) : bool :=
  let n := code c in
  ((48 <=? n) && (n <=? 57) || (65 <=? n) && (n <=? 90) || (n =? 95) ||
   (97 <=? n) && (n <=? 122) || (n =? 170) || (n =? 178) || (n =? 179) || (n =? 181) ||
   (n =? 185) || (n =? 186) || (188 <=? n) && (n <=? 190) ||
   (192 <=? n) && (n <=? 214) || (216 <=? n) && (n <=? 246) || (248 <=? n))%N.

(** [re.sub(r'[^\w\s-]', '', s)]. *)
Definition drop_non_word (s : str) : str :=
  List.filter (fun c => is_word c || isspace c || chr_eqb c "-"%char) s.

(** [[-\s]+] replaced by one underscore. *)
Definition dash_space_run_at (prev : option ascii) (s : str) : option (nat * str) :=
  match take_while (fun c => chr_eqb c "-"%char || isspace c) s with
  | [] => None
  | run => Some (length run, py "_")
  end.

(** The characters of [invalid_chars], in its order; code 34 is the
    double quote. *)
Definition invalid_chars : str := ["<"; ">"; ":"; "034"; "|"; "?"; "*"]%char.

Definition _clean_filename (self : t) (filename : str) : str :=
  let filename := fold_left (fun f char => replace [char] (py "_") f) invalid_chars filename in
  let filename := List.filter (fun c => (32 <=? code c)%N) filename in
  let filename :=
    if (max_filename_length self - 3 <? Z.of_nat (length filename))%Z
    then slice_to (max_filename_length self - 3) filename
    else filename in
  let filename := rstrip_chars (py ". ") filename in
  match filename with
  | [] => py "unnamed"
  | _ => filename
  end.

(** [x or 'unknown']. *)
Definition or_unknown (x : str) : str :=
  match x with
  | [] => py "unknown"
  | _ => x
  end.

Section Naming.

Variable check_bracketed_host : str -> bool.

(** The text [datetime.now().strftime(self.timestamp_format)] gives. *)
Variable now_strftime : str.

(** [hashlib.md5(url.encode()).hexdigest()]. *)
Variable md5_hexdigest : str -> str.

(** [_generate_filename]; [None] when [urlparse] raises. *)
Definition _generate_filename (self : t) (content_data : ContentData) : option str :=
  let url := default (py "unknown") (url content_data) in
  let base_name : option str :=
    if str_eqb (naming_convention self) NAMING_URL_BASED then
      match UrlParse.urlparse check_bracketed_host url with
      | None => None
      | Some parsed =>
          let domain := replace (py "www.") [] (UrlParse.netloc parsed) in
          let path := strip_chars (py "/") (UrlParse.path parsed) in
          match path with
          | [] => Some domain
          | _ =>
              let path_clean := replace (py "-") (py "_") (replace (py "/") (py "_") path) in
              Some (domain ++ py "_" ++ path_clean)
          end
      end
    else if str_eqb (naming_convention self) NAMING_TITLE_BASED then
      let title := default (py "untitled") (title content_data) in
      Some (scan dash_space_run_at None 0 (drop_non_word (lower title)))
    else if str_eqb (naming_convention self) NAMING_TIMESTAMP then
      match UrlParse.urlparse check_bracketed_host url with
      | None => None
      | Some parsed =>
          let domain := or_unknown (replace (py "www.") [] (UrlParse.netloc parsed)) in
          Some (domain ++ py "_" ++ now_strftime)
      end
    else if str_eqb (naming_convention self) NAMING_HASH then
      let url_hash := firstn 12 (md5_hexdigest url) in
      match UrlParse.urlparse check_bracketed_host url with
      | None => None
      | Some parsed =>
          let domain := or_unknown (replace (py "www.") [] (UrlParse.netloc parsed)) in
          Some (domain ++ py "_" ++ url_hash)
      end
    else Some [] in
  match base_name with
  | None => None
  | Some base_name =>
      let base_name := _clean_filename self base_name in
      Some (if endswith (py ".md") base_name then base_name else base_name ++ py ".md")
  end.

End Naming.

End OutputManager.

(** * Documents, batches and sites used in the statements *)

Definition doc (lines : list str) : str := PyStr.join [PyStr.nl] lines.

(** The four-line document of the footer example. *)
Definition footer_doc : str :=
  doc [py "## Guide"; py "Substantial paragraph text here that is long enough.";
       py "Copyright 2024 All rights reserved"; py "More content that would have been kept"].

(** Two lines, with three lines between them that hold one blank each. *)
Definition blank_run_doc : str := doc [py "a"; py " "; py " "; py " "; py "b"].

(** A single line of more than 500 characters. *)
Definition run_on_doc : str :=
  py "This part covers the first topic. Next topic starts here and then it is done. Another topic follows, e.g. Something, i.e. Anything is fine here "
  ++ repeat "x"%char 520.

(** A level-2 to level-6 heading as the specification words it: two to
    six [#], then whitespace, then some text. *)
Definition spec_section_heading (line : str) : bool :=
  let hashes := PyStr.take_while (PyStr.chr_eqb "#"%char) line in
  (2 <=? length hashes) && (length hashes <=? 6) &&
  match skipn (length hashes) line with
  | c :: r => PyStr.isspace c && negb (PyStr.str_eqb (PyStr.strip r) [])
  | [] => false
  end.

(** The text of such a heading. *)
Definition spec_heading_text (line : str) : str :=
  PyStr.strip (PyStr.drop_while (PyStr.chr_eqb "#"%char) line).

(** What the specification says of a heading line met before content has
    started: the pass goes on with the content-started flag set, the
    navigation-skipping phase off, and the line (enhanced) appended. *)
Definition heading_starts_content (self : ContentCleaner.t) (title : str) (line : str)
           (st : ContentCleaner.ClassificationState) : Prop :=
  ContentCleaner.loop_body self title [line] 0 line st =
  ContentCleaner.Next
    {| ContentCleaner.cleaned_lines :=
         ContentCleaner.cleaned_lines st ++ [ContentCleaner.enhance_markdown_formatting line];
       ContentCleaner.content_started := true;
       ContentCleaner.in_footer := ContentCleaner.in_footer st;
       ContentCleaner.skip_navigation_section := false |}.

(** A batch of five URLs in which the fetch of the third one raises;
    the tasks end in the reverse of their order. *)
Definition five_urls : list str :=
  [py "https://docs.example/a"; py "https://docs.example/b"; py "https://docs.example/c";
   py "https://docs.example/d"; py "https://docs.example/e"].

Definition five_page : ContentCrawler.CrawlResult :=
  {| ContentCrawler.success := true;
     ContentCrawler.markdown :=
       py "This page explains in a few plain sentences how the crawler stores each page it has fetched and cleaned.";
     ContentCrawler.html := [];
     ContentCrawler.title := ContentCrawler.Text (py "Storing pages");
     ContentCrawler.description := ContentCrawler.Missing;
     ContentCrawler.cleaned_html := [];
     ContentCrawler.links_count := 0;
     ContentCrawler.error_message := [] |}.

Definition five_arun (index : nat) (url : str) : ContentCrawler.ArunOutcome :=
  if index =? 2 then ContentCrawler.ArunRaises (py "connection reset")
  else ContentCrawler.ArunReturns five_page.

Definition five_crawler : ContentCrawler.t :=
  ContentCrawler.__init__ (fun _ => None) CrawlConfig.__init__.

Definition five_run : ContentCrawler.t * option ContentCrawler.Summary :=
  ContentCrawler.crawl_urls (fun _ _ _ => []) (fun _ _ _ => []) five_arun (fun _ => None) None
    (fun _ => true) five_crawler five_urls (rev (ContentCrawler.enumerate five_urls)).

(** A site of three pages: the seed links to two pages (one of them
    twice, one link empty), which link nowhere. *)
Definition site_seed : str := py "https://site.example/".

Definition site_arun (url : str) : URLDiscovery.ArunOutcome :=
  if PyStr.str_eqb url site_seed
  then URLDiscovery.ArunReturns true
         [py "https://site.example/a"; py ""; py "https://site.example/b/";
          py "https://site.example/a#top"]
  else URLDiscovery.ArunReturns true [].

(** The state after the first pass of the loop on that site, with the
    default settings and links that are already absolute. *)
Definition site_state1 : URLDiscovery.State :=
  default (URLDiscovery.initial site_seed)
    (URLDiscovery.step (fun _ => true) (fun _ link => Some link) Regex.re_match site_arun
       CrawlConfig.__init__ site_seed None None (URLDiscovery.initial site_seed)).

(** Settings with a negative maximum depth. *)
Definition negative_depth_config : CrawlConfig.t :=
  {| CrawlConfig.max_depth := -1;
     CrawlConfig.max_pages := 50;
     CrawlConfig.include_external := false;
     CrawlConfig.extraction_method := py "auto";
     CrawlConfig.content_css_selectors := [];
     CrawlConfig.content_xpath := [];
     CrawlConfig.exclude_css_selectors := [];
     CrawlConfig.exclude_xpath := [];
     CrawlConfig.cleaning_profile := py "moderate";
     CrawlConfig.selector_template := None;
     CrawlConfig.min_content_length := 100;
     CrawlConfig.preserve_elements := [py "code"; py "pre"; py "blockquote"];
     CrawlConfig.custom_nav_patterns := [];
     CrawlConfig.custom_footer_patterns := [];
     CrawlConfig.custom_skip_patterns := [] |}.

(** The classification pass as a pipeline.  [before_footer]: the lines
    up to the first footer line. *)
Fixpoint before_footer (self : ContentCleaner.t) (lines : list str) : list str :=
  match lines with
  | [] => []
  | line :: rest =>
      if ContentCleaner._is_footer_line self (PyStr.strip line) then []
      else line :: before_footer self rest
  end.

(** A line at which the content starts: not blank, not skipped, not
    part of a navigation section, and accepted by
    [_is_main_content_start]. *)
Definition starts_content (self : ContentCleaner.t) (title : str) (all_lines : list str)
           (i : nat) (line : str) : bool :=
  let stripped := PyStr.strip line in
  negb (match stripped with [] => true | _ => false end) &&
  negb (ContentCleaner._should_skip_line self stripped) &&
  negb (ContentCleaner._is_navigation_section stripped all_lines i) &&
  ContentCleaner._is_main_content_start self stripped title all_lines i.

(** [from_start]: the lines from the first such line on ([i] is the
    index of the head of [rest] in [all_lines]). *)
Fixpoint from_start (self : ContentCleaner.t) (title : str) (all_lines : list str)
         (i : nat) (rest : list str) : list str :=
  match rest with
  | [] => []
  | line :: rest' =>
      if starts_content self title all_lines i line then rest
      else from_start self title all_lines (S i) rest'
  end.

(** A line that is kept once the content has started. *)
Definition kept_line (self : ContentCleaner.t) (line : str) : bool :=
  negb (ContentCleaner._should_skip_line self (PyStr.strip line)) &&
  negb (ContentCleaner._is_likely_navigation (PyStr.strip line)).

(** What a cleaned page looks like: empty, or lines without trailing
    white space of which the first and the last are not blank. *)
Definition trimmed_page (out : str) : Prop :=
  out = [] \/
  (let ls := PyStr.split_on PyStr.nl out in
   Forall (fun l => PyStr.rstrip l = l) ls /\
   PyStr.strip (hd [] ls) <> [] /\ PyStr.strip (List.last ls []) <> []).

(** A page of navigation entries only. *)
Definition nav_only_doc : str := doc [py "Home"; py "About us"; py ""; py "Contact"].

(** The default settings with another depth, page budget and
    external-link switch. *)
Definition settings (max_depth max_pages : Z) (include_external : bool) : CrawlConfig.t :=
  {| CrawlConfig.max_depth := max_depth;
     CrawlConfig.max_pages := max_pages;
     CrawlConfig.include_external := include_external;
     CrawlConfig.extraction_method := py "auto";
     CrawlConfig.content_css_selectors := [];
     CrawlConfig.content_xpath := [];
     CrawlConfig.exclude_css_selectors := [];
     CrawlConfig.exclude_xpath := [];
     CrawlConfig.cleaning_profile := py "moderate";
     CrawlConfig.selector_template := None;
     CrawlConfig.min_content_length := 100;
     CrawlConfig.preserve_elements := [py "code"; py "pre"; py "blockquote"];
     CrawlConfig.custom_nav_patterns := [];
     CrawlConfig.custom_footer_patterns := [];
     CrawlConfig.custom_skip_patterns := [] |}.

(** A wildcard pattern without wildcards: no star, no question mark,
    and none of the characters the conversion leaves with a meaning of
    their own (bar, backslash, and the [<] of its placeholder). *)
Definition literal_pattern (pattern : str) : bool :=
  forallb (fun c => negb (PyStr.has_char c (py "*?|\<"))) pattern.

(** A text whose first character is none of the quantifiers [* ? + {]. *)
Definition next_ok (t : str) : Prop :=
  match t with
  | [] => True
  | x :: _ => PyStr.has_char x (py "*?+{") = false
  end.

(** What the ten escaping steps of [convert_wildcard_to_regex] make of
    one character. *)
Definition escape_char (c : ascii) : str :=
  if PyStr.has_char c (py ".+^$()[]{}") then ["\"%char; c] else [c].

(** The default settings with a selector template and nothing else. *)
Definition template_only_config : CrawlConfig.t :=
  {| CrawlConfig.max_depth := 2;
     CrawlConfig.max_pages := 50;
     CrawlConfig.include_external := false;
     CrawlConfig.extraction_method := py "auto";
     CrawlConfig.content_css_selectors := [];
     CrawlConfig.content_xpath := [];
     CrawlConfig.exclude_css_selectors := [];
     CrawlConfig.exclude_xpath := [];
     CrawlConfig.cleaning_profile := py "moderate";
     CrawlConfig.selector_template := Some (py "blog");
     CrawlConfig.min_content_length := 100;
     CrawlConfig.preserve_elements := [py "code"; py "pre"; py "blockquote"];
     CrawlConfig.custom_nav_patterns := [];
     CrawlConfig.custom_footer_patterns := [];
     CrawlConfig.custom_skip_patterns := [] |}.

(** The discovery pass on the site of three pages, with links that are
    already absolute and no patterns. *)
Definition site_discovery (config : CrawlConfig.t) (fuel : nat)
  : option (list str * URLDiscovery.State) :=
  URLDiscovery.discover_urls (fun _ => true) (fun _ link => Some link) Regex.re_match site_arun
    config fuel site_seed None None.

(** [normalize_url(url)] with no base URL ([urljoin] is not called). *)
Definition normalize1 (check_bracketed_host : str -> bool) (url : str) : option str :=
  URLDiscovery.normalize_url check_bracketed_host (fun _ joined => Some joined) url None.

(** The text [normalize_url] puts together from the parts of a URL,
    before it looks at the trailing slash. *)
Definition unsplit (scheme netloc path query : str) : str :=
  scheme ++ py "://" ++ netloc ++ path ++
  match query with
  | [] => []
  | q => py "?" ++ q
  end.

(** A fetched page whose only line is a warning of 90 characters, with
    a title that is [None] in the metadata. *)
Definition warning_page : ContentCrawler.CrawlResult :=
  {| ContentCrawler.success := true;
     ContentCrawler.markdown :=
       py "Warning: the service keeps every request it gets in a log file for about thirty days or so";
     ContentCrawler.html := [];
     ContentCrawler.title := ContentCrawler.IsNone;
     ContentCrawler.description := ContentCrawler.Missing;
     ContentCrawler.cleaned_html := py "<p>Kept for thirty days.</p>";
     ContentCrawler.links_count := 3;
     ContentCrawler.error_message := [] |}.

(** A level-2 heading of 24 characters, and a page that opens with it. *)
Definition options_heading : str := py "## Configuration options".

Definition options_paragraph : str :=
  py "Each option is read from the settings file when the crawler starts.".

Definition options_doc : str := doc [options_heading; options_paragraph].

(** A wildcard pattern that holds a backslash: a backslash and an
    opening parenthesis. *)
Definition backslash_pattern : str := py "\(".

(** A batch of one URL whose fetch raises, run with or without the
    output directory in place. *)
Definition lone_urls : list str := [py "https://docs.example/a"].

Definition lone_arun (index : nat) (url : str) : ContentCrawler.ArunOutcome :=
  ContentCrawler.ArunRaises (py "connection reset").

Definition lone_run (existed : bool) : ContentCrawler.t * option ContentCrawler.Summary :=
  ContentCrawler.crawl_urls_on_disk (fun _ _ _ => []) (fun _ _ _ => []) lone_arun (fun _ => None)
    None (fun _ => true) existed five_crawler lone_urls (ContentCrawler.enumerate lone_urls).

(** * Properties *)

(** ** Footer onset ends the document *)

Section FooterOnset.

Import PyStr ContentCleaner.

Variable self : ContentCleaner.t.
Variable title : str.

Lemma startswith_nil_r (p : str) : startswith p [] = true -> p = [].
Proof. destruct p; [reflexivity | discriminate]. Qed.

Lemma contains_nil_l (s : str) : contains [] s = true.
Proof. destruct s; reflexivity. Qed.

(** A cleaner for which the empty text counts as a footer line holds
    the empty text among its footer indicators, so every line does. *)
Lemma footer_of_empty (s : str) :
  _is_footer_line self [] = true -> _is_footer_line self s = true.
Proof.
  unfold _is_footer_line, any_in. simpl lower.
  rewrite !existsb_exists. intros [p [Hin Hp]].
  exists p. split; [exact Hin |].
  simpl in Hp. rewrite orb_false_r in Hp.
  apply startswith_nil_r in Hp. subst p. apply contains_nil_l.
Qed.

(** The loop body never looks at the list of all lines or at the
    index it is handed. *)
Lemma loop_body_independent lines i lines' i' line st :
  loop_body self title lines i line st = loop_body self title lines' i' line st.
Proof. reflexivity. Qed.

Lemma loop_body_next_in_footer lines i line st st' :
  in_footer st = false ->
  loop_body self title lines i line st = Next st' ->
  in_footer st' = false.
Proof.
  intros Hf. unfold loop_body.
  repeat match goal with
         | |- context [if ?b then _ else _] => destruct b
         | |- context [match ?x with Some _ => _ | None => _ end] => destruct x
         end; intros H; inversion H; subst; simpl; auto.
Qed.

(** Before content has started, blank lines are passed over and any
    other line of an all-footer cleaner ends the pass. *)
Lemma all_footer_keeps_lines lines i rest st :
  content_started st = false ->
  in_footer st = false ->
  _is_footer_line self [] = true ->
  cleaned_lines (classify_from self title lines i rest st) = cleaned_lines st.
Proof.
  intros Hc Hf Hall. revert i.
  induction rest as [|line rest IH]; intros i; [reflexivity |].
  simpl. unfold loop_body. rewrite Hc, Hf. simpl.
  destruct (strip line) eqn:Hs.
  - apply IH.
  - rewrite (footer_of_empty _ Hall). reflexivity.
Qed.

Lemma classify_from_footer lines i lines' i' pre f post st :
  in_footer st = false ->
  _is_footer_line self (strip f) = true ->
  cleaned_lines (classify_from self title lines i (pre ++ f :: post) st) =
  cleaned_lines (classify_from self title lines' i' pre st).
Proof.
  intros Hf Hfoot. revert i i' st Hf.
  induction pre as [|line pre IH]; intros i i' st Hf.
  - simpl. unfold loop_body at 1. rewrite Hf. simpl.
    destruct (negb (content_started st) && match strip f with [] => true | _ :: _ => false end)
      eqn:Hblank.
    + apply andb_true_iff in Hblank as [Hc Hs].
      destruct (strip f) eqn:Hsf; [| discriminate].
      apply all_footer_keeps_lines; [ | exact Hf | exact Hfoot].
      now destruct (content_started st).
    + rewrite Hfoot. reflexivity.
  - simpl. rewrite (loop_body_independent lines i lines' i').
    destruct (loop_body self title lines' i' line st) eqn:Hb; [| reflexivity].
    apply IH. eapply loop_body_next_in_footer; eauto.
Qed.

End FooterOnset.

(** C1. For every cleaner, document and title: when the lines of the
    document, as the classification pass receives them, are [pre], then a
    line [f] matching a footer indicator, then [post], the cleaned output
    is the one computed from [pre] alone -- nothing of [f] or [post]
    enters it.  For the four-line example the output is the paragraph
    line only: neither the copyright line nor the line after it. *)
Theorem footer_line_ends_document :
  (forall (self : ContentCleaner.t) (markdown title : str) (pre post : list str) (f : str),
      PyStr.split_on PyStr.nl (ContentCleaner.unwrap markdown) = pre ++ f :: post ->
      ContentCleaner._is_footer_line self (PyStr.strip f) = true ->
      ContentCleaner.clean_markdown_content self markdown title =
      ContentCleaner._clean_whitespace
        (PyStr.join [PyStr.nl]
           (ContentCleaner.cleaned_lines (ContentCleaner.classify self title pre)))) /\
  (let out := ContentCleaner.clean_markdown_content ContentCleaner.__init__ footer_doc (py "") in
   out = py "Substantial paragraph text here that is long enough." /\
   PyStr.contains (py "Copyright") out = false /\
   PyStr.contains (py "More content") out = false).
Proof.
  split.
  - intros self markdown title pre post f Hsplit Hfoot.
    unfold ContentCleaner.clean_markdown_content.
    destruct markdown as [|c m].
    { (* the empty document has one empty line, so nothing precedes [f] *)
      destruct pre as [|l [|l' pre]]; [reflexivity | discriminate | discriminate]. }
    cbv zeta. rewrite Hsplit. unfold ContentCleaner.classify.
    f_equal. f_equal.
    apply classify_from_footer; [reflexivity | exact Hfoot].
  - vm_compute. auto.
Qed.

Lemma footer_line_ends_document_witness :
  ContentCleaner.clean_markdown_content ContentCleaner.__init__ footer_doc (py "") =
  ContentCleaner._clean_whitespace
    (PyStr.join [PyStr.nl]
       (ContentCleaner.cleaned_lines
          (ContentCleaner.classify ContentCleaner.__init__ (py "")
             [py "## Guide"; py "Substantial paragraph text here that is long enough."]))).
Proof.
  apply (proj1 footer_line_ends_document ContentCleaner.__init__ footer_doc (py "")
           [py "## Guide"; py "Substantial paragraph text here that is long enough."]
           [py "More content that would have been kept"]
           (py "Copyright 2024 All rights reserved")).
  - vm_compute. reflexivity.
  - vm_compute. reflexivity.
Defined.

(** ** URL pattern matching *)

Section PatternMatching.

Import URLPatternHandler.

Variable re_match : str -> str -> option bool.
Variable url : str.

#[local] Abbreviation url_matches := (URLPatternHandler.url_matches re_match url).

Lemma first_match_true (patterns : list str) :
  first_match re_match url patterns = Some true ->
  exists p, In p patterns /\ url_matches p.
Proof.
  induction patterns as [|p ps IH]; simpl; [discriminate |].
  destruct (re_match (convert_wildcard_to_regex p) url) as [[|]|] eqn:Hp; intros H.
  - exists p. split; [now left | exact Hp].
  - destruct (IH H) as [q [Hin Hq]]. exists q. split; [now right | exact Hq].
  - discriminate.
Qed.

Lemma first_match_total (patterns : list str) :
  (forall p, In p patterns -> re_match (convert_wildcard_to_regex p) url <> None) ->
  first_match re_match url patterns = Some true \/
  (first_match re_match url patterns = Some false /\
   forall p, In p patterns -> ~ url_matches p).
Proof.
  induction patterns as [|p ps IH]; simpl; intros Hc.
  - right. split; [reflexivity | intros p []].
  - destruct (re_match (convert_wildcard_to_regex p) url) as [[|]|] eqn:Hp.
    + now left.
    + destruct IH as [IH | [IH Hn]]; [intros q Hq; apply Hc; now right | now left |].
      right. split; [exact IH |].
      intros q [<- | Hq]; [unfold URLPatternHandler.url_matches; congruence | now apply Hn].
    + exfalso. apply (Hc p); [now left | exact Hp].
Qed.

(** A matching exclude pattern decides the call, whatever the include
    list holds, provided the exclude patterns before it compile. *)
Lemma exclude_wins (patterns exclude_patterns : option (list str)) :
  first_match re_match url (default [] exclude_patterns) = Some true ->
  match_url_pattern re_match url patterns exclude_patterns = Some false.
Proof. unfold match_url_pattern. intros ->. reflexivity. Qed.

End PatternMatching.

(** X27. When [re] accepts every pattern, [match_url_pattern] returns, and
    it returns true exactly when the URL matches no exclude pattern and
    the include list is empty (or absent) or holds a pattern the URL
    matches; a URL that matches an exclude pattern is rejected, also
    when it matches an include pattern. *)
Theorem match_url_pattern_admits
  (re_match : str -> str -> option bool) (url : str)
  (patterns exclude_patterns : option (list str)) :
  (forall p, In p (default [] exclude_patterns ++ default [] patterns) ->
             re_match (URLPatternHandler.convert_wildcard_to_regex p) url <> None) ->
  (exists b, URLPatternHandler.match_url_pattern re_match url patterns exclude_patterns = Some b) /\
  (URLPatternHandler.match_url_pattern re_match url patterns exclude_patterns = Some true <->
   (forall p, In p (default [] exclude_patterns) -> ~ URLPatternHandler.url_matches re_match url p) /\
   (default [] patterns = [] \/
    exists p, In p (default [] patterns) /\ URLPatternHandler.url_matches re_match url p)) /\
  ((exists p, In p (default [] exclude_patterns) /\ URLPatternHandler.url_matches re_match url p) ->
   URLPatternHandler.match_url_pattern re_match url patterns exclude_patterns = Some false).
Proof.
  intros Hc.
  assert (He : forall p, In p (default [] exclude_patterns) ->
                         re_match (URLPatternHandler.convert_wildcard_to_regex p) url <> None)
    by (intros p Hp; apply Hc, in_or_app; now left).
  assert (Hi : forall p, In p (default [] patterns) ->
                         re_match (URLPatternHandler.convert_wildcard_to_regex p) url <> None)
    by (intros p Hp; apply Hc, in_or_app; now right).
  pose proof (first_match_total re_match url _ He) as Hex.
  pose proof (first_match_total re_match url _ Hi) as Hin.
  unfold URLPatternHandler.match_url_pattern.
  destruct Hex as [Hex | [Hex Hnone]]; rewrite Hex.
  - apply first_match_true in Hex as [q [Hq Hm]].
    split; [eauto |]. split; [| reflexivity].
    split; [discriminate |]. intros [Hno _]. exfalso. exact (Hno q Hq Hm).
  - destruct (default [] patterns) as [|p ps] eqn:Hps.
    + split; [eauto |]. split.
      * split; [intros _; split; [exact Hnone | now left] | reflexivity].
      * intros [q [Hq Hm]]. exfalso. exact (Hnone q Hq Hm).
    + destruct Hin as [Hin | [Hin Hnin]]; rewrite Hin.
      * split; [eauto |]. split.
        -- split; [intros _ | reflexivity].
           split; [exact Hnone | right; now apply first_match_true].
        -- intros [q [Hq Hm]]. exfalso. exact (Hnone q Hq Hm).
      * split; [eauto |]. split.
        -- split; [discriminate |].
           intros [_ [Hnil | [q [Hq Hm]]]]; [discriminate | exfalso; exact (Hnin q Hq Hm)].
        -- intros [q [Hq Hm]]. exfalso. exact (Hnone q Hq Hm).
Qed.

Lemma match_url_pattern_admits_witness :
  URLPatternHandler.match_url_pattern Regex.re_match (py "https://x.com/docs/internal/page")
    (Some [py "**/docs/**"]) (Some [py "**/docs/internal/**"]) = Some false.
Proof.
  apply (match_url_pattern_admits Regex.re_match (py "https://x.com/docs/internal/page")
           (Some [py "**/docs/**"]) (Some [py "**/docs/internal/**"])).
  - intros p Hp. simpl in Hp.
    destruct Hp as [<- | [<- | []]]; vm_compute; discriminate.
  - exists (py "**/docs/internal/**"). split; [now left | vm_compute; reflexivity].
Defined.

(** ** A pattern that holds a backslash *)

(** C2. [convert_wildcard_to_regex] escapes ten characters and leaves the
    backslash as it is.  The wildcard pattern made of a backslash and an
    opening parenthesis becomes an expression in which an escaped
    backslash is followed by a parenthesis that is never closed; [re]
    rejects it, and since [re.match] stands outside any [try], the call
    of [match_url_pattern] raises for every URL, whether the pattern is
    an exclude pattern or the first include pattern, where it is meant
    to return true or false. *)
Theorem match_url_pattern_raises_on_backslash :
  URLPatternHandler.convert_wildcard_to_regex backslash_pattern = py "^\\($" /\
  (forall (re_match : str -> str -> option bool) (url : str)
          (patterns : option (list str)) (others : list str),
     re_match (py "^\\($") url = None ->
     URLPatternHandler.match_url_pattern re_match url patterns
       (Some (backslash_pattern :: others)) = None /\
     URLPatternHandler.match_url_pattern re_match url
       (Some (backslash_pattern :: others)) None = None) /\
  Regex.re_match (py "^\\($") (py "https://x.com/a") = None /\
  URLPatternHandler.match_url_pattern Regex.re_match (py "https://x.com/a")
    None (Some [backslash_pattern]) = None.
Proof.
  assert (Hconv : URLPatternHandler.convert_wildcard_to_regex backslash_pattern = py "^\\($")
    by (vm_compute; reflexivity).
  split; [exact Hconv |]. split; [| split; vm_compute; reflexivity].
  intros re_match url patterns others Hraise.
  unfold URLPatternHandler.match_url_pattern.
  cbn [from_option id URLPatternHandler.first_match].
  rewrite Hconv, Hraise. split; reflexivity.
Qed.

(** ** The wildcard pattern of the blog example *)

Section BlogPattern.

Import PyStr Regex.

Lemma star_unfold cs k st s :
  star cs k st s =
  k st s || match s with [] => false | a :: t => cset_mem cs a && star cs k false t end.
Proof. destruct s; reflexivity. Qed.

Lemma has_char_cons c a s : has_char c (a :: s) = chr_eqb c a || has_char c s.
Proof. reflexivity. Qed.

Lemma star_not_slash_split k st s :
  star CNotSlash k st s = true ->
  exists a b st', s = a ++ b /\ has_char "/"%char a = false /\ k st' b = true.
Proof.
  revert st. induction s as [|c s IH]; intros st; rewrite star_unfold.
  - rewrite orb_false_r. intros H. exists [], [], st. auto.
  - intros H. apply orb_true_iff in H as [H | H].
    + exists [], (c :: s), st. auto.
    + apply andb_true_iff in H as [Hc H].
      destruct (IH _ H) as [a [b [st' [-> [Ha Hk]]]]].
      exists (c :: a), b, st'. split; [reflexivity |]. split; [| exact Hk].
      rewrite has_char_cons, Ha, orb_false_r.
      unfold cset_mem, chr_eqb in *. rewrite Ascii.eqb_sym.
      now destruct (Ascii.eqb c "/"%char).
Qed.

Lemma lit_prefix_split (lit : str) k s :
  match_items (map (fun c => IOne (CLit c)) lit ++ k) false s = true ->
  exists b, s = lit ++ b.
Proof.
  revert s. induction lit as [|c lit IH]; intros s; simpl.
  - eauto.
  - destruct s as [|a s]; [discriminate |].
    intros H. apply andb_true_iff in H as [Hc H].
    apply Ascii.eqb_eq in Hc. subst a.
    destruct (IH _ H) as [b ->]. eauto.
Qed.

End BlogPattern.

(** C6, as the code has it.  The pattern [*/blog/**] compiles to
    [^[^/]*/blog/.*$]; a URL it matches has no slash before its
    [/blog/], so it matches neither [https://x.com/a/blog/2024/post] nor
    [https://x.com/blog]; it does match [x.com/blog/2024/post], and the
    pattern [**/blog/**] matches the first URL and not the second. *)
Theorem blog_pattern_matches :
  URLPatternHandler.convert_wildcard_to_regex (py "*/blog/**") = py "^[^/]*/blog/.*$" /\
  (forall u, Regex.re_match (URLPatternHandler.convert_wildcard_to_regex (py "*/blog/**")) u
             = Some true ->
             exists a b, u = a ++ py "/blog/" ++ b /\ PyStr.has_char "/"%char a = false) /\
  Regex.re_match (URLPatternHandler.convert_wildcard_to_regex (py "*/blog/**"))
    (py "https://x.com/a/blog/2024/post") = Some false /\
  Regex.re_match (URLPatternHandler.convert_wildcard_to_regex (py "*/blog/**"))
    (py "https://x.com/blog") = Some false /\
  Regex.re_match (URLPatternHandler.convert_wildcard_to_regex (py "*/blog/**"))
    (py "x.com/blog/2024/post") = Some true /\
  Regex.re_match (URLPatternHandler.convert_wildcard_to_regex (py "**/blog/**"))
    (py "https://x.com/a/blog/2024/post") = Some true /\
  Regex.re_match (URLPatternHandler.convert_wildcard_to_regex (py "**/blog/**"))
    (py "https://x.com/blog") = Some false.
Proof.
  split; [reflexivity |].
  split; [| repeat split; vm_compute; reflexivity].
  intros u.
  replace (URLPatternHandler.convert_wildcard_to_regex (py "*/blog/**"))
    with (py "^[^/]*/blog/.*$") by reflexivity.
  unfold Regex.re_match.
  replace (Regex.parse (py "^[^/]*/blog/.*$"))
    with (Some [[Regex.IStart; Regex.IStar Regex.CNotSlash] ++
                map (fun c => Regex.IOne (Regex.CLit c)) (py "/blog/") ++
                [Regex.IStar Regex.CAny; Regex.IEnd]]) by (vm_compute; reflexivity).
  intros H. injection H as H.
  unfold Regex.matches in H. simpl existsb in H. rewrite orb_false_r in H.
  change (Regex.star Regex.CNotSlash
            (Regex.match_items (map (fun c => Regex.IOne (Regex.CLit c)) (py "/blog/") ++
                                [Regex.IStar Regex.CAny; Regex.IEnd])) true u = true) in H.
  apply star_not_slash_split in H as [a [b [st' [-> [Ha Hk]]]]].
  assert (Hk' : Regex.match_items
                  (map (fun c => Regex.IOne (Regex.CLit c)) (py "/blog/") ++
                   [Regex.IStar Regex.CAny; Regex.IEnd]) false b = true)
    by (destruct b; [discriminate | exact Hk]).
  apply lit_prefix_split in Hk' as [b' ->].
  exists a, b'. split; [reflexivity | exact Ha].
Qed.

Lemma blog_pattern_matches_witness :
  exists a b, py "x.com/blog/2024/post" = a ++ py "/blog/" ++ b /\
              PyStr.has_char "/"%char a = false.
Proof.
  apply (proj1 (proj2 blog_pattern_matches) (py "x.com/blog/2024/post")).
  vm_compute. reflexivity.
Defined.

(** The blog example as the specification states it fails on its first
    half: the compiled pattern does not match the post URL. *)
Lemma blog_pattern_counterexample :
  ~ (Regex.re_match (URLPatternHandler.convert_wildcard_to_regex (py "*/blog/**"))
       (py "https://x.com/a/blog/2024/post") = Some true /\
     Regex.re_match (URLPatternHandler.convert_wildcard_to_regex (py "*/blog/**"))
       (py "https://x.com/blog") = Some false).
Proof. intros [H _]. vm_compute in H. discriminate. Qed.

(** ** Whitespace clean-up applied twice *)

(** C5, evaluated: the runs of newlines are collapsed before the lines
    are right-trimmed, so three whitespace-only lines come out of the
    first application as three empty lines, which a second application
    collapses: on this document the function is not idempotent. *)
Theorem clean_whitespace_twice_differs :
  ContentCleaner._clean_whitespace blank_run_doc = doc [py "a"; py ""; py ""; py ""; py "b"] /\
  ContentCleaner._clean_whitespace (ContentCleaner._clean_whitespace blank_run_doc) =
    doc [py "a"; py ""; py "b"] /\
  ContentCleaner._clean_whitespace (ContentCleaner._clean_whitespace blank_run_doc) <>
    ContentCleaner._clean_whitespace blank_run_doc.
Proof.
  split; [vm_compute; reflexivity |].
  split; [vm_compute; reflexivity |].
  vm_compute. discriminate.
Qed.

(** ** Run-on-line repair *)

(** C4, evaluated.  The look-behinds of the sentence pattern refuse every
    period that follows one of the letters e, g, i, whatever the word:
    the run-on document is repaired (over 500 characters, no line
    break), a break is inserted before [Next] and none after [e.g.] or
    [i.e.], but none either after the sentence that ends in [done]. *)
Theorem sentence_break_skips_words_in_e_g_i :
  (forall c rest,
     ContentCleaner.sentence_break_at (Some "e"%char) ("."%char :: " "%char :: c :: rest) = None /\
     ContentCleaner.sentence_break_at (Some "g"%char) ("."%char :: " "%char :: c :: rest) = None /\
     ContentCleaner.sentence_break_at (Some "i"%char) ("."%char :: " "%char :: c :: rest) = None) /\
  (500 <? length run_on_doc) = true /\
  PyStr.count [PyStr.nl] run_on_doc = 0 /\
  (let out := ContentCleaner.unwrap run_on_doc in
   PyStr.contains (py "topic." ++ [PyStr.nl; PyStr.nl] ++ py "Next topic") out = true /\
   PyStr.contains (py "e.g. Something") out = true /\
   PyStr.contains (py "i.e. Anything") out = true /\
   PyStr.contains (py "done. Another") out = true /\
   PyStr.contains (py "done." ++ [PyStr.nl; PyStr.nl] ++ py "Another") out = false /\
   PyStr.count [PyStr.nl] out = 2).
Proof.
  split.
  - intros c rest. unfold ContentCleaner.sentence_break_at.
    repeat split; simpl; now rewrite ?andb_false_r.
  - vm_compute. repeat split; reflexivity.
Qed.

(** ** Cleaning profiles and the selector threshold *)

(** C10. The strict profile sets the minimum content length to 200 and
    the minimal profile to 50, whatever the caller passed; the moderate
    profile (like any other name) leaves the caller's value; and
    [clean_with_selectors] keeps the selector-extracted content exactly
    when it is non-empty and at least that long, cleaning the markdown
    otherwise. *)
Theorem cleaning_profile_min_content_length :
  (forall nav foot skip css xp ecss exp method (v : Z) pres profile,
     ConfigurableContentCleaner.min_content_length
       (ConfigurableContentCleaner.__init__ nav foot skip css xp ecss exp method v pres profile) =
     if PyStr.str_eqb profile (py "strict") then 200%Z
     else if PyStr.str_eqb profile (py "minimal") then 50%Z
     else v) /\
  (forall nav foot skip css xp ecss exp method (v : Z) pres,
     ConfigurableContentCleaner.min_content_length
       (ConfigurableContentCleaner.__init__ nav foot skip css xp ecss exp method v pres
          (py "strict")) = 200%Z /\
     ConfigurableContentCleaner.min_content_length
       (ConfigurableContentCleaner.__init__ nav foot skip css xp ecss exp method v pres
          (py "minimal")) = 50%Z /\
     ConfigurableContentCleaner.min_content_length
       (ConfigurableContentCleaner.__init__ nav foot skip css xp ecss exp method v pres
          (py "moderate")) = v) /\
  (forall soup_select lxml_xpath self html markdown title,
     ConfigurableContentCleaner.clean_with_selectors soup_select lxml_xpath self html markdown title =
     match ConfigurableContentCleaner.extract_with_selectors soup_select lxml_xpath self html with
     | Some (c :: r) =>
         if (ConfigurableContentCleaner.min_content_length self <=? Z.of_nat (length (c :: r)))%Z
         then ContentCleaner.clean_markdown_content
                (ConfigurableContentCleaner.cleaner self) (c :: r) title
         else ContentCleaner.clean_markdown_content
                (ConfigurableContentCleaner.cleaner self) markdown title
     | _ => ContentCleaner.clean_markdown_content
              (ConfigurableContentCleaner.cleaner self) markdown title
     end).
Proof.
  assert (H : forall nav foot skip css xp ecss exp method (v : Z) pres profile,
     ConfigurableContentCleaner.min_content_length
       (ConfigurableContentCleaner.__init__ nav foot skip css xp ecss exp method v pres profile) =
     if PyStr.str_eqb profile (py "strict") then 200%Z
     else if PyStr.str_eqb profile (py "minimal") then 50%Z
     else v).
  { intros. unfold ConfigurableContentCleaner.__init__,
      ConfigurableContentCleaner._apply_cleaning_profile.
    destruct (PyStr.str_eqb profile (py "strict")); [reflexivity |].
    destruct (PyStr.str_eqb profile (py "minimal")); reflexivity. }
  split; [exact H |]. split.
  - intros. rewrite !H. repeat split.
  - intros. unfold ConfigurableContentCleaner.clean_with_selectors,
      ConfigurableContentCleaner.selector_content_kept.
    destruct (ConfigurableContentCleaner.extract_with_selectors _ _ _ _) as [[|c r]|];
      reflexivity.
Qed.

(** ** Section headings as the start of main content *)

Section HeadingStart.

Import PyStr ContentCleaner.

Lemma drop_while_idem p (s : str) : drop_while p (drop_while p s) = drop_while p s.
Proof.
  induction s as [|c s IH]; [reflexivity |].
  simpl. destruct (p c) eqn:Hc; [exact IH |]. simpl. now rewrite Hc.
Qed.

Lemma take_drop_while p (s : str) : take_while p s ++ drop_while p s = s.
Proof.
  induction s as [|c s IH]; [reflexivity |].
  simpl. destruct (p c); [simpl; now rewrite IH | reflexivity].
Qed.

Lemma rstrip_idem (s : str) : rstrip (rstrip s) = rstrip s.
Proof. unfold rstrip. now rewrite rev_involutive, drop_while_idem. Qed.

(** Right-trimming leaves a prefix. *)
Lemma rstrip_prefix (s : str) : exists t, s = rstrip s ++ t.
Proof.
  unfold rstrip. exists (rev (take_while isspace (rev s))).
  rewrite <- rev_app_distr, take_drop_while. now rewrite rev_involutive.
Qed.

Lemma lstrip_head (s : str) :
  match lstrip s with [] => True | c :: _ => isspace c = false end.
Proof.
  unfold lstrip. induction s as [|c s IH]; [exact I |].
  simpl. destruct (isspace c) eqn:Hc; [exact IH | exact Hc].
Qed.

Lemma strip_idem (s : str) : strip (strip s) = strip s.
Proof.
  unfold strip.
  assert (Hl : lstrip (rstrip (lstrip s)) = rstrip (lstrip s)).
  { pose proof (lstrip_head s) as Hh.
    destruct (rstrip_prefix (lstrip s)) as [t Ht].
    destruct (rstrip (lstrip s)) as [|c r] eqn:Hr; [reflexivity |].
    rewrite Ht in Hh. simpl in Hh. unfold lstrip at 1. simpl. now rewrite Hh. }
  rewrite Hl. apply rstrip_idem.
Qed.

Lemma any_in_firstn n pats s : any_in pats s = false -> any_in (firstn n pats) s = false.
Proof.
  unfold any_in. revert n. induction pats as [|p ps IH]; intros n H.
  - now destruct n.
  - destruct n; [reflexivity |]. simpl in *.
    apply orb_false_iff in H as [Hp Hps]. rewrite Hp. simpl. now apply IH.
Qed.

Lemma substantial_starts_content self line title lines i :
  _is_substantial_paragraph self line = true ->
  _is_main_content_start self line title lines i = true.
Proof.
  intros H. unfold _is_main_content_start. rewrite H.
  repeat match goal with |- context [if ?b then _ else _] => destruct b end; reflexivity.
Qed.

End HeadingStart.

(** The footer, skip and navigation tests come before the test for the
    start of the content, and the filter for navigation-like lines after
    it: of two headings of more than ten characters without a navigation
    keyword, the first matches a footer indicator and ends the pass, the
    second is taken for navigation and dropped. *)
Lemma heading_order_of_tests :
  (spec_section_heading (py "## Copyright and licensing") = true /\
   10 < length (spec_heading_text (py "## Copyright and licensing")) /\
   PyStr.any_in (ContentCleaner.nav_indicators ContentCleaner.__init__)
     (PyStr.lower (spec_heading_text (py "## Copyright and licensing"))) = false /\
   ~ heading_starts_content ContentCleaner.__init__ (py "")
       (py "## Copyright and licensing") ContentCleaner.initial_state) /\
  (spec_section_heading (py "## Product overview page") = true /\
   10 < length (spec_heading_text (py "## Product overview page")) /\
   PyStr.any_in (ContentCleaner.nav_indicators ContentCleaner.__init__)
     (PyStr.lower (spec_heading_text (py "## Product overview page"))) = false /\
   ~ heading_starts_content ContentCleaner.__init__ (py "")
       (py "## Product overview page") ContentCleaner.initial_state).
Proof.
  split; (split; [vm_compute; reflexivity |]); (split; [vm_compute; lia |]);
    (split; [vm_compute; reflexivity |]);
    unfold heading_starts_content; vm_compute; discriminate.
Qed.

(** The pattern for section headings is written with doubled backslashes
    in a raw string, so it asks for a backslash after the [#] signs: an
    ordinary heading never matches it, and a short heading such as
    [## Introduction] does not start the content. *)
Lemma section_heading_pattern_slip :
  ContentCleaner.re_match_section_heading (py "## Introduction") = false /\
  ContentCleaner.re_match_section_heading (py "##\ss\w") = true /\
  ContentCleaner._is_main_content_start ContentCleaner.__init__ (py "## Introduction") (py "")
    [py "## Introduction"] 0 = false /\
  ContentCleaner.clean_markdown_content ContentCleaner.__init__
    (doc [py "## Introduction"; py "Short text."]) (py "") = py "".
Proof. vm_compute. repeat split; reflexivity. Qed.

(** ** The batch crawl records every URL *)

Section BatchCrawl.

Import ContentCrawler.

Variable soup_select : str -> list str -> list str -> str.
Variable lxml_xpath : str -> list str -> list str -> str.
Variable arun : nat -> str -> ArunOutcome.
Variable persist : ContentData -> option str.
Variable progress_callback : option (nat -> nat -> str -> bool).
Variable write_summary : Summary -> bool.

#[local] Abbreviation single := (crawl_single_url soup_select lxml_xpath arun persist).
#[local] Abbreviation task :=
  (crawl_with_semaphore soup_select lxml_xpath arun persist progress_callback).
#[local] Abbreviation task_result :=
  (ContentCrawler.task_result soup_select lxml_xpath arun persist).

Lemma task_result_url self index url : result_url (task_result self index url) = url.
Proof.
  unfold ContentCrawler.task_result, crawl_single_url, record_failure.
  destruct (arun index url) as [m | r]; [reflexivity |].
  destruct (success r); [| reflexivity].
  match goal with |- context [persist ?d] => destruct (persist d) end; reflexivity.
Qed.

(** [crawl_single_url] reads the configuration and the cleaner only,
    and changes [failed_urls] only. *)
Lemma single_effect self index url :
  snd (single self index url) =
  {| config := config self; content_cleaner := content_cleaner self;
     results := results self;
     failed_urls := failed_urls self ++ failure_entry (task_result self index url) |}.
Proof.
  unfold ContentCrawler.task_result, crawl_single_url, record_failure.
  destruct (arun index url) as [m | r]; [reflexivity |].
  destruct (success r); [| reflexivity].
  match goal with |- context [persist ?d] => destruct (persist d) end; simpl;
    [reflexivity | rewrite app_nil_r; now destruct self].
Qed.

Lemma task_result_same self self' index url :
  config self = config self' -> content_cleaner self = content_cleaner self' ->
  task_result self index url = task_result self' index url.
Proof.
  intros Hc Hk. unfold ContentCrawler.task_result, crawl_single_url, record_failure,
    ContentCrawler.clean_markdown_content.
  rewrite Hk. destruct (arun index url) as [m | r]; [reflexivity |].
  destruct (success r); [| reflexivity].
  match goal with |- context [persist ?d] => destruct (persist d) end; reflexivity.
Qed.

Hypothesis callback_returns :
  forall cb, progress_callback = Some cb -> forall i n u, cb i n u = true.

Lemma task_effect total self index url :
  task total self (index, url) =
  {| config := config self; content_cleaner := content_cleaner self;
     results := results self ++ [task_result self index url];
     failed_urls := failed_urls self ++ failure_entry (task_result self index url) |}.
Proof.
  unfold crawl_with_semaphore.
  assert (Hcb : match progress_callback with
                | Some callback => callback index total url
                | None => true
                end = true).
  { destruct progress_callback as [cb|] eqn:E; [now apply (callback_returns cb) | reflexivity]. }
  rewrite Hcb.
  pose proof (single_effect self index url) as He. unfold ContentCrawler.task_result in *.
  destruct (single self index url) as [r s']. simpl in *. subst s'. reflexivity.
Qed.

Lemma fold_tasks total order self :
  fold_left (task total) order self =
  {| config := config self; content_cleaner := content_cleaner self;
     results := results self ++ map (fun t => task_result self (fst t) (snd t)) order;
     failed_urls :=
       failed_urls self ++
       concat (map (fun t => failure_entry (task_result self (fst t) (snd t))) order) |}.
Proof.
  revert self. induction order as [|[i u] order IH]; intros self; cbn [fold_left map concat].
  - rewrite !app_nil_r. now destruct self.
  - rewrite IH, task_effect. cbn [config content_cleaner results failed_urls fst snd].
    set (self1 := {| config := config self; content_cleaner := content_cleaner self;
                     results := results self ++ [task_result self i u];
                     failed_urls := failed_urls self ++ failure_entry (task_result self i u) |}).
    assert (Hsame : forall j v, task_result self1 j v = task_result self j v)
      by (intros j v; apply task_result_same; reflexivity).
    rewrite (map_ext (fun t => task_result self1 (fst t) (snd t))
                     (fun t => task_result self (fst t) (snd t)))
      by (intros [j v]; apply Hsame).
    rewrite (map_ext (fun t => failure_entry (task_result self1 (fst t) (snd t)))
                     (fun t => failure_entry (task_result self (fst t) (snd t))))
      by (intros [j v]; simpl; now rewrite Hsame).
    rewrite <- !app_assoc. reflexivity.
Qed.

Lemma enumerate_urls (urls : list str) : map snd (enumerate urls) = urls.
Proof.
  unfold enumerate. generalize 0.
  induction urls as [|u urls IH]; intros n; simpl; [reflexivity | now rewrite IH].
Qed.

Lemma filter_split_length {A} (p : A -> bool) (l : list A) :
  length (List.filter p l) + length (List.filter (fun x => negb (p x)) l) = length l.
Proof.
  induction l as [|x l IH]; simpl; [reflexivity |].
  destruct (p x); simpl; lia.
Qed.

Lemma failures_counted (rs : list UrlResult) :
  length (concat (map failure_entry rs)) =
  length (List.filter (fun r => negb (get_success r)) rs).
Proof.
  induction rs as [|[d | u e] rs IH]; simpl; [reflexivity | exact IH | now rewrite IH].
Qed.

End BatchCrawl.

(** X28. Whatever the fetches do and in whatever order the tasks end,
    when the progress callback (if any) returns and the summary file can
    be written: [crawl_urls] returns its summary; the results hold
    exactly one entry per URL of the batch; a fetch that raises or
    reports failure yields a failure entry for its URL in the results and
    in [failed_urls]; the number of failed results is the number of
    recorded failures; and the successful and failed counts add up to
    the number of URLs.  In the batch of five with one fetch raising,
    that is four successes and one recorded failure. *)
Theorem crawl_urls_one_result_per_url :
  (forall (soup_select lxml_xpath : str -> list str -> list str -> str)
  (arun : nat -> str -> ContentCrawler.ArunOutcome)
  (persist : ContentCrawler.ContentData -> option str)
  (progress_callback : option (nat -> nat -> str -> bool))
  (write_summary : ContentCrawler.Summary -> bool)
  (self : ContentCrawler.t) (urls : list str) (order : list (nat * str)),
  Permutation order (ContentCrawler.enumerate urls) ->
  (forall cb, progress_callback = Some cb -> forall i n u, cb i n u = true) ->
  (forall s, write_summary s = true) ->
  exists self' summary,
    ContentCrawler.crawl_urls soup_select lxml_xpath arun persist progress_callback
      write_summary self urls order = (self', Some summary) /\
    Permutation (map ContentCrawler.result_url (ContentCrawler.results self')) urls /\
    (forall i u m, In (i, u) (ContentCrawler.enumerate urls) ->
       arun i u = ContentCrawler.ArunRaises m ->
       In (ContentCrawler.Failed u (py "Exception: " ++ m)) (ContentCrawler.results self') /\
       In (u, py "Exception: " ++ m) (ContentCrawler.failed_urls self')) /\
    (forall i u r, In (i, u) (ContentCrawler.enumerate urls) ->
       arun i u = ContentCrawler.ArunReturns r -> ContentCrawler.success r = false ->
       In (ContentCrawler.Failed u (py "Crawl failed: " ++ ContentCrawler.error_message r))
          (ContentCrawler.results self') /\
       In (u, py "Crawl failed: " ++ ContentCrawler.error_message r)
          (ContentCrawler.failed_urls self')) /\
    ContentCrawler.failed summary = length (ContentCrawler.failed_urls self') /\
    ContentCrawler.total_urls summary = length urls /\
    ContentCrawler.successful summary + ContentCrawler.failed summary = length urls) /\
  (exists self' summary,
     five_run = (self', Some summary) /\
     ContentCrawler.successful summary = 4 /\
     ContentCrawler.failed summary = 1 /\
     ContentCrawler.failed_urls self' =
       [(py "https://docs.example/c", py "Exception: connection reset")] /\
     map ContentCrawler.result_url (ContentCrawler.results self') = rev five_urls).
Proof.
  split; [| eexists; eexists; vm_compute; repeat split; reflexivity].
  intros soup_select lxml_xpath arun persist progress_callback write_summary self urls order
    Hperm Hcb Hws.
  unfold ContentCrawler.crawl_urls. rewrite Hws.
  rewrite (fold_tasks soup_select lxml_xpath arun persist progress_callback Hcb).
  simpl ContentCrawler.results. simpl ContentCrawler.failed_urls.
  simpl ContentCrawler.config. simpl ContentCrawler.content_cleaner.
  set (self0 := {| ContentCrawler.config := ContentCrawler.config self;
                   ContentCrawler.content_cleaner := ContentCrawler.content_cleaner self;
                   ContentCrawler.results := []; ContentCrawler.failed_urls := [] |}).
  set (res := fun t : nat * str =>
                ContentCrawler.task_result soup_select lxml_xpath arun persist self0 (fst t) (snd t)).
  eexists. eexists. split; [reflexivity |].
  simpl ContentCrawler.results. simpl ContentCrawler.failed_urls.
  assert (Hlen : length (map res order) = length urls).
  { rewrite length_map, (Permutation_length Hperm).
    rewrite <- (enumerate_urls urls) at 2. now rewrite length_map. }
  assert (Hin : forall i u, In (i, u) (ContentCrawler.enumerate urls) -> In (i, u) order).
  { intros i u H. eapply Permutation_in; [symmetry; exact Hperm | exact H]. }
  split; [| split; [| split; [| split; [| split]]]].
  - rewrite map_map.
    rewrite (map_ext _ snd)
      by (intros [i u]; unfold res; simpl; apply task_result_url).
    pose proof (Permutation_map snd Hperm) as Hp.
    now rewrite enumerate_urls in Hp.
  - intros i u m Hiu Hr.
    assert (Hres : res (i, u) = ContentCrawler.Failed u (py "Exception: " ++ m)).
    { unfold res, ContentCrawler.task_result, ContentCrawler.crawl_single_url. simpl. now rewrite Hr. }
    split.
    + rewrite <- Hres. apply in_map, Hin, Hiu.
    + apply in_concat. exists [(u, py "Exception: " ++ m)]. split; [| now left].
      apply in_map_iff. exists (i, u). split; [| apply Hin, Hiu].
      fold (res (i, u)). now rewrite Hres.
  - intros i u r Hiu Hr Hs.
    assert (Hres : res (i, u) =
                   ContentCrawler.Failed u (py "Crawl failed: " ++ ContentCrawler.error_message r)).
    { unfold res, ContentCrawler.task_result, ContentCrawler.crawl_single_url. simpl. now rewrite Hr, Hs. }
    split.
    + rewrite <- Hres. apply in_map, Hin, Hiu.
    + apply in_concat.
      exists [(u, py "Crawl failed: " ++ ContentCrawler.error_message r)]. split; [| now left].
      apply in_map_iff. exists (i, u). split; [| apply Hin, Hiu].
      fold (res (i, u)). now rewrite Hres.
  - unfold ContentCrawler.summarize. simpl.
    rewrite <- failures_counted, map_map. reflexivity.
  - reflexivity.
  - unfold ContentCrawler.summarize. simpl.
    rewrite filter_split_length. exact Hlen.
Qed.

Lemma crawl_urls_one_result_per_url_witness :
  exists self' summary,
    five_run = (self', Some summary) /\
    Permutation (map ContentCrawler.result_url (ContentCrawler.results self')) five_urls /\
    ContentCrawler.successful summary + ContentCrawler.failed summary = length five_urls.
Proof.
  destruct (proj1 crawl_urls_one_result_per_url
              (fun _ _ _ => []) (fun _ _ _ => []) five_arun (fun _ => None) None (fun _ => true)
              five_crawler five_urls (rev (ContentCrawler.enumerate five_urls)))
    as [self' [summary [Hrun [Hperm [_ [_ [_ [_ Hsum]]]]]]]].
  - symmetry. apply Permutation_rev.
  - discriminate.
  - reflexivity.
  - exists self', summary. split; [exact Hrun | split; [exact Hperm | exact Hsum]].
Defined.

(** ** The batch crawl and its summary file *)

Section FreshDirectory.

Import ContentCrawler.

Variable soup_select : str -> list str -> list str -> str.
Variable lxml_xpath : str -> list str -> list str -> str.
Variable arun : nat -> str -> ArunOutcome.
Variable persist : ContentData -> option str.
Variable progress_callback : option (nat -> nat -> str -> bool).

(** No task of a batch in which no fetch succeeds gets as far as
    creating the output directory. *)
Lemma no_fetch_no_directory total (order : list (nat * str)) :
  (forall i u, In (i, u) order ->
     match arun i u with
     | ArunReturns result => success result = false
     | ArunRaises _ => True
     end) ->
  existsb (reaches_save arun progress_callback total) order = false.
Proof.
  intros H. induction order as [|[i u] order IH]; [reflexivity |].
  cbn [existsb]. rewrite IH by (intros j v Hj; apply H; now right).
  rewrite orb_false_r. unfold reaches_save. cbn [fst snd].
  specialize (H i u (or_introl eq_refl)).
  destruct (arun i u) as [m | r]; [apply andb_false_r |].
  rewrite H. apply andb_false_r.
Qed.

End FreshDirectory.

(** C8. [crawl_urls] writes [crawl_summary.json] into the output
    directory outside any [try], and the directory is created only on
    the way to writing a fetched page.  So when the directory is not
    there before the call and no fetch of the batch succeeds, the
    failures are recorded but the call raises instead of returning its
    summary, whatever the batch is.  For the batch of one URL whose
    fetch raises: the failure is recorded and no summary is returned;
    with the directory in place the same batch returns a summary with
    no success and one failure. *)
Theorem crawl_urls_raises_without_output_dir :
  (forall (soup_select lxml_xpath : str -> list str -> list str -> str)
          (arun : nat -> str -> ContentCrawler.ArunOutcome)
          (persist : ContentCrawler.ContentData -> option str)
          (progress_callback : option (nat -> nat -> str -> bool))
          (write_summary : ContentCrawler.Summary -> bool)
          (self : ContentCrawler.t) (urls : list str) (order : list (nat * str)),
     (forall i u, In (i, u) order ->
        match arun i u with
        | ContentCrawler.ArunReturns result => ContentCrawler.success result = false
        | ContentCrawler.ArunRaises _ => True
        end) ->
     snd (ContentCrawler.crawl_urls_on_disk soup_select lxml_xpath arun persist
            progress_callback write_summary false self urls order) = None) /\
  (ContentCrawler.results (fst (lone_run false)) =
     [ContentCrawler.Failed (py "https://docs.example/a") (py "Exception: connection reset")] /\
   ContentCrawler.failed_urls (fst (lone_run false)) =
     [(py "https://docs.example/a", py "Exception: connection reset")] /\
   snd (lone_run false) = None) /\
  (exists summary,
     snd (lone_run true) = Some summary /\
     ContentCrawler.total_urls summary = 1 /\
     ContentCrawler.successful summary = 0 /\
     ContentCrawler.failed summary = 1).
Proof.
  split; [| split].
  - intros soup_select lxml_xpath arun persist progress_callback write_summary self urls order
      Hfail.
    unfold ContentCrawler.crawl_urls_on_disk, ContentCrawler.output_dir_possible.
    rewrite (no_fetch_no_directory arun progress_callback (length urls) order Hfail).
    destruct (ContentCrawler.crawl_urls _ _ _ _ _ _ _ _ _) as [self' summary].
    reflexivity.
  - vm_compute. repeat split; reflexivity.
  - eexists. vm_compute. repeat split; reflexivity.
Qed.

(** ** Depths in the discovery pass *)

Section DiscoveryDepth.

Import URLDiscovery.

Variable check_bracketed_host : str -> bool.
Variable urljoin : str -> str -> option str.
Variable re_match : str -> str -> option bool.
Variable arun : str -> ArunOutcome.
Variable config : CrawlConfig.t.
Variable start_url : str.
Variable patterns exclude_patterns : option (list str).

#[local] Abbreviation D := (CrawlConfig.max_depth config).
#[local] Abbreviation Inv := (URLDiscovery.Inv config start_url).

Hypothesis depth_nonneg : (0 <= D)%Z.

Lemma inv_initial : Inv (initial start_url).
Proof.
  split; simpl.
  - apply NoDup_singleton.
  - intros u _. set_solver.
  - intros u d H. apply lookup_singleton_Some in H as [_ <-]. lia.
  - intros u. rewrite lookup_singleton_is_Some, list_elem_of_singleton.
    split; [intros ->; now left | intros [-> | Hu]; [reflexivity |]].
    now apply not_elem_of_empty in Hu.
  - intros u Hu. set_solver.
  - intros u Hu. now apply not_elem_of_nil in Hu.
  - intros p cs c H. now rewrite lookup_empty in H.
  - intros u [H | H]; [| set_solver].
    apply list_elem_of_singleton in H as ->. left. split; [reflexivity |].
    apply lookup_singleton_eq.
Qed.

Lemma inv_enqueue current_url current_depth normalized st :
  Inv st ->
  current_url ∈ visited st ->
  depth_map st !! current_url = Some current_depth ->
  (current_depth < D)%Z ->
  normalized ∉ visited st ->
  normalized ∉ to_visit st ->
  Inv (enqueue current_url current_depth normalized st).
Proof.
  intros [Hnd Hfresh Hrange Hdom Hdisc Hfet Hchild Hpar] Hcur Hcd Hlt Hnv Hnq.
  assert (Hnew : depth_map st !! normalized = None).
  { destruct (depth_map st !! normalized) eqn:E; [| reflexivity].
    exfalso. destruct (proj1 (Hdom normalized)) as [H | H]; eauto. }
  assert (Hne : forall u, is_Some (depth_map st !! u) -> u <> normalized).
  { intros u [d Hu] ->. congruence. }
  assert (Hcn : current_url <> normalized) by (apply Hne; eauto).
  split; simpl.
  - apply NoDup_app. split; [exact Hnd |]. split; [| apply NoDup_singleton].
    intros u Hu Hu'. apply list_elem_of_singleton in Hu' as ->. contradiction.
  - intros u Hu. apply elem_of_app in Hu as [Hu | Hu]; [now apply Hfresh |].
    now apply list_elem_of_singleton in Hu as ->.
  - intros u d Hu. destruct (decide (normalized = u)) as [<- | Hn].
    + rewrite lookup_insert_eq in Hu. injection Hu as <-.
      specialize (Hrange _ _ Hcd). lia.
    + rewrite lookup_insert_ne in Hu by exact Hn. eauto.
  - intros u. rewrite elem_of_app, list_elem_of_singleton.
    destruct (decide (normalized = u)) as [<- | Hn].
    + rewrite lookup_insert_eq. split; [intros _; left; now right | eauto].
    + rewrite lookup_insert_ne by exact Hn. rewrite Hdom. split.
      * intros [H | H]; [left; now left | now right].
      * intros [[H | H] | H]; [now left | congruence | now right].
  - exact Hdisc.
  - exact Hfet.
  - intros p cs c Hp Hc.
    destruct (decide (current_url = p)) as [<- | Hpn].
    + rewrite lookup_insert_eq in Hp. injection Hp as <-.
      apply elem_of_app in Hc as [Hc | Hc].
      * destruct (url_relationships st !! current_url) as [old|] eqn:Hold;
          [| now apply not_elem_of_nil in Hc].
        simpl in Hc. destruct (Hchild _ _ _ Hold Hc) as [dp [H1 H2]].
        exists dp. rewrite !lookup_insert_ne by (apply not_eq_sym, Hne; eauto). eauto.
      * apply list_elem_of_singleton in Hc as ->. exists current_depth.
        rewrite lookup_insert_ne by (apply not_eq_sym, Hcn).
        now rewrite lookup_insert_eq.
    + rewrite lookup_insert_ne in Hp by exact Hpn.
      destruct (Hchild _ _ _ Hp Hc) as [dp [H1 H2]].
      exists dp. rewrite !lookup_insert_ne by (apply not_eq_sym, Hne; eauto). eauto.
  - intros u Hu.
    assert (Hcases : u = normalized \/ (u ∈ to_visit st \/ u ∈ visited st)).
    { destruct Hu as [Hu | Hu]; [| right; now right].
      apply elem_of_app in Hu as [Hu | Hu]; [right; now left |].
      left. now apply list_elem_of_singleton in Hu. }
    destruct Hcases as [-> | Hu'].
    + right. eexists current_url, _. rewrite lookup_insert_eq. split; [reflexivity |].
      apply elem_of_app. right. now apply list_elem_of_singleton.
    + destruct (Hpar _ Hu') as [[-> H0] | [p [cs [Hp Hc]]]].
      * left. split; [reflexivity |].
        rewrite lookup_insert_ne by (apply not_eq_sym, Hne; eauto). exact H0.
      * right. destruct (decide (current_url = p)) as [<- | Hpn].
        -- eexists current_url, _. rewrite lookup_insert_eq. split; [reflexivity |].
           rewrite Hp. simpl. apply elem_of_app. now left.
        -- exists p, cs. rewrite lookup_insert_ne by exact Hpn. eauto.
Qed.

Lemma process_links_inv current_url current_depth links st :
  Inv st ->
  current_url ∈ visited st ->
  depth_map st !! current_url = Some current_depth ->
  (current_depth < D)%Z ->
  Inv (process_links check_bracketed_host urljoin config start_url current_url current_depth
         links st).
Proof.
  revert st. induction links as [|link links IH]; intros st Hinv Hcur Hcd Hlt; [exact Hinv |].
  cbn [process_links]. destruct link as [|c link]; [now apply IH |].
  destruct (normalize_url check_bracketed_host urljoin (c :: link) (Some current_url))
    as [normalized|]; [| exact Hinv].
  destruct (if CrawlConfig.include_external config then Some true
            else is_same_domain check_bracketed_host normalized start_url) as [[|]|];
    [| now apply IH | exact Hinv].
  destruct (bool_decide (normalized ∉ visited st)) eqn:Hv; [| now apply IH].
  destruct (bool_decide (normalized ∉ to_visit st)) eqn:Hq; [| now apply IH].
  apply bool_decide_eq_true in Hv, Hq. cbn [andb].
  change (Inv (process_links check_bracketed_host urljoin config start_url current_url
                 current_depth links (enqueue current_url current_depth normalized st))).
  apply IH.
  - now apply inv_enqueue.
  - exact Hcur.
  - simpl. rewrite lookup_insert_ne; [exact Hcd |].
    intros ->. contradiction.
  - exact Hlt.
Qed.

Lemma step_inv st st' :
  Inv st ->
  step check_bracketed_host urljoin re_match arun config start_url patterns exclude_patterns st
    = Some st' ->
  Inv st'.
Proof.
  intros Hinv. pose proof Hinv as [Hnd Hfresh Hrange Hdom Hdisc Hfet Hchild Hpar].
  unfold step. destruct (to_visit st) as [|current_url rest] eqn:Hq; [discriminate |].
  destruct (negb _); [discriminate |]. cbn [visited depth_map to_visit discovered
                                             url_relationships fetched].
  assert (Hcur_q : current_url ∈ current_url :: rest) by apply list_elem_of_here.
  assert (Hrest : forall u, u ∈ rest -> u ∈ current_url :: rest)
    by (intros u Hu; now apply list_elem_of_further).
  apply NoDup_cons in Hnd as [Hnotin Hnd'].
  destruct (bool_decide (current_url ∈ visited st)) eqn:Hvis.
  { apply bool_decide_eq_true in Hvis. exfalso. exact (Hfresh _ Hcur_q Hvis). }
  apply bool_decide_eq_false in Hvis.
  destruct (proj2 (Hdom current_url) (or_introl Hcur_q)) as [cd Hcd].
  rewrite Hcd. simpl default.
  destruct (Z.ltb_spec D cd) as [Hgt | Hle].
  { exfalso. specialize (Hrange _ _ Hcd). lia. }
  (* the state once the head is marked visited and fetched *)
  set (st1 := {| discovered := discovered st; to_visit := rest;
                 visited := {[current_url]} ∪ visited st;
                 depth_map := depth_map st;
                 url_relationships := url_relationships st;
                 fetched := fetched st ++ [current_url] |}).
  assert (Hinv1 : Inv st1).
  { split; simpl.
    - exact Hnd'.
    - intros u Hu. apply not_elem_of_union. split.
      + intros Hc. apply elem_of_singleton in Hc as ->. contradiction.
      + apply Hfresh, Hrest, Hu.
    - exact Hrange.
    - intros u. rewrite Hdom, elem_of_cons, elem_of_union, elem_of_singleton. tauto.
    - intros u Hu. apply elem_of_union. right. now apply Hdisc.
    - intros u Hu. apply elem_of_app in Hu as [Hu | Hu].
      + apply elem_of_union. right. now apply Hfet.
      + apply list_elem_of_singleton in Hu as ->. apply elem_of_union. left.
        now apply elem_of_singleton.
    - exact Hchild.
    - intros u Hu. apply Hpar.
      destruct Hu as [Hu | Hu]; [left; now apply Hrest |].
      apply elem_of_union in Hu as [Hu | Hu]; [| now right].
      apply elem_of_singleton in Hu as ->. now left. }
  assert (Hcur1 : current_url ∈ visited st1)
    by (apply elem_of_union; left; now apply elem_of_singleton).
  destruct (arun current_url) as [|[|] internal];
    [intros H; injection H as <-; exact Hinv1 | | intros H; injection H as <-; exact Hinv1].
  destruct (URLPatternHandler.match_url_pattern _ _ _ _) as [matched|];
    [| intros H; injection H as <-; exact Hinv1].
  set (st2 := if matched
              then {| discovered := {[current_url]} ∪ discovered st; to_visit := rest;
                      visited := {[current_url]} ∪ visited st;
                      depth_map := depth_map st;
                      url_relationships := url_relationships st;
                      fetched := fetched st ++ [current_url] |}
              else st1).
  assert (Hinv2 : Inv st2 /\ visited st2 = visited st1 /\ depth_map st2 = depth_map st1).
  { unfold st2. destruct matched; [| auto].
    split; [| auto]. destruct Hinv1 as [? ? ? ? Hd1 ? ? ?].
    split; try assumption. simpl. intros u Hu.
    apply elem_of_union in Hu as [Hu | Hu]; [| now apply Hd1].
    apply elem_of_singleton in Hu as ->. exact Hcur1. }
  destruct Hinv2 as [Hinv2 [Hv2 Hd2]].
  destruct internal as [|l ls]; [intros H; injection H as <-; exact Hinv2 |].
  destruct (Z.ltb_spec cd D) as [Hlt | Hge];
    [| intros H; injection H as <-; exact Hinv2].
  intros H.
  replace st' with (process_links check_bracketed_host urljoin config start_url current_url
                      cd (l :: ls) st2) by congruence.
  apply process_links_inv; [exact Hinv2 | now rewrite Hv2 | now rewrite Hd2 | exact Hlt].
Qed.

Lemma reachable_inv st :
  reachable check_bracketed_host urljoin re_match arun config start_url patterns
    exclude_patterns st ->
  Inv st.
Proof.
  induction 1 as [| st st' _ IH Hstep]; [apply inv_initial | eapply step_inv; eauto].
Qed.

End DiscoveryDepth.

(** C7. In every state a discovery pass with a maximum depth [D >= 0]
    goes through: each URL in the frontier, each admitted URL and each
    fetched URL has a recorded depth between 0 and [D]; each URL recorded
    as a child in [url_relationships] has the depth of its parent plus
    one, and each queued URL is the seed at depth 0 or such a child.
    And in any state and for any [D], a dequeued URL that is not yet
    visited and whose recorded depth exceeds [D] is dropped from the
    frontier with nothing else changed: it is not fetched, not marked
    visited and not admitted. *)
Theorem discovery_depth_bound :
  (forall check_bracketed_host urljoin re_match arun config start_url patterns exclude_patterns st,
     (0 <= CrawlConfig.max_depth config)%Z ->
     URLDiscovery.reachable check_bracketed_host urljoin re_match arun config start_url
       patterns exclude_patterns st ->
     (forall u, u ∈ URLDiscovery.to_visit st \/ u ∈ URLDiscovery.discovered st \/
                u ∈ URLDiscovery.fetched st ->
        exists d, URLDiscovery.depth_map st !! u = Some d /\
                  (0 <= d <= CrawlConfig.max_depth config)%Z) /\
     (forall p cs c, URLDiscovery.url_relationships st !! p = Some cs -> c ∈ cs ->
        exists dp, URLDiscovery.depth_map st !! p = Some dp /\
                   URLDiscovery.depth_map st !! c = Some (dp + 1)%Z) /\
     (forall u, u ∈ URLDiscovery.to_visit st ->
        (u = start_url /\ URLDiscovery.depth_map st !! u = Some 0%Z) \/
        (exists p cs, URLDiscovery.url_relationships st !! p = Some cs /\ u ∈ cs))) /\
  (forall check_bracketed_host urljoin re_match arun config start_url patterns exclude_patterns
          st u rest,
     URLDiscovery.to_visit st = u :: rest ->
     (Z.of_nat (size (URLDiscovery.discovered st)) < CrawlConfig.max_pages config)%Z ->
     u ∉ URLDiscovery.visited st ->
     (CrawlConfig.max_depth config < default 0%Z (URLDiscovery.depth_map st !! u))%Z ->
     URLDiscovery.step check_bracketed_host urljoin re_match arun config start_url
       patterns exclude_patterns st =
     Some {| URLDiscovery.discovered := URLDiscovery.discovered st;
             URLDiscovery.to_visit := rest;
             URLDiscovery.visited := URLDiscovery.visited st;
             URLDiscovery.depth_map := URLDiscovery.depth_map st;
             URLDiscovery.url_relationships := URLDiscovery.url_relationships st;
             URLDiscovery.fetched := URLDiscovery.fetched st |}).
Proof.
  split.
  - intros chk urljoin re_match arun config start_url patterns exclude_patterns st HD Hreach.
    pose proof (reachable_inv chk urljoin re_match arun config start_url patterns
                  exclude_patterns HD st Hreach)
      as [Hnd Hfresh Hrange Hdom Hdisc Hfet Hchild Hpar].
    split; [| split].
    + intros u Hu.
      assert (His : is_Some (URLDiscovery.depth_map st !! u)).
      { apply Hdom. destruct Hu as [Hu | [Hu | Hu]]; [now left | right | right]; eauto. }
      destruct His as [d Hd]. exists d. split; [exact Hd | eauto].
    + exact Hchild.
    + intros u Hu. apply Hpar. now left.
  - intros chk urljoin re_match arun config start_url patterns exclude_patterns st u rest
      Hq Hpages Hvis Hdepth.
    unfold URLDiscovery.step. rewrite Hq.
    destruct (Z.ltb_spec (Z.of_nat (size (URLDiscovery.discovered st)))
                         (CrawlConfig.max_pages config)) as [_ | Hc]; [| lia].
    simpl. rewrite bool_decide_eq_false_2 by exact Hvis.
    destruct (Z.ltb_spec (CrawlConfig.max_depth config)
                         (default 0%Z (URLDiscovery.depth_map st !! u))) as [_ | Hc]; [| lia].
    reflexivity.
Qed.

Example site_state1_queue :
  URLDiscovery.to_visit site_state1 = [py "https://site.example/a"; py "https://site.example/b"] /\
  URLDiscovery.fetched site_state1 = [site_seed] /\
  URLDiscovery.depth_map site_state1 !! py "https://site.example/b" = Some 1%Z /\
  URLDiscovery.url_relationships site_state1 !! site_seed =
    Some [py "https://site.example/a"; py "https://site.example/b"].
Proof. vm_compute. repeat split; reflexivity. Qed.

Lemma discovery_depth_bound_witness :
  (forall u, u ∈ URLDiscovery.to_visit site_state1 \/ u ∈ URLDiscovery.discovered site_state1 \/
             u ∈ URLDiscovery.fetched site_state1 ->
     exists d, URLDiscovery.depth_map site_state1 !! u = Some d /\
               (0 <= d <= CrawlConfig.max_depth CrawlConfig.__init__)%Z) /\
  URLDiscovery.step (fun _ => true) (fun _ link => Some link) Regex.re_match site_arun
    negative_depth_config site_seed None None (URLDiscovery.initial site_seed) =
  Some {| URLDiscovery.discovered := ∅; URLDiscovery.to_visit := [];
          URLDiscovery.visited := ∅;
          URLDiscovery.depth_map := {[site_seed := 0%Z]};
          URLDiscovery.url_relationships := ∅;
          URLDiscovery.fetched := [] |}.
Proof.
  split.
  - apply (proj1 discovery_depth_bound (fun _ => true) (fun _ link => Some link) Regex.re_match
             site_arun CrawlConfig.__init__ site_seed None None site_state1).
    + simpl. lia.
    + eapply URLDiscovery.reachable_step; [apply URLDiscovery.reachable_initial |].
      unfold site_state1.
      destruct (URLDiscovery.step _ _ _ _ _ _ _ _ _) eqn:E; [reflexivity |].
      exfalso. vm_compute in E. discriminate.
  - apply (proj2 discovery_depth_bound (fun _ => true) (fun _ link => Some link) Regex.re_match
             site_arun negative_depth_config site_seed None None
             (URLDiscovery.initial site_seed) site_seed []).
    + reflexivity.
    + vm_compute. reflexivity.
    + apply not_elem_of_empty.
    + vm_compute. reflexivity.
Defined.

(** ** Normalizing a URL twice *)

Section NormalizeTwice.

Import PyStr UrlParse.

Variable check_bracketed_host : str -> bool.

#[local] Abbreviation brackets_ok := (UrlParse.brackets_ok check_bracketed_host).
#[local] Abbreviation parts_shape := (UrlParse.parts_shape check_bracketed_host).

Lemma chr_eqb_sym a b : chr_eqb a b = chr_eqb b a.
Proof. apply Ascii.eqb_sym. Qed.

Lemma chr_eqb_true a b : chr_eqb a b = true <-> a = b.
Proof. apply Ascii.eqb_eq. Qed.

Lemma has_char_app c (a b : str) : has_char c (a ++ b) = has_char c a || has_char c b.
Proof. apply existsb_app. Qed.

Lemma remove_char_cons b c (s : str) :
  remove_char b (c :: s) = if chr_eqb c b then remove_char b s else c :: remove_char b s.
Proof. unfold remove_char. cbn [List.filter]. now destruct (chr_eqb c b). Qed.

Lemma remove_char_id b (s : str) : has_char b s = false -> remove_char b s = s.
Proof.
  induction s as [|c s IH]; [reflexivity |].
  rewrite has_char_cons, remove_char_cons. intros H. apply orb_false_iff in H as [Hc Hs].
  rewrite chr_eqb_sym, Hc. now rewrite IH.
Qed.

Lemma remove_char_gone b (s : str) : has_char b (remove_char b s) = false.
Proof.
  induction s as [|c s IH]; [reflexivity |].
  rewrite remove_char_cons. destruct (chr_eqb c b) eqn:E; [exact IH |].
  rewrite has_char_cons, chr_eqb_sym, E. exact IH.
Qed.

Lemma remove_char_keeps b c (s : str) :
  has_char c s = false -> has_char c (remove_char b s) = false.
Proof.
  induction s as [|a s IH]; [reflexivity |].
  rewrite has_char_cons, remove_char_cons. intros H. apply orb_false_iff in H as [Ha Hs].
  destruct (chr_eqb a b); [now apply IH |].
  rewrite has_char_cons, Ha. now apply IH.
Qed.

Lemma break_at_cons c x (s : str) :
  break_at c (x :: s) =
  if chr_eqb x c then ([], Some s) else let '(pre, post) := break_at c s in (x :: pre, post).
Proof. reflexivity. Qed.

(** [break_at] finds the first occurrence. *)
Lemma break_at_found c (a r : str) :
  has_char c a = false -> break_at c (a ++ c :: r) = (a, Some r).
Proof.
  induction a as [|x a IH].
  - intros _. cbn [app]. rewrite break_at_cons. unfold chr_eqb. now rewrite Ascii.eqb_refl.
  - rewrite has_char_cons. intros H. apply orb_false_iff in H as [Hx Ha].
    cbn [app]. rewrite break_at_cons, chr_eqb_sym, Hx, (IH Ha). reflexivity.
Qed.

Lemma break_at_none c (s : str) : has_char c s = false -> break_at c s = (s, None).
Proof.
  induction s as [|x s IH]; [reflexivity |].
  rewrite has_char_cons. intros H. apply orb_false_iff in H as [Hx Hs].
  rewrite break_at_cons, chr_eqb_sym, Hx, (IH Hs). reflexivity.
Qed.

Lemma break_at_spec c (s : str) :
  match break_at c s with
  | (pre, Some post) => s = pre ++ c :: post /\ has_char c pre = false
  | (pre, None) => pre = s /\ has_char c s = false
  end.
Proof.
  induction s as [|x s IH]; [now split |].
  rewrite break_at_cons. destruct (chr_eqb x c) eqn:E.
  - apply chr_eqb_true in E as ->. now split.
  - destruct (break_at c s) as [pre [post|]]; destruct IH as [H1 H2].
    + split; [now rewrite H1 |]. rewrite has_char_cons, chr_eqb_sym, E. exact H2.
    + split; [now rewrite H1 |]. rewrite has_char_cons, chr_eqb_sym, E. exact H2.
Qed.

Lemma take_while_all p (a r : str) :
  forallb p a = true ->
  match r with [] => True | x :: _ => p x = false end ->
  take_while p (a ++ r) = a /\ drop_while p (a ++ r) = r.
Proof.
  intros Ha Hr. induction a as [|x a IH]; simpl in *.
  - destruct r as [|x r]; [now split | simpl; now rewrite Hr].
  - apply andb_true_iff in Ha as [Hx Ha]. rewrite Hx.
    destruct (IH Ha) as [H1 H2]. now rewrite H1, H2.
Qed.

Lemma take_while_forallb p (s : str) : forallb p (take_while p s) = true.
Proof.
  induction s as [|x s IH]; [reflexivity |].
  simpl. destruct (p x) eqn:E; [simpl; now rewrite E | reflexivity].
Qed.

Lemma drop_while_head p (s : str) :
  match drop_while p s with [] => True | x :: _ => p x = false end.
Proof.
  induction s as [|x s IH]; [exact I |].
  simpl. destruct (p x) eqn:E; [exact IH | exact E].
Qed.

Lemma plain_app a b : plain (a ++ b) <-> plain a /\ plain b.
Proof.
  unfold plain. rewrite !has_char_app, !orb_false_iff. tauto.
Qed.

Lemma plain_remove (s : str) :
  plain (remove_char "010"%char (remove_char "013"%char (remove_char "009"%char s))).
Proof.
  repeat split.
  - do 2 apply remove_char_keeps. apply remove_char_gone.
  - apply remove_char_keeps. apply remove_char_gone.
  - apply remove_char_gone.
Qed.

Lemma remove_plain (s : str) :
  plain s ->
  remove_char "010"%char (remove_char "013"%char (remove_char "009"%char s)) = s.
Proof.
  intros [H1 [H2 H3]].
  now rewrite (remove_char_id _ s H1), (remove_char_id _ s H2), (remove_char_id _ s H3).
Qed.

Lemma scheme_char_facts c :
  is_scheme_char c = true ->
  chr_eqb ":"%char c = false /\ chr_eqb "009"%char c = false /\
  chr_eqb "013"%char c = false /\ chr_eqb "010"%char c = false /\
  is_scheme_char (lower_char c) = true /\ lower_char (lower_char c) = lower_char c.
Proof.
  destruct c as [[] [] [] [] [] [] [] []]; vm_compute; intros H;
    try discriminate; repeat split; reflexivity.
Qed.

Lemma alpha_facts c :
  is_ascii_alpha c = true ->
  is_c0_or_space (lower_char c) = false /\ is_ascii_alpha (lower_char c) = true.
Proof.
  destruct c as [[] [] [] [] [] [] [] []]; vm_compute; intros H;
    try discriminate; repeat split; reflexivity.
Qed.

Lemma lower_scheme_shape c pre :
  is_ascii_alpha c = true -> forallb is_scheme_char (c :: pre) = true ->
  scheme_shape (lower (c :: pre)).
Proof.
  intros Ha Hs. split; [| split].
  - exists (lower_char c), (lower pre). split; [reflexivity |].
    destruct (alpha_facts c Ha). auto.
  - induction (c :: pre) as [|x l IH]; [reflexivity |].
    simpl in *. apply andb_true_iff in Hs as [Hx Hl].
    destruct (scheme_char_facts x Hx) as [_ [_ [_ [_ [H _]]]]].
    now rewrite H, IH.
  - induction (c :: pre) as [|x l IH]; [reflexivity |].
    simpl in *. apply andb_true_iff in Hs as [Hx Hl].
    destruct (scheme_char_facts x Hx) as [_ [_ [_ [_ [_ H]]]]].
    now rewrite H, IH.
Qed.

Lemma scheme_chars_avoid (s : str) :
  forallb is_scheme_char s = true -> has_char ":"%char s = false /\ plain s.
Proof.
  induction s as [|x s IH]; [now repeat split |].
  cbn [forallb]. intros H. apply andb_true_iff in H as [Hx Hs].
  destruct (scheme_char_facts x Hx) as [H1 [H2 [H3 [H4 _]]]].
  destruct (IH Hs) as [I1 [I2 [I3 I4]]].
  unfold plain. rewrite !has_char_cons, H1, H2, H3, H4, I1, I2, I3, I4. auto.
Qed.

Lemma urlparse_unsplit s n p q :
  scheme_shape s ->
  forallb (fun c => negb (is_netloc_delim c)) n = true ->
  brackets_ok n ->
  path_shape p ->
  has_char ";"%char p = false ->
  has_char "#"%char q = false ->
  plain n -> plain p -> plain q ->
  urlparse check_bracketed_host (unsplit s n p q) =
  Some {| scheme := s; netloc := n; path := p; params := []; query := q; fragment := [] |}.
Proof.
  intros [[c [pre [Hs [Hal Hc0]]]] [Hsc Hlow]] Hn [Hb1 Hb2] [Hp0 [Hp1 Hp2]] Hp3 Hq Pn Pp Pq.
  destruct (scheme_chars_avoid s Hsc) as [Hcolon Ps].
  set (optq := match q with [] => [] | _ => py "?" ++ q end).
  assert (Poptq : plain optq).
{ unfold optq. destruct q; [now repeat split |].
  apply plain_app. split; [now repeat split | exact Pq]. }
  set (rest := n ++ p ++ optq).
  assert (HU : unsplit s n p q = s ++ ":"%char :: "/"%char :: "/"%char :: rest) by reflexivity.
  unfold urlparse, urlsplit. rewrite HU.
  assert (Hdw : drop_while is_c0_or_space (s ++ ":"%char :: "/"%char :: "/"%char :: rest)
                = s ++ ":"%char :: "/"%char :: "/"%char :: rest).
  { rewrite Hs. simpl. now rewrite Hc0. }
  rewrite Hdw.
  rewrite remove_plain.
  2:{ apply plain_app. split; [exact Ps |].
      change (plain (py "://" ++ rest)). apply plain_app. split; [now repeat split |].
      unfold rest. rewrite !plain_app. auto. }
  rewrite (break_at_found ":"%char s _ Hcolon).
  subst s. cbv beta iota.
  rewrite Hal, Hsc. cbn [andb]. rewrite Hlow.
  change (startswith (py "//") ("/"%char :: "/"%char :: rest)) with true.
  cbv beta iota.
  unfold _splitnetloc. cbn [skipn].
  assert (Hrest : match p ++ optq with [] => True | x :: _ => negb (is_netloc_delim x) = false end).
  { destruct Hp0 as [-> | [r ->]]; [| reflexivity].
    unfold optq. destruct q; reflexivity. }
  destruct (take_while_all _ n (p ++ optq) Hn Hrest) as [Ht Hd].
  fold rest in Ht, Hd. change (drop 0 rest) with rest. rewrite Ht, Hd.
  cbv zeta. rewrite Hb1, Hb2.
  assert (Hhash : has_char "#"%char (p ++ optq) = false).
  { rewrite has_char_app, Hp1. unfold optq. destruct q; [reflexivity |].
    change (has_char "#"%char (py "?" ++ a :: q) = false). rewrite has_char_app, Hq. reflexivity. }
  rewrite (break_at_none _ _ Hhash).
  assert (Hqm : break_at "?"%char (p ++ optq) = (p, match q with [] => None | _ => Some q end)).
  { unfold optq. destruct q as [|a q'].
    - rewrite app_nil_r. now apply break_at_none.
    - change (py "?" ++ a :: q') with ("?"%char :: a :: q'). now apply break_at_found. }
  rewrite Hqm.
  destruct q; cbv beta iota; unfold optq; rewrite ?app_nil_r, Hp3, andb_false_r; reflexivity.
Qed.

Lemma startswith_slashes (s : str) :
  startswith (py "//") s = true -> exists r, s = "/"%char :: "/"%char :: r.
Proof.
  destruct s as [|a [|b r]]; [discriminate | |].
  - change (startswith (py "//") [a]) with (chr_eqb "/"%char a && false).
    rewrite andb_false_r. discriminate.
  - change (startswith (py "//") (a :: b :: r))
      with (chr_eqb "/"%char a && (chr_eqb "/"%char b && true)).
    intros H. apply andb_true_iff in H as [Ha H]. apply andb_true_iff in H as [Hb _].
    apply chr_eqb_true in Ha, Hb. subst. eauto.
Qed.

Lemma prefix_path_shape (p t : str) : path_shape (p ++ t) -> path_shape p.
Proof.
  intros [H0 [H1 H2]]. rewrite has_char_app in H1, H2.
  apply orb_false_iff in H1 as [H1 _]. apply orb_false_iff in H2 as [H2 _].
  split; [| auto]. destruct p as [|x p]; [now left |].
  right. destruct H0 as [H0 | [r H0]]; [discriminate |].
  injection H0 as -> _. eauto.
Qed.

Lemma urlsplit_shape u s n p q f :
  urlsplit check_bracketed_host u = Some (s, n, p, q, f) ->
  s <> [] -> n <> [] ->
  scheme_shape s /\ forallb (fun c => negb (is_netloc_delim c)) n = true /\
  brackets_ok n /\ path_shape p /\ has_char "#"%char q = false /\
  plain n /\ plain p /\ plain q.
Proof.
  unfold urlsplit.
  set (u2 := remove_char "010"%char (remove_char "013"%char (remove_char "009"%char
               (drop_while is_c0_or_space u)))).
  assert (P2 : plain u2) by apply plain_remove.
  pose proof (break_at_spec ":"%char u2) as Hcol.
  destruct (break_at ":"%char u2) as [pre post].
  set (sch := match pre, post with
              | c :: pre', Some post' =>
                  if is_ascii_alpha c && forallb is_scheme_char (c :: pre')
                  then (lower (c :: pre'), post') else ([], u2)
              | _, _ => ([], u2)
              end).
  assert (Hsch : (fst sch = [] \/ scheme_shape (fst sch)) /\ plain (snd sch)).
  { unfold sch. destruct pre as [|c pre']; [split; [now left | exact P2] |].
    destruct post as [post'|]; [| split; [now left | exact P2]].
    destruct (is_ascii_alpha c) eqn:Ha; [| split; [now left | exact P2]].
    destruct (forallb is_scheme_char (c :: pre')) eqn:Hf; [| split; [now left | exact P2]].
    destruct Hcol as [Hu2 _]. split; [right; now apply lower_scheme_shape |].
    rewrite Hu2 in P2. apply plain_app in P2 as [_ P2].
    change (plain ([":"%char] ++ post')) in P2. now apply plain_app in P2 as [_ P2]. }
  change (match pre with
          | [] => ([], u2)
          | c :: pre0 =>
              match post with
              | Some post0 =>
                  if is_ascii_alpha c && forallb is_scheme_char (c :: pre0)
                  then (lower (c :: pre0), post0) else ([], u2)
              | None => ([], u2)
              end
          end) with sch.
  destruct sch as [s0 u3]. cbn [fst snd] in Hsch. destruct Hsch as [Hs0 P3].
  destruct (startswith (py "//") u3) eqn:Hss.
  2:{ destruct (break_at "#"%char u3) as [a [b|]]; destruct (break_at "?"%char _) as [c' [d|]];
        intros H _ Hn; injection H as _ <- _ _ _; now contradiction Hn. }
  apply startswith_slashes in Hss as [r3 ->].
  unfold _splitnetloc. change (drop 2 ("/"%char :: "/"%char :: r3)) with r3.
  change (plain (py "//" ++ r3)) in P3. apply plain_app in P3 as [_ P3].
  pose proof (take_drop_while (fun c => negb (is_netloc_delim c)) r3) as Htd.
  pose proof (take_while_forallb (fun c => negb (is_netloc_delim c)) r3) as Hnd.
  pose proof (drop_while_head (fun c => negb (is_netloc_delim c)) r3) as Hhead.
  set (n0 := take_while (fun c => negb (is_netloc_delim c)) r3) in *.
  set (u4 := drop_while (fun c => negb (is_netloc_delim c)) r3) in *.
  rewrite <- Htd in P3. apply plain_app in P3 as [Pn P4].
  destruct (has_char "["%char n0 && negb (has_char "]"%char n0)
            || has_char "]"%char n0 && negb (has_char "["%char n0)) eqn:Hb1; [discriminate |].
  destruct (has_char "["%char n0 && has_char "]"%char n0 &&
            negb (check_bracketed_host (bracketed_host n0))) eqn:Hb2; [discriminate |].
  pose proof (break_at_spec "#"%char u4) as Hh.
  set (fr := match break_at "#"%char u4 with
             | (pre0, Some post0) => (pre0, post0)
             | (_, None) => (u4, [])
             end).
  assert (Hfr : exists t, u4 = fst fr ++ t /\ has_char "#"%char (fst fr) = false /\
                          (fst fr = [] -> u4 = [] \/ exists t', u4 = "#"%char :: t')).
  { unfold fr. destruct (break_at "#"%char u4) as [a [b|]]; cbn [fst].
    - destruct Hh as [-> Ha]. exists ("#"%char :: b). split; [reflexivity |].
      split; [exact Ha |]. intros ->. right. eauto.
    - destruct Hh as [-> Ha]. exists []. rewrite app_nil_r. split; [reflexivity |].
      split; [exact Ha |]. intros ->. now left. }
  change (let (pre0, o) := break_at "#"%char u4 in
          match o with
          | Some post0 => (pre0, post0)
          | None => (u4, [])
          end) with fr.
  destruct fr as [u5 f0]. cbn [fst] in Hfr. destruct Hfr as [t5 [Hu4 [Hno5 He5]]].
  rewrite Hu4 in P4. apply plain_app in P4 as [P5 _].
  pose proof (break_at_spec "?"%char u5) as Hq.
  set (qr := match break_at "?"%char u5 with
             | (pre0, Some post0) => (pre0, post0)
             | (_, None) => (u5, [])
             end).
  assert (Hqr : exists m, u5 = fst qr ++ m ++ snd qr /\ has_char "?"%char (fst qr) = false /\
                          (fst qr = [] -> u5 = [] \/ exists t', u5 = "?"%char :: t')).
  { unfold qr. destruct (break_at "?"%char u5) as [a [b|]]; cbn [fst snd].
    - destruct Hq as [-> Ha]. exists ["?"%char]. split; [reflexivity |].
      split; [exact Ha |]. intros ->. right. eauto.
    - destruct Hq as [-> Ha]. exists []. rewrite !app_nil_r. split; [reflexivity |].
      split; [exact Ha |]. intros ->. now left. }
  change (let (pre0, o) := break_at "?"%char u5 in
          match o with
          | Some post0 => (pre0, post0)
          | None => (u5, [])
          end) with qr.
  destruct qr as [p0 q0]. cbn [fst snd] in Hqr. destruct Hqr as [m [Hu5 [Hnoq Hep]]].
  intros H Hs Hn. injection H as -> -> -> -> ->.
  destruct Hs0 as [Hs0 | Hs0]; [contradiction |].
  rewrite Hu5 in P5, Hno5. apply plain_app in P5 as [Pp P5]. apply plain_app in P5 as [_ Pq].
  rewrite !has_char_app in Hno5. apply orb_false_iff in Hno5 as [Hp_hash Hno5].
  apply orb_false_iff in Hno5 as [_ Hq_hash].
  repeat split; try assumption; try (apply Hs0); try (apply Pn); try (apply Pp); try (apply Pq).
  destruct p as [|x p']; [now left |]. right.
  (* the path is the head of what follows the host, which starts with a delimiter *)
  assert (Hx : exists t, u4 = x :: t).
  { rewrite Hu4, Hu5. cbn. eauto. }
  destruct Hx as [t Hx]. rewrite Hx in Hhead.
  rewrite has_char_cons in Hp_hash, Hnoq.
  apply orb_false_iff in Hp_hash as [Hx1 _]. apply orb_false_iff in Hnoq as [Hx2 _].
  unfold is_netloc_delim in Hhead. apply negb_false_iff in Hhead.
  cbn in Hhead. unfold chr_eqb in *. rewrite (Ascii.eqb_sym x "#"), (Ascii.eqb_sym x "?") in Hhead.
  rewrite Hx1, Hx2 in Hhead. rewrite !orb_false_r in Hhead.
  apply Ascii.eqb_eq in Hhead. subst x. eauto.
Qed.

Lemma last_segment_suffix (x : str) :
  x = firstn (length x - length (last_segment x)) x ++ last_segment x.
Proof.
  unfold last_segment.
  set (f := fun c => negb (chr_eqb c "/"%char)).
  pose proof (take_drop_while f (rev x)) as H.
  apply (f_equal (@rev ascii)) in H. rewrite rev_app_distr, rev_involutive in H.
  rewrite <- H at 2 4.
  rewrite length_app, Nat.add_sub. now rewrite firstn_app, Nat.sub_diag, firstn_all, app_nil_r.
Qed.

Lemma splitparams_prefix (x : str) : exists t, x = fst (_splitparams x) ++ t.
Proof.
  unfold _splitparams.
  pose proof (break_at_spec ";"%char (last_segment x)) as H.
  destruct (break_at ";"%char (last_segment x)) as [before [after|]]; cbn [fst].
  - destruct H as [H _]. exists (";"%char :: after).
    rewrite <- app_assoc, <- H. apply last_segment_suffix.
  - exists []. now rewrite app_nil_r.
Qed.

Lemma urlparse_shape u r :
  urlparse check_bracketed_host u = Some r ->
  scheme r <> [] -> netloc r <> [] ->
  parts_shape r.
Proof.
  unfold urlparse.
  destruct (urlsplit check_bracketed_host u) as [[[[[s n] p] q] f]|] eqn:Hsplit; [| discriminate].
  destruct (splitparams_prefix p) as [t Ht].
  set (pp := if existsb (str_eqb s) uses_params && has_char ";"%char p
             then _splitparams p else (p, [])).
  assert (Hpp : exists t', p = fst pp ++ t').
  { unfold pp. destruct (_ && _); [eauto | exists []; now rewrite app_nil_r]. }
  destruct pp as [p1 par]. cbn [fst] in Hpp. destruct Hpp as [t' Hp].
  intros H. injection H as <-. cbn [scheme netloc path query]. intros Hs Hn.
  destruct (urlsplit_shape _ _ _ _ _ _ Hsplit Hs Hn) as [H1 [H2 [H3 [H4 [H5 [H6 [H7 H8]]]]]]].
  rewrite Hp in H4, H7. apply plain_app in H7 as [H7 _].
  split; cbn [scheme netloc path query]; auto.
  eapply prefix_path_shape; eauto.
Qed.

Lemma endswith_one c (s : str) a : endswith [c] (s ++ [a]) = chr_eqb c a.
Proof.
  unfold endswith. rewrite rev_app_distr. cbn [rev app startswith]. apply andb_true_r.
Qed.

Lemma endswith_two c d (s : str) a b :
  endswith [c; d] (s ++ [a; b]) = chr_eqb d b && chr_eqb c a.
Proof.
  unfold endswith. rewrite rev_app_distr. cbn [rev app startswith].
  now rewrite andb_true_r.
Qed.

(** The text [normalize_url] puts together is [unsplit] of the parts. *)
Lemma strip_fragment_and_slash_unfold u :
  URLDiscovery.strip_fragment_and_slash check_bracketed_host u =
  match urlparse check_bracketed_host u with
  | None => None
  | Some r =>
      let out := unsplit (scheme r) (netloc r) (path r) (query r) in
      Some (if endswith (py "/") out && (1 <? length (path r)) then drop_last out else out)
  end.
Proof.
  unfold URLDiscovery.strip_fragment_and_slash, unsplit.
  destruct (urlparse check_bracketed_host u) as [r|]; [| reflexivity].
  destruct (query r); cbv zeta; rewrite ?app_nil_r, <- ?app_assoc; reflexivity.
Qed.

Lemma normalize_unsplit_stable s n p q :
  scheme_shape s ->
  forallb (fun c => negb (is_netloc_delim c)) n = true ->
  brackets_ok n ->
  path_shape p -> has_char ";"%char p = false ->
  has_char "#"%char q = false ->
  plain n -> plain p -> plain q ->
  endswith (py "/") (unsplit s n p q) && (1 <? length p) = false ->
  URLDiscovery.strip_fragment_and_slash check_bracketed_host (unsplit s n p q) =
  Some (unsplit s n p q).
Proof.
  intros Hs Hn Hb Hp Hsemi Hq Pn Pp Pq Hkeep.
  rewrite strip_fragment_and_slash_unfold, urlparse_unsplit by assumption.
  cbn [scheme netloc path query]. cbv zeta. now rewrite Hkeep.
Qed.

Lemma normalize_twice_parts u r :
  urlparse check_bracketed_host u = Some r ->
  scheme r <> [] -> netloc r <> [] ->
  endswith (py "//") (path r) = false ->
  has_char ";"%char (path r) = false ->
  endswith (py "/") (query r) = false ->
  exists w, normalize1 check_bracketed_host u = Some w /\
            normalize1 check_bracketed_host w = Some w.
Proof.
  intros Hparse Hs Hn Hdouble Hsemi Hqslash.
  destruct (urlparse_shape u r Hparse Hs Hn) as [Ss Sn Sb Sp Sq [Pn [Pp Pq]]].
  unfold normalize1, URLDiscovery.normalize_url.
  rewrite strip_fragment_and_slash_unfold, Hparse. cbv zeta.
  destruct r as [s n p par q f]. cbn [scheme netloc path query] in *.
  destruct (endswith (py "/") (unsplit s n p q) && (1 <? length p)) eqn:Hstrip.
  - (* a trailing slash is removed *)
    apply andb_true_iff in Hstrip as [Hend Hlen]. apply Nat.ltb_lt in Hlen.
    assert (Hq : q = []).
    { destruct q as [|a q'] using rev_ind; [reflexivity |]. exfalso.
      change (py "/") with ["/"%char] in *.
      rewrite endswith_one in Hqslash.
      unfold unsplit in Hend. destruct (q' ++ [a]) eqn:E; [now destruct q' |].
      rewrite <- E in Hend. rewrite !app_assoc, endswith_one in Hend. congruence. }
    subst q. unfold unsplit in *. rewrite app_nil_r in *.
    destruct p as [|z p' _] using rev_ind; [simpl in Hlen; lia |].
    change (py "/") with ["/"%char] in *.
    rewrite !app_assoc, endswith_one in Hend. apply chr_eqb_true in Hend. subst z.
    rewrite !app_assoc. unfold drop_last. rewrite removelast_last.
    rewrite length_app in Hlen. cbn [length] in Hlen.
    destruct p' as [|y p'' _] using rev_ind; [simpl in Hlen; lia |].
    change (py "//") with ["/"%char; "/"%char] in Hdouble.
    rewrite <- app_assoc in Hdouble. cbn [app] in Hdouble.
    rewrite endswith_two in Hdouble.
    change (chr_eqb "/"%char "/"%char) with true in Hdouble. cbn [andb] in Hdouble.
    rename Hdouble into Hy.
    eexists. split; [reflexivity |].
    assert (Hsh : path_shape (p'' ++ [y])) by (eapply prefix_path_shape; eauto).
    rewrite has_char_app in Hsemi. apply orb_false_iff in Hsemi as [Hsemi _].
    apply plain_app in Pp as [Pp _].
    pose proof (normalize_unsplit_stable s n (p'' ++ [y]) [] Ss Sn Sb Hsh Hsemi
                  eq_refl Pn Pp Pq) as Hst.
    unfold unsplit in Hst. rewrite !app_nil_r, !app_assoc in Hst.
    rewrite !app_assoc. apply Hst.
    change (py "/") with ["/"%char]. now rewrite endswith_one, Hy.
  - (* nothing is removed *)
    eexists. split; [reflexivity |].
    now apply normalize_unsplit_stable.
Qed.

End NormalizeTwice.

(** C9, as the code has it.  For a URL with a scheme and a host whose
    path does not end in two slashes and holds no semicolon, and whose
    query does not end in a slash, [normalize_url] returns a URL that a
    second application leaves unchanged. *)
Theorem normalize_url_twice
  (check_bracketed_host : str -> bool) (url : str) (parts : UrlParse.ParseResult) :
  UrlParse.urlparse check_bracketed_host url = Some parts ->
  UrlParse.scheme parts <> [] ->
  UrlParse.netloc parts <> [] ->
  PyStr.endswith (py "//") (UrlParse.path parts) = false ->
  PyStr.has_char ";"%char (UrlParse.path parts) = false ->
  PyStr.endswith (py "/") (UrlParse.query parts) = false ->
  exists normalized,
    normalize1 check_bracketed_host url = Some normalized /\
    normalize1 check_bracketed_host normalized = Some normalized.
Proof. apply normalize_twice_parts. Qed.

Lemma normalize_url_twice_witness :
  exists normalized,
    normalize1 (fun _ => true) (py "HTTPS://docs.example/guide/start/?page=2#intro")
      = Some normalized /\
    normalize1 (fun _ => true) normalized = Some normalized.
Proof.
  apply (normalize_url_twice (fun _ => true)
           (py "HTTPS://docs.example/guide/start/?page=2#intro")
           {| UrlParse.scheme := py "https"; UrlParse.netloc := py "docs.example";
              UrlParse.path := py "/guide/start/"; UrlParse.params := [];
              UrlParse.query := py "page=2"; UrlParse.fragment := py "intro" |}).
  - vm_compute. reflexivity.
  - discriminate.
  - discriminate.
  - vm_compute. reflexivity.
  - vm_compute. reflexivity.
  - vm_compute. reflexivity.
Defined.

(** A URL with a scheme and a host on which the second application
    differs from the first: each application removes one slash. *)
Lemma normalize_url_twice_counterexample :
  (exists parts,
     UrlParse.urlparse (fun _ => true) (py "http://a.com/b//") = Some parts /\
     UrlParse.scheme parts = py "http" /\ UrlParse.netloc parts = py "a.com") /\
  normalize1 (fun _ => true) (py "http://a.com/b//") = Some (py "http://a.com/b/") /\
  normalize1 (fun _ => true) (py "http://a.com/b/") = Some (py "http://a.com/b") /\
  ~ (forall normalized,
       normalize1 (fun _ => true) (py "http://a.com/b//") = Some normalized ->
       normalize1 (fun _ => true) normalized = Some normalized).
Proof.
  split; [eexists; vm_compute; repeat split; reflexivity |].
  split; [vm_compute; reflexivity |].
  split; [vm_compute; reflexivity |].
  intros H. specialize (H (py "http://a.com/b/")).
  assert (E : normalize1 (fun _ => true) (py "http://a.com/b/") = Some (py "http://a.com/b/"))
    by (apply H; vm_compute; reflexivity).
  vm_compute in E. discriminate.
Qed.

(** The other two ways a second application changes the result: a query
    that is a lone slash, and a semicolon before a trailing slash. *)
Example normalize_url_other_cases :
  normalize1 (fun _ => true) (py "http://a.com/b?/") = Some (py "http://a.com/b?") /\
  normalize1 (fun _ => true) (py "http://a.com/b?") = Some (py "http://a.com/b") /\
  normalize1 (fun _ => true) (py "http://a.com/a;b/") = Some (py "http://a.com/a;b") /\
  normalize1 (fun _ => true) (py "http://a.com/a;b") = Some (py "http://a.com/a").
Proof. vm_compute. repeat split; reflexivity. Qed.

(** * Further properties of the discovery pass *)

(** ** What the discovery pass keeps true whatever the settings *)

Section DiscoverySound.

Import URLDiscovery.

Variable check_bracketed_host : str -> bool.
Variable urljoin : str -> str -> option str.
Variable re_match : str -> str -> option bool.
Variable arun : str -> ArunOutcome.
Variable config : CrawlConfig.t.
Variable start_url : str.
Variable patterns exclude_patterns : option (list str).

#[local] Abbreviation Sound :=
  (URLDiscovery.Sound re_match arun config patterns exclude_patterns).
#[local] Abbreviation links_of :=
  (process_links check_bracketed_host urljoin config start_url).
#[local] Abbreviation step_of :=
  (step check_bracketed_host urljoin re_match arun config start_url patterns exclude_patterns).
#[local] Abbreviation reachable_of :=
  (reachable check_bracketed_host urljoin re_match arun config start_url patterns
     exclude_patterns).

(** The link loop touches the frontier, the depths and the
    relationships only. *)
Lemma process_links_frame current_url current_depth links st :
  discovered (links_of current_url current_depth links st) = discovered st /\
  visited (links_of current_url current_depth links st) = visited st /\
  fetched (links_of current_url current_depth links st) = fetched st.
Proof.
  revert st. induction links as [|link links IH]; intros st; [auto |].
  cbn [process_links]. destruct link as [|c link]; [apply IH |].
  destruct (normalize_url check_bracketed_host urljoin (c :: link) (Some current_url))
    as [normalized|]; [| auto].
  destruct (if CrawlConfig.include_external config then Some true
            else is_same_domain check_bracketed_host normalized start_url) as [[|]|];
    [| apply IH | auto].
  destruct (bool_decide (normalized ∉ visited st) && bool_decide (normalized ∉ to_visit st));
    [| apply IH].
  match goal with |- context [links_of _ _ links ?s] => destruct (IH s) as [H1 [H2 H3]] end.
  rewrite H1, H2, H3. auto.
Qed.

Lemma sound_frame st st' :
  discovered st' = discovered st -> visited st' = visited st -> fetched st' = fetched st ->
  Sound st -> Sound st'.
Proof.
  intros Hd Hv Hf [H1 H2 H3 H4]. split; rewrite ?Hd, ?Hv, ?Hf; assumption.
Qed.

Lemma sound_initial : Sound (initial start_url).
Proof.
  unfold initial. split; cbn [discovered visited fetched].
  - apply NoDup_nil_2.
  - intros u. split; intros H; [now apply not_elem_of_nil in H | now apply not_elem_of_empty in H].
  - rewrite size_empty. lia.
  - intros u H. now apply not_elem_of_empty in H.
Qed.

Lemma step_sound st st' : Sound st -> step_of st = Some st' -> Sound st'.
Proof.
  intros Hs. pose proof Hs as [Hnd Hfv Hbud Hdisc].
  unfold step. destruct (to_visit st) as [|current_url rest] eqn:Hq; [discriminate |].
  destruct (Z.ltb_spec (Z.of_nat (size (discovered st))) (CrawlConfig.max_pages config))
    as [Hlt | Hge]; [| discriminate].
  cbn [negb visited depth_map to_visit discovered url_relationships fetched].
  destruct (bool_decide (current_url ∈ visited st)) eqn:Hvis.
  { intros H. injection H as <-. now apply (sound_frame st). }
  apply bool_decide_eq_false in Hvis.
  destruct (CrawlConfig.max_depth config <? _)%Z.
  { intros H. injection H as <-. now apply (sound_frame st). }
  set (st1 := {| discovered := discovered st; to_visit := rest;
                 visited := {[current_url]} ∪ visited st;
                 depth_map := depth_map st;
                 url_relationships := url_relationships st;
                 fetched := fetched st ++ [current_url] |}).
  assert (Hs1 : Sound st1).
  { split; simpl.
    - apply NoDup_app. split; [exact Hnd |]. split; [| apply NoDup_singleton].
      intros u Hu Hu'. apply list_elem_of_singleton in Hu' as ->.
      apply Hvis. now apply Hfv.
    - intros u. rewrite elem_of_app, list_elem_of_singleton, elem_of_union, elem_of_singleton, Hfv.
      tauto.
    - exact Hbud.
    - intros u Hu. destruct (Hdisc u Hu) as [H1 H2]. split; [| exact H2].
      apply elem_of_app. now left. }
  destruct (arun current_url) as [|[|] internal] eqn:Harun;
    [intros H; injection H as <-; exact Hs1 | | intros H; injection H as <-; exact Hs1].
  destruct (URLPatternHandler.match_url_pattern _ _ _ _) as [matched|] eqn:Hmatch;
    [| intros H; injection H as <-; exact Hs1].
  set (st2 := if matched
              then {| discovered := {[current_url]} ∪ discovered st; to_visit := rest;
                      visited := {[current_url]} ∪ visited st;
                      depth_map := depth_map st;
                      url_relationships := url_relationships st;
                      fetched := fetched st ++ [current_url] |}
              else st1).
  assert (Hs2 : Sound st2).
  { unfold st2. destruct matched; [| exact Hs1].
    destruct Hs1 as [G1 G2 G3 G4]. split; simpl; [exact G1 | exact G2 | |].
    - assert (Hsz : size ({[current_url]} ∪ discovered st) <= S (size (discovered st))).
      { destruct (decide (current_url ∈ discovered st)) as [Hin | Hnin].
        - rewrite (subseteq_union_1_L {[current_url]} (discovered st))
            by (now apply singleton_subseteq_l).
          lia.
        - rewrite size_union by (now apply disjoint_singleton_l).
          rewrite size_singleton. lia. }
      lia.
    - intros u Hu. apply elem_of_union in Hu as [Hu | Hu]; [| now apply G4].
      apply elem_of_singleton in Hu as ->. split; [| split; [eauto | exact Hmatch]].
      apply elem_of_app. right. now apply list_elem_of_singleton. }
  destruct internal as [|l ls]; [intros H; injection H as <-; exact Hs2 |].
  destruct (_ <? CrawlConfig.max_depth config)%Z; [| intros H; injection H as <-; exact Hs2].
  intros H.
  replace st' with (links_of current_url (default 0%Z (depth_map st !! current_url))
                      (l :: ls) st2) by congruence.
  destruct (process_links_frame current_url (default 0%Z (depth_map st !! current_url))
              (l :: ls) st2) as [F1 [F2 F3]].
  now apply (sound_frame st2).
Qed.

Lemma reachable_sound st : reachable_of st -> Sound st.
Proof.
  induction 1 as [| st st' _ IH Hstep]; [apply sound_initial | eapply step_sound; eauto].
Qed.

#[local] Abbreviation normalized_links current_url links :=
  (omap (fun link : str =>
           match link with
           | [] => None
           | _ => normalize_url check_bracketed_host urljoin link (Some current_url)
           end) links).

(** What the link loop appends to the frontier. *)
Lemma process_links_spec current_url current_depth links st :
  exists added,
    to_visit (links_of current_url current_depth links st) = to_visit st ++ added /\
    sublist added (normalized_links current_url links) /\
    NoDup added /\
    (forall c, c ∈ added ->
       (c ∉ to_visit st) /\ (c ∉ visited st) /\
       (CrawlConfig.include_external config = false ->
        is_same_domain check_bracketed_host c start_url = Some true) /\
       depth_map (links_of current_url current_depth links st) !! c
         = Some (current_depth + 1)%Z) /\
    (forall u, u ∉ added ->
       depth_map (links_of current_url current_depth links st) !! u = depth_map st !! u).
Proof.
  revert st. induction links as [|link links IH]; intros st.
  { exists []. cbn [process_links]. rewrite app_nil_r.
    split; [reflexivity | split; [apply sublist_nil_l | split; [apply NoDup_nil_2 |]]].
    split; [intros c Hc; now apply not_elem_of_nil in Hc | reflexivity]. }
  cbn [process_links]. destruct link as [|x link]; [apply IH |].
  change (normalized_links current_url ((x :: link) :: links))
    with (match normalize_url check_bracketed_host urljoin (x :: link) (Some current_url) with
          | Some n => n :: normalized_links current_url links
          | None => normalized_links current_url links
          end).
  assert (Hstop : exists added : list str,
             to_visit st = to_visit st ++ added /\
             sublist added [] /\ NoDup added /\
             (forall c, c ∈ added ->
                (c ∉ to_visit st) /\ (c ∉ visited st) /\
                (CrawlConfig.include_external config = false ->
                 is_same_domain check_bracketed_host c start_url = Some true) /\
                depth_map st !! c = Some (current_depth + 1)%Z) /\
             (forall u, u ∉ added -> depth_map st !! u = depth_map st !! u)).
  { exists []. rewrite app_nil_r.
    split; [reflexivity | split; [apply sublist_nil_l | split; [apply NoDup_nil_2 |]]].
    split; [intros c Hc; now apply not_elem_of_nil in Hc | reflexivity]. }
  destruct (normalize_url check_bracketed_host urljoin (x :: link) (Some current_url))
    as [normalized|].
  2:{ destruct Hstop as [added [H1 [H2 H3]]]. exists added. split; [exact H1 |].
      split; [| exact H3]. eapply sublist_nil_r in H2. subst added. apply sublist_nil_l. }
  assert (Hskip : forall P : list str -> Prop,
             (exists added, P added /\ sublist added (normalized_links current_url links)) ->
             exists added, P added /\
                           sublist added (normalized :: normalized_links current_url links)).
  { intros P [added [HP Hsub]]. exists added. split; [exact HP | now apply sublist_cons]. }
  destruct (if CrawlConfig.include_external config then Some true
            else is_same_domain check_bracketed_host normalized start_url) as [[|]|] eqn:Hdom.
  3:{ destruct Hstop as [added [H1 [H2 H3]]]. exists added. split; [exact H1 |].
      split; [| exact H3]. eapply sublist_nil_r in H2. subst added. apply sublist_nil_l. }
  2:{ destruct (IH st) as [added [H1 [H2 H3]]]. exists added.
      split; [exact H1 | split; [now apply sublist_cons | exact H3]]. }
  destruct (bool_decide (normalized ∉ visited st)) eqn:Hv.
  2:{ destruct (IH st) as [added [H1 [H2 H3]]]. exists added.
      split; [exact H1 | split; [now apply sublist_cons | exact H3]]. }
  destruct (bool_decide (normalized ∉ to_visit st)) eqn:Hq.
  2:{ destruct (IH st) as [added [H1 [H2 H3]]]. exists added.
      split; [exact H1 | split; [now apply sublist_cons | exact H3]]. }
  apply bool_decide_eq_true in Hv, Hq. cbn [andb].
  match goal with |- context [links_of _ _ links ?s] => set (st2 := s) end.
  destruct (IH st2) as [added [H1 [H2 [H3 [H4 H5]]]]].
  assert (Hfresh : normalized ∉ added).
  { intros Hin. destruct (H4 _ Hin) as [Hn _]. apply Hn. unfold st2. cbn [to_visit].
    apply elem_of_app. right. now apply list_elem_of_singleton. }
  exists (normalized :: added). split; [| split; [| split; [| split]]].
  - rewrite H1. unfold st2. cbn [to_visit]. now rewrite <- app_assoc.
  - now apply sublist_skip.
  - apply NoDup_cons. split; assumption.
  - intros c Hc. apply elem_of_cons in Hc as [-> | Hc].
    + split; [exact Hq | split; [exact Hv | split]].
      * intros Hext. rewrite Hext in Hdom. exact Hdom.
      * rewrite (H5 _ Hfresh). unfold st2. cbn [depth_map]. apply lookup_insert_eq.
    + destruct (H4 _ Hc) as [G1 [G2 [G3 G4]]]. unfold st2 in G1, G2. cbn [to_visit visited] in G1, G2.
      split; [| split; [exact G2 | split; [exact G3 | exact G4]]].
      intros Hin. apply G1. apply elem_of_app. now left.
  - intros u Hu. apply not_elem_of_cons in Hu as [Hne Hu].
    rewrite (H5 _ Hu). unfold st2. cbn [depth_map]. now apply lookup_insert_ne.
Qed.

(** One pass of the loop, seen from the frontier: the head is dropped
    without a fetch, or fetched with nothing appended, or fetched below
    the maximum depth with some of its normalized links appended. *)
Lemma step_shape st st' :
  step_of st = Some st' ->
  exists current_url rest,
    to_visit st = current_url :: rest /\
    ((to_visit st' = rest /\ fetched st' = fetched st /\ depth_map st' = depth_map st) \/
     (to_visit st' = rest /\ fetched st' = fetched st ++ [current_url] /\
      depth_map st' = depth_map st) \/
     (exists internal added,
        arun current_url = ArunReturns true internal /\
        (default 0 (depth_map st !! current_url) < CrawlConfig.max_depth config)%Z /\
        to_visit st' = rest ++ added /\
        fetched st' = fetched st ++ [current_url] /\
        sublist added (normalized_links current_url internal) /\
        (forall c, c ∈ added ->
           (c ∉ rest) /\
           (CrawlConfig.include_external config = false ->
            is_same_domain check_bracketed_host c start_url = Some true) /\
           depth_map st' !! c = Some (default 0 (depth_map st !! current_url) + 1)%Z) /\
        (forall u, u ∉ added -> depth_map st' !! u = depth_map st !! u))).
Proof.
  unfold step. destruct (to_visit st) as [|current_url rest] eqn:Hq; [discriminate |].
  destruct (negb _); [discriminate |].
  cbn [visited depth_map to_visit discovered url_relationships fetched].
  intros H. exists current_url, rest. split; [reflexivity |].
  destruct (bool_decide (current_url ∈ visited st)).
  { injection H as <-. left. auto. }
  destruct (CrawlConfig.max_depth config <? _)%Z.
  { injection H as <-. left. auto. }
  destruct (arun current_url) as [|[|] internal] eqn:Harun;
    [injection H as <-; right; left; auto | | injection H as <-; right; left; auto].
  destruct (URLPatternHandler.match_url_pattern _ _ _ _) as [matched|];
    [| injection H as <-; right; left; auto].
  match type of H with context [if matched then ?a else ?b] =>
    set (st2 := if matched then a else b) in H;
    assert (Hst2 : to_visit st2 = rest /\ fetched st2 = fetched st ++ [current_url] /\
                   depth_map st2 = depth_map st)
      by (unfold st2; destruct matched; auto)
  end.
  destruct Hst2 as [Hq2 [Hf2 Hd2]].
  destruct internal as [|l ls];
    [injection H as <-; right; left; auto |].
  destruct (Z.ltb_spec (default 0%Z (depth_map st !! current_url))
                       (CrawlConfig.max_depth config)) as [Hlt | Hge];
    [| injection H as <-; right; left; auto].
  assert (Hst' : st' = links_of current_url (default 0%Z (depth_map st !! current_url))
                         (l :: ls) st2) by congruence.
  clear H. subst st'. right. right.
  destruct (process_links_spec current_url (default 0%Z (depth_map st !! current_url))
              (l :: ls) st2) as [added [H1 [H2 [H3 [H4 H5]]]]].
  destruct (process_links_frame current_url (default 0%Z (depth_map st !! current_url))
              (l :: ls) st2) as [_ [_ F3]].
  exists (l :: ls), added. rewrite H1, F3, Hq2, Hf2.
  split; [reflexivity | split; [exact Hlt | split; [reflexivity | split; [reflexivity |]]]].
  split; [exact H2 |]. split.
  - intros c Hc. destruct (H4 _ Hc) as [G1 [_ [G3 G4]]]. rewrite Hq2 in G1. auto.
  - intros u Hu. rewrite (H5 _ Hu). now rewrite Hd2.
Qed.

(** Without [include_external], the frontier and the fetched URLs stay
    on the domain of the seed. *)
Lemma reachable_on_domain st :
  CrawlConfig.include_external config = false ->
  reachable_of st ->
  forall u, u ∈ to_visit st \/ u ∈ fetched st -> on_domain check_bracketed_host start_url u.
Proof.
  intros Hext. induction 1 as [| st st' _ IH Hstep].
  - intros u [Hu | Hu]; [| now apply not_elem_of_nil in Hu].
    apply list_elem_of_singleton in Hu. left. exact Hu.
  - destruct (step_shape _ _ Hstep) as [cur [rest [Hq Hcases]]].
    assert (Hcur : on_domain check_bracketed_host start_url cur).
    { apply IH. left. rewrite Hq. apply list_elem_of_here. }
    assert (Hrest : forall u, u ∈ rest -> on_domain check_bracketed_host start_url u).
    { intros u Hu. apply IH. left. rewrite Hq. now apply list_elem_of_further. }
    assert (Hfet : forall u, u ∈ fetched st ++ [cur] ->
                             on_domain check_bracketed_host start_url u).
    { intros u Hu. apply elem_of_app in Hu as [Hu | Hu]; [apply IH; now right |].
      now apply list_elem_of_singleton in Hu as ->. }
    destruct Hcases as [[H1 [H2 _]] | [[H1 [H2 _]] | [internal [added [_ [_ [H1 [H2 [_ [H3 _]]]]]]]]]];
      rewrite H1, H2; intros u [Hu | Hu].
    + now apply Hrest.
    + apply IH. now right.
    + now apply Hrest.
    + now apply Hfet.
    + apply elem_of_app in Hu as [Hu | Hu]; [now apply Hrest |].
      right. now apply (H3 u Hu).
    + now apply Hfet.
Qed.

#[local] Abbreviation weight_of := (weight check_bracketed_host urljoin arun).
#[local] Abbreviation queue_weight_of := (queue_weight check_bracketed_host urljoin arun config).

Lemma weight_pos n u : 1 <= weight_of n u.
Proof. destruct n; simpl; lia. Qed.

Lemma list_sum_head (x : nat) (l : list nat) : list_sum (x :: l) = x + list_sum l.
Proof. reflexivity. Qed.

Lemma list_sum_sublist (f : str -> nat) (l1 l2 : list str) :
  sublist l1 l2 -> list_sum (map f l1) <= list_sum (map f l2).
Proof. induction 1; cbn [map]; rewrite ?list_sum_head; simpl; lia. Qed.

Lemma list_sum_map_ext (f g : str -> nat) (l : list str) :
  (forall u, u ∈ l -> f u = g u) -> list_sum (map f l) = list_sum (map g l).
Proof.
  induction l as [|x l IH]; intros H; [reflexivity |]. simpl.
  rewrite (H x) by apply list_elem_of_here.
  rewrite IH; [reflexivity |]. intros u Hu. apply H. now apply list_elem_of_further.
Qed.

(** Every pass of the loop lowers the weight of the frontier. *)
Lemma step_decreases st st' :
  step_of st = Some st' -> queue_weight_of st' < queue_weight_of st.
Proof.
  intros Hstep. destruct (step_shape _ _ Hstep) as [cur [rest [Hq Hcases]]].
  unfold queue_weight. rewrite Hq. cbn [map]. rewrite list_sum_head.
  pose proof (weight_pos (levels_below config (default 0%Z (depth_map st !! cur))) cur) as Hpos.
  destruct Hcases as [[H1 [_ H3]] | [[H1 [_ H3]] | Hlinks]].
  - rewrite H1, H3. lia.
  - rewrite H1, H3. lia.
  - destruct Hlinks as [internal [added [Harun [Hlt [H1 [_ [Hsub [Hadd Hkeep]]]]]]]].
    rewrite H1, map_app, list_sum_app.
    set (cd := default 0%Z (depth_map st !! cur)) in *.
    assert (Hrest : list_sum (map (fun u => weight_of (levels_below config
                                     (default 0%Z (depth_map st' !! u))) u) rest) =
                    list_sum (map (fun u => weight_of (levels_below config
                                     (default 0%Z (depth_map st !! u))) u) rest)).
    { apply list_sum_map_ext. intros u Hu. rewrite Hkeep; [reflexivity |].
      intros Hin. now apply (Hadd u Hin). }
    assert (Hadded : list_sum (map (fun u => weight_of (levels_below config
                                      (default 0%Z (depth_map st' !! u))) u) added) =
                     list_sum (map (weight_of (levels_below config (cd + 1))) added)).
    { apply list_sum_map_ext. intros u Hu. destruct (Hadd u Hu) as [_ [_ Hd]].
      now rewrite Hd. }
    rewrite Hrest, Hadded.
    assert (Hlev : levels_below config cd = S (levels_below config (cd + 1))).
    { unfold levels_below. lia. }
    rewrite Hlev. cbn [weight]. unfold children. rewrite Harun.
    pose proof (list_sum_sublist (weight_of (levels_below config (cd + 1))) _ _ Hsub). lia.
Qed.

(** The loop ends: a number of passes that is at least the weight of
    the frontier is enough. *)
Lemma discover_loop_ends fuel st :
  queue_weight_of st <= fuel ->
  exists st', discover_loop check_bracketed_host urljoin re_match arun config fuel start_url
                patterns exclude_patterns st = Some st'.
Proof.
  revert st. induction fuel as [|fuel IH]; intros st Hle; cbn [discover_loop].
  - destruct (step_of st) as [st1|] eqn:Hstep; [| eauto].
    apply step_decreases in Hstep. lia.
  - destruct (step_of st) as [st1|] eqn:Hstep; [| eauto].
    apply step_decreases in Hstep. apply IH. lia.
Qed.

(** The state the loop ends in is one the passes lead to, and no
    further pass is possible from it. *)
Lemma discover_loop_result fuel st st' :
  reachable_of st ->
  discover_loop check_bracketed_host urljoin re_match arun config fuel start_url
    patterns exclude_patterns st = Some st' ->
  reachable_of st' /\ step_of st' = None.
Proof.
  revert st. induction fuel as [|fuel IH]; intros st Hreach; cbn [discover_loop].
  - destruct (step_of st) as [st1|] eqn:Hstep; [discriminate |].
    intros H. injection H as <-. auto.
  - destruct (step_of st) as [st1|] eqn:Hstep.
    + apply IH. eapply reachable_step; eauto.
    + intros H. injection H as <-. auto.
Qed.

Lemma discover_loop_more_fuel fuel fuel' st st' :
  fuel <= fuel' ->
  discover_loop check_bracketed_host urljoin re_match arun config fuel start_url
    patterns exclude_patterns st = Some st' ->
  discover_loop check_bracketed_host urljoin re_match arun config fuel' start_url
    patterns exclude_patterns st = Some st'.
Proof.
  revert fuel' st. induction fuel as [|fuel IH]; intros fuel' st Hle; cbn [discover_loop].
  - destruct (step_of st) as [st1|] eqn:Hstep; [discriminate |].
    intros H. destruct fuel'; cbn [discover_loop]; now rewrite Hstep.
  - destruct fuel' as [|fuel']; [lia |]. cbn [discover_loop].
    destruct (step_of st) as [st1|] eqn:Hstep; [| auto].
    apply IH. lia.
Qed.

(** The loop condition: the frontier is empty or the budget is used up. *)
Lemma step_none st :
  step_of st = None ->
  to_visit st = [] \/
  (CrawlConfig.max_pages config <= Z.of_nat (size (discovered st)))%Z.
Proof.
  unfold step. destruct (to_visit st) as [|current_url rest]; [now left |].
  destruct (Z.ltb_spec (Z.of_nat (size (discovered st))) (CrawlConfig.max_pages config))
    as [Hlt | Hge]; [| now right].
  cbn [negb visited depth_map to_visit discovered url_relationships fetched].
  destruct (bool_decide _); [discriminate |].
  destruct (_ <? _)%Z; [discriminate |].
  destruct (arun current_url) as [|[|] internal]; [discriminate | | discriminate].
  destruct (URLPatternHandler.match_url_pattern _ _ _ _) as [matched|]; [| discriminate].
  destruct internal; [discriminate |].
  destruct (_ <? _)%Z; discriminate.
Qed.

End DiscoverySound.

(** ** The order of the result *)

Section ResultOrder.

Import PyStr URLDiscovery.

Lemma str_leb_total (a b : str) : str_leb a b = true \/ str_leb b a = true.
Proof.
  revert b. induction a as [|x a IH]; intros [|y b]; cbn [str_leb]; auto.
  destruct (N.ltb_spec (code x) (code y)); [now left |].
  destruct (N.ltb_spec (code y) (code x)); [now right |].
  apply IH.
Qed.

Lemma str_le_total : Total str_le.
Proof. intros a b. apply str_leb_total. Qed.

Lemma sorted_elements (X : gset str) :
  let urls := merge_sort str_le (elements X) in
  Sorted str_le urls /\ NoDup urls /\ length urls = size X /\ forall u, u ∈ urls <-> u ∈ X.
Proof.
  cbv zeta. pose proof (merge_sort_Permutation str_le (elements X)) as Hp.
  pose proof str_le_total as Htotal.
  split; [apply (Sorted_merge_sort str_le) |].
  split; [rewrite Hp; apply NoDup_elements |].
  split; [now rewrite Hp |].
  intros u. now rewrite Hp, elem_of_elements.
Qed.

Lemma discover_urls_reachable
  (check_bracketed_host : str -> bool) (urljoin : str -> str -> option str)
  (re_match : str -> str -> option bool) (arun : str -> ArunOutcome)
  (config : CrawlConfig.t) (start_url : str) (patterns exclude_patterns : option (list str))
  (fuel : nat) (urls : list str) (st : State) :
  discover_urls check_bracketed_host urljoin re_match arun config fuel
    start_url patterns exclude_patterns = Some (urls, st) ->
  reachable check_bracketed_host urljoin re_match arun config start_url
    patterns exclude_patterns st /\
  urls = merge_sort str_le (elements (discovered st)).
Proof.
  unfold discover_urls.
  destruct (discover_loop _ _ _ _ _ _ _ _ _ _) as [st1|] eqn:Hloop; [| discriminate].
  intros H. injection H as <- <-. split; [| reflexivity].
  eapply discover_loop_result; [apply reachable_initial | exact Hloop].
Qed.

(** What the returned list has to do with the final state. *)
Lemma discover_urls_list
  (check_bracketed_host : str -> bool) (urljoin : str -> str -> option str)
  (re_match : str -> str -> option bool) (arun : str -> ArunOutcome)
  (config : CrawlConfig.t) (start_url : str) (patterns exclude_patterns : option (list str))
  (fuel : nat) (urls : list str) (st : State) :
  discover_urls check_bracketed_host urljoin re_match arun config fuel
    start_url patterns exclude_patterns = Some (urls, st) ->
  reachable check_bracketed_host urljoin re_match arun config start_url
    patterns exclude_patterns st /\
  Sorted str_le urls /\ NoDup urls /\ length urls = size (discovered st) /\
  forall u, u ∈ urls <-> u ∈ discovered st.
Proof.
  intros H. apply discover_urls_reachable in H as [Hreach ->].
  split; [exact Hreach | apply sorted_elements].
Qed.

End ResultOrder.


(** ** What [discover_urls] returns *)

(** X1. The discovery loop ends, whatever the pages return and whatever
    the settings are: some number of passes is enough, every larger
    number gives the same sorted list and the same final state, and in
    that state the frontier is empty or the page budget is used up. *)
Theorem discover_urls_terminates
  (check_bracketed_host : str -> bool) (urljoin : str -> str -> option str)
  (re_match : str -> str -> option bool) (arun : str -> URLDiscovery.ArunOutcome)
  (config : CrawlConfig.t) (start_url : str) (patterns exclude_patterns : option (list str)) :
  exists fuel urls st,
    (forall fuel', fuel <= fuel' ->
       URLDiscovery.discover_urls check_bracketed_host urljoin re_match arun config fuel'
         start_url patterns exclude_patterns = Some (urls, st)) /\
    URLDiscovery.reachable check_bracketed_host urljoin re_match arun config start_url
      patterns exclude_patterns st /\
    (URLDiscovery.to_visit st = [] \/
     (CrawlConfig.max_pages config <= Z.of_nat (size (URLDiscovery.discovered st)))%Z).
Proof.
  set (fuel := URLDiscovery.queue_weight check_bracketed_host urljoin arun config
                 (URLDiscovery.initial start_url)).
  destruct (discover_loop_ends check_bracketed_host urljoin re_match arun config start_url
              patterns exclude_patterns fuel (URLDiscovery.initial start_url) (le_n _))
    as [st Hloop].
  destruct (discover_loop_result check_bracketed_host urljoin re_match arun config start_url
              patterns exclude_patterns fuel _ st (URLDiscovery.reachable_initial _ _ _ _ _ _ _ _)
              Hloop) as [Hreach Hnone].
  exists fuel. eexists. exists st.
  split; [| split; [exact Hreach | eapply step_none; eauto]].
  intros fuel' Hle. unfold URLDiscovery.discover_urls.
  rewrite (discover_loop_more_fuel check_bracketed_host urljoin re_match arun config
             start_url patterns exclude_patterns fuel fuel' _ st Hle Hloop).
  reflexivity.
Qed.

(** X2. The list [discover_urls] returns never holds more URLs than the
    page budget [max_pages] (none when the budget is negative). *)
Theorem discover_urls_page_budget
  (check_bracketed_host : str -> bool) (urljoin : str -> str -> option str)
  (re_match : str -> str -> option bool) (arun : str -> URLDiscovery.ArunOutcome)
  (config : CrawlConfig.t) (start_url : str) (patterns exclude_patterns : option (list str))
  (fuel : nat) (urls : list str) (st : URLDiscovery.State) :
  URLDiscovery.discover_urls check_bracketed_host urljoin re_match arun config fuel
    start_url patterns exclude_patterns = Some (urls, st) ->
  (Z.of_nat (length urls) <= Z.max 0 (CrawlConfig.max_pages config))%Z.
Proof.
  intros H. apply discover_urls_list in H as [Hreach [_ [_ [Hlen _]]]].
  rewrite Hlen. apply (reachable_sound _ _ _ _ _ _ _ _ _ Hreach).
Qed.

Lemma discover_urls_page_budget_witness :
  exists urls st,
    site_discovery (settings 2 2 false) 10 = Some (urls, st) /\
    (Z.of_nat (length urls) <= 2)%Z.
Proof.
  assert (H : match site_discovery (settings 2 2 false) 10 with
              | Some _ => true
              | None => false
              end = true) by (vm_compute; reflexivity).
  destruct (site_discovery (settings 2 2 false) 10) as [[urls st]|] eqn:E; [| discriminate H].
  exists urls, st. split; [reflexivity |].
  exact (discover_urls_page_budget (fun _ => true) (fun _ link => Some link) Regex.re_match
           site_arun (settings 2 2 false) site_seed None None 10 urls st E).
Defined.

(** X3. In every state of the discovery loop no URL has been handed to
    [crawler.arun] twice, and the URLs handed to it are exactly the
    visited ones. *)
Theorem discovery_fetches_once
  (check_bracketed_host : str -> bool) (urljoin : str -> str -> option str)
  (re_match : str -> str -> option bool) (arun : str -> URLDiscovery.ArunOutcome)
  (config : CrawlConfig.t) (start_url : str) (patterns exclude_patterns : option (list str))
  (st : URLDiscovery.State) :
  URLDiscovery.reachable check_bracketed_host urljoin re_match arun config start_url
    patterns exclude_patterns st ->
  NoDup (URLDiscovery.fetched st) /\
  forall u, u ∈ URLDiscovery.fetched st <-> u ∈ URLDiscovery.visited st.
Proof.
  intros Hreach.
  destruct (reachable_sound _ _ _ _ _ _ _ _ _ Hreach) as [H1 H2 _ _]. auto.
Qed.

Lemma discovery_fetches_once_witness :
  NoDup (URLDiscovery.fetched site_state1) /\
  forall u, u ∈ URLDiscovery.fetched site_state1 <-> u ∈ URLDiscovery.visited site_state1.
Proof.
  apply (discovery_fetches_once (fun _ => true) (fun _ link => Some link) Regex.re_match
           site_arun CrawlConfig.__init__ site_seed None None site_state1).
  eapply URLDiscovery.reachable_step; [apply URLDiscovery.reachable_initial |].
  unfold site_state1.
  assert (H : match URLDiscovery.step (fun _ => true) (fun _ link => Some link) Regex.re_match
                      site_arun CrawlConfig.__init__ site_seed None None
                      (URLDiscovery.initial site_seed) with
              | Some _ => true
              | None => false
              end = true) by (vm_compute; reflexivity).
  destruct (URLDiscovery.step _ _ _ _ _ _ _ _ _); [reflexivity | discriminate H].
Defined.

(** X4. Every URL in the list [discover_urls] returns was fetched, the
    fetch reported success, and the URL passed [match_url_pattern]
    with the given patterns. *)
Theorem discovered_urls_fetched_and_matched
  (check_bracketed_host : str -> bool) (urljoin : str -> str -> option str)
  (re_match : str -> str -> option bool) (arun : str -> URLDiscovery.ArunOutcome)
  (config : CrawlConfig.t) (start_url : str) (patterns exclude_patterns : option (list str))
  (fuel : nat) (urls : list str) (st : URLDiscovery.State) :
  URLDiscovery.discover_urls check_bracketed_host urljoin re_match arun config fuel
    start_url patterns exclude_patterns = Some (urls, st) ->
  forall u, u ∈ urls ->
    u ∈ URLDiscovery.fetched st /\
    (exists internal, arun u = URLDiscovery.ArunReturns true internal) /\
    URLPatternHandler.match_url_pattern re_match u patterns exclude_patterns = Some true.
Proof.
  intros H u Hu. apply discover_urls_list in H as [Hreach [_ [_ [_ Hin]]]].
  apply Hin in Hu.
  now apply (URLDiscovery.sound_discovered _ _ _ _ _ _
               (reachable_sound _ _ _ _ _ _ _ _ _ Hreach)).
Qed.

Lemma discovered_urls_fetched_and_matched_witness :
  exists urls st,
    site_discovery CrawlConfig.__init__ 10 = Some (urls, st) /\
    forall u, u ∈ urls ->
      u ∈ URLDiscovery.fetched st /\
      (exists internal, site_arun u = URLDiscovery.ArunReturns true internal) /\
      URLPatternHandler.match_url_pattern Regex.re_match u None None = Some true.
Proof.
  assert (H : match site_discovery CrawlConfig.__init__ 10 with
              | Some _ => true
              | None => false
              end = true) by (vm_compute; reflexivity).
  destruct (site_discovery CrawlConfig.__init__ 10) as [[urls st]|] eqn:E; [| discriminate H].
  exists urls, st. split; [reflexivity |].
  exact (discovered_urls_fetched_and_matched (fun _ => true) (fun _ link => Some link)
           Regex.re_match site_arun CrawlConfig.__init__ site_seed None None 10 urls st E).
Defined.

(** X5. The list [discover_urls] returns is in code-point order, has no
    duplicates, and holds exactly the admitted URLs. *)
Theorem discover_urls_sorted
  (check_bracketed_host : str -> bool) (urljoin : str -> str -> option str)
  (re_match : str -> str -> option bool) (arun : str -> URLDiscovery.ArunOutcome)
  (config : CrawlConfig.t) (start_url : str) (patterns exclude_patterns : option (list str))
  (fuel : nat) (urls : list str) (st : URLDiscovery.State) :
  URLDiscovery.discover_urls check_bracketed_host urljoin re_match arun config fuel
    start_url patterns exclude_patterns = Some (urls, st) ->
  Sorted URLDiscovery.str_le urls /\ NoDup urls /\
  forall u, u ∈ urls <-> u ∈ URLDiscovery.discovered st.
Proof.
  intros H. apply discover_urls_list in H as [_ [H1 [H2 [_ H4]]]]. auto.
Qed.

Lemma discover_urls_sorted_witness :
  exists urls st,
    site_discovery CrawlConfig.__init__ 10 = Some (urls, st) /\
    Sorted URLDiscovery.str_le urls /\ NoDup urls /\
    forall u, u ∈ urls <-> u ∈ URLDiscovery.discovered st.
Proof.
  assert (H : match site_discovery CrawlConfig.__init__ 10 with
              | Some _ => true
              | None => false
              end = true) by (vm_compute; reflexivity).
  destruct (site_discovery CrawlConfig.__init__ 10) as [[urls st]|] eqn:E; [| discriminate H].
  exists urls, st. split; [reflexivity |].
  exact (discover_urls_sorted (fun _ => true) (fun _ link => Some link)
           Regex.re_match site_arun CrawlConfig.__init__ site_seed None None 10 urls st E).
Defined.

(** X6. When [include_external] is off, every URL the discovery loop
    queues, fetches or admits is the seed itself or has the scheme and
    host of the seed. *)
Theorem discovery_stays_on_domain
  (check_bracketed_host : str -> bool) (urljoin : str -> str -> option str)
  (re_match : str -> str -> option bool) (arun : str -> URLDiscovery.ArunOutcome)
  (config : CrawlConfig.t) (start_url : str) (patterns exclude_patterns : option (list str))
  (st : URLDiscovery.State) :
  CrawlConfig.include_external config = false ->
  URLDiscovery.reachable check_bracketed_host urljoin re_match arun config start_url
    patterns exclude_patterns st ->
  forall u, u ∈ URLDiscovery.to_visit st \/ u ∈ URLDiscovery.fetched st \/
            u ∈ URLDiscovery.discovered st ->
    u = start_url \/
    URLDiscovery.is_same_domain check_bracketed_host u start_url = Some true.
Proof.
  intros Hext Hreach u Hu.
  apply (reachable_on_domain _ _ _ _ _ _ _ _ st Hext Hreach).
  destruct Hu as [Hu | [Hu | Hu]]; [now left | now right | right].
  now apply (URLDiscovery.sound_discovered _ _ _ _ _ _
               (reachable_sound _ _ _ _ _ _ _ _ _ Hreach)).
Qed.

Lemma discovery_stays_on_domain_witness :
  CrawlConfig.include_external CrawlConfig.__init__ = false /\
  forall u, u ∈ URLDiscovery.to_visit site_state1 \/ u ∈ URLDiscovery.fetched site_state1 \/
            u ∈ URLDiscovery.discovered site_state1 ->
    u = site_seed \/ URLDiscovery.is_same_domain (fun _ => true) u site_seed = Some true.
Proof.
  split; [reflexivity |].
  apply (discovery_stays_on_domain (fun _ => true) (fun _ link => Some link) Regex.re_match
           site_arun CrawlConfig.__init__ site_seed None None site_state1).
  - reflexivity.
  - eapply URLDiscovery.reachable_step; [apply URLDiscovery.reachable_initial |].
    unfold site_state1.
    assert (H : match URLDiscovery.step (fun _ => true) (fun _ link => Some link) Regex.re_match
                        site_arun CrawlConfig.__init__ site_seed None None
                        (URLDiscovery.initial site_seed) with
                | Some _ => true
                | None => false
                end = true) by (vm_compute; reflexivity).
    destruct (URLDiscovery.step _ _ _ _ _ _ _ _ _); [reflexivity | discriminate H].
Defined.

(** X7. With a maximum depth of 0 no link is followed: the seed is the
    only URL the discovery loop ever queues, fetches or admits. *)
Theorem depth_zero_discovers_seed_only
  (check_bracketed_host : str -> bool) (urljoin : str -> str -> option str)
  (re_match : str -> str -> option bool) (arun : str -> URLDiscovery.ArunOutcome)
  (config : CrawlConfig.t) (start_url : str) (patterns exclude_patterns : option (list str))
  (st : URLDiscovery.State) :
  CrawlConfig.max_depth config = 0%Z ->
  URLDiscovery.reachable check_bracketed_host urljoin re_match arun config start_url
    patterns exclude_patterns st ->
  forall u, u ∈ URLDiscovery.to_visit st \/ u ∈ URLDiscovery.fetched st \/
            u ∈ URLDiscovery.discovered st ->
    u = start_url.
Proof.
  intros HD Hreach u Hu.
  assert (H0 : (0 <= CrawlConfig.max_depth config)%Z) by lia.
  pose proof (reachable_inv check_bracketed_host urljoin re_match arun config start_url
                patterns exclude_patterns H0 st Hreach)
    as [_ _ Hrange _ Hdisc Hfet Hchild Hpar].
  assert (Hq : u ∈ URLDiscovery.to_visit st \/ u ∈ URLDiscovery.visited st).
  { destruct Hu as [Hu | [Hu | Hu]]; [now left | right; now apply Hfet | right; now apply Hdisc]. }
  destruct (Hpar u Hq) as [[-> _] | [p [cs [Hp Hc]]]]; [reflexivity |].
  destruct (Hchild p cs u Hp Hc) as [dp [H1 H2]].
  pose proof (Hrange _ _ H1). pose proof (Hrange _ _ H2). lia.
Qed.

Lemma depth_zero_discovers_seed_only_witness :
  exists st,
    URLDiscovery.step (fun _ => true) (fun _ link => Some link) Regex.re_match site_arun
      (settings 0 50 false) site_seed None None (URLDiscovery.initial site_seed) = Some st /\
    URLDiscovery.fetched st = [site_seed] /\
    forall u, u ∈ URLDiscovery.to_visit st \/ u ∈ URLDiscovery.fetched st \/
              u ∈ URLDiscovery.discovered st ->
      u = site_seed.
Proof.
  assert (H : match URLDiscovery.step (fun _ => true) (fun _ link => Some link) Regex.re_match
                      site_arun (settings 0 50 false) site_seed None None
                      (URLDiscovery.initial site_seed) with
              | Some st => bool_decide (URLDiscovery.fetched st = [site_seed])
              | None => false
              end = true) by (vm_compute; reflexivity).
  destruct (URLDiscovery.step _ _ _ _ _ _ _ _ _) as [st|] eqn:E; [| discriminate H].
  exists st. split; [reflexivity |]. split; [now apply bool_decide_eq_true in H |].
  apply (depth_zero_discovers_seed_only (fun _ => true) (fun _ link => Some link) Regex.re_match
           site_arun (settings 0 50 false) site_seed None None st).
  - reflexivity.
  - eapply URLDiscovery.reachable_step; [apply URLDiscovery.reachable_initial | exact E].
Defined.

(** * Further properties of the content cleaner *)

(** ** The classification pass as a pipeline *)

Section ClassificationPipeline.

Import PyStr ContentCleaner.

Variable self : ContentCleaner.t.
Variable title : str.
Variable lines : list str.

#[local] Abbreviation enhance := enhance_markdown_formatting.

(** Once the content has started, the pass filters the lines up to the
    first footer line. *)
Lemma classify_after_start i rest st :
  content_started st = true -> in_footer st = false -> skip_navigation_section st = false ->
  cleaned_lines (classify_from self title lines i rest st) =
  cleaned_lines st ++ map enhance (List.filter (kept_line self) (before_footer self rest)).
Proof.
  revert i st. induction rest as [|line rest IH]; intros i st Hcs Hif Hsn.
  { cbn. now rewrite app_nil_r. }
  cbn [classify_from before_footer]. unfold loop_body. rewrite Hcs, Hif, Hsn.
  cbn [negb andb].
  destruct (_is_footer_line self (strip line)).
  { cbn. now rewrite app_nil_r. }
  cbn [List.filter]. unfold kept_line at 1.
  destruct (_should_skip_line self (strip line)); cbn [negb andb].
  { now apply IH. }
  rewrite Hcs. cbn [andb].
  destruct (_is_likely_navigation (strip line)); cbn [negb].
  { now apply IH. }
  rewrite IH by (cbn; congruence). cbn [cleaned_lines map]. now rewrite <- app_assoc.
Qed.

(** Before that, it looks for the line at which the content starts. *)
Lemma classify_until_start i rest st :
  _is_footer_line self [] = false ->
  content_started st = false -> in_footer st = false -> skip_navigation_section st = true ->
  cleaned_lines (classify_from self title lines i rest st) =
  cleaned_lines st ++
  map enhance (List.filter (kept_line self)
                 (from_start self title lines i (before_footer self rest))).
Proof.
  intros Hblank. revert i st. induction rest as [|line rest IH]; intros i st Hcs Hif Hsn.
  { cbn. now rewrite app_nil_r. }
  cbn [classify_from before_footer]. unfold loop_body. rewrite Hcs, Hif, Hsn.
  cbn [negb andb].
  destruct (strip line) as [|a s] eqn:Hs.
  { rewrite Hblank. cbn [from_start]. unfold starts_content. rewrite Hs. cbn [negb andb].
    now apply IH. }
  destruct (_is_footer_line self (a :: s)).
  { cbn. now rewrite app_nil_r. }
  cbn [from_start]. unfold starts_content. rewrite Hs. cbn [negb andb].
  destruct (_should_skip_line self (a :: s)) eqn:Hskip; cbn [negb andb].
  { now apply IH. }
  destruct (_is_navigation_section (a :: s) lines i); cbn [negb andb].
  { now apply IH. }
  destruct (_is_main_content_start self (a :: s) title lines i); [| now apply IH].
  cbn [content_started andb List.filter]. unfold kept_line at 1. rewrite Hs, Hskip.
  cbn [negb andb].
  destruct (_is_likely_navigation (a :: s)); cbn [negb].
  - rewrite classify_after_start by reflexivity. reflexivity.
  - rewrite classify_after_start by reflexivity. cbn [cleaned_lines map].
    now rewrite <- app_assoc.
Qed.

(** What one pass of the loop body can do to the collected lines. *)
Lemma loop_body_keeps i line st :
  in_footer st = false ->
  match loop_body self title lines i line st with
  | Break st' => cleaned_lines st' = cleaned_lines st
  | Next st' =>
      in_footer st' = false /\
      (cleaned_lines st' = cleaned_lines st \/
       cleaned_lines st' = cleaned_lines st ++ [enhance line] /\
       _is_footer_line self (strip line) = false /\
       _should_skip_line self (strip line) = false /\
       _is_likely_navigation (strip line) = false)
  end.
Proof.
  intros Hif. unfold loop_body. rewrite Hif. cbn [negb andb].
  destruct (negb (content_started st) && _) eqn:H0; [auto |].
  destruct (_is_footer_line self (strip line)) eqn:Hfoot; [reflexivity |].
  destruct (_should_skip_line self (strip line)) eqn:Hskip; [auto |].
  destruct (skip_navigation_section st && _); [auto |].
  destruct (content_started st) eqn:Hcs; cbn [negb].
  - rewrite Hcs. cbn [andb].
    destruct (_is_likely_navigation (strip line)) eqn:Hnav; cbn; auto 10.
  - destruct (_is_main_content_start self (strip line) title lines i); [| auto].
    cbn [content_started andb].
    destruct (_is_likely_navigation (strip line)) eqn:Hnav; cbn; auto 10.
Qed.

(** The collected lines are enhanced input lines, in their order, none
    of them a footer line, a skipped line or a navigation-like line. *)
Lemma classify_from_keeps i rest st :
  in_footer st = false ->
  exists kept,
    sublist kept rest /\
    cleaned_lines (classify_from self title lines i rest st) =
      cleaned_lines st ++ map enhance kept /\
    Forall (fun line => _is_footer_line self (strip line) = false /\
                        _should_skip_line self (strip line) = false /\
                        _is_likely_navigation (strip line) = false) kept.
Proof.
  revert i st. induction rest as [|line rest IH]; intros i st Hif.
  { exists []. cbn. rewrite app_nil_r. auto using sublist_nil_l. }
  cbn [classify_from]. pose proof (loop_body_keeps i line st Hif) as Hbody.
  destruct (loop_body self title lines i line st) as [st' | st'].
  - destruct Hbody as [Hif' Hc]. destruct (IH (S i) st' Hif') as [kept [H1 [H2 H3]]].
    destruct Hc as [Hc | [Hc Hline]].
    + exists kept. rewrite H2, Hc. split; [now apply sublist_cons | auto].
    + exists (line :: kept). rewrite H2, Hc. cbn [map]. rewrite <- app_assoc.
      split; [now apply sublist_skip | split; [reflexivity | now constructor]].
  - exists []. rewrite Hbody. cbn. rewrite app_nil_r. auto using sublist_nil_l.
Qed.

(** Without a line that starts the content nothing is collected. *)
Lemma classify_from_no_start i rest st :
  content_started st = false ->
  (forall line j, line ∈ rest ->
     _is_main_content_start self (strip line) title lines j = false) ->
  cleaned_lines (classify_from self title lines i rest st) = cleaned_lines st.
Proof.
  revert i st. induction rest as [|line rest IH]; intros i st Hcs Hno; [reflexivity |].
  cbn [classify_from]. unfold loop_body. rewrite Hcs. cbn [negb andb].
  rewrite (Hno line i) by apply list_elem_of_here.
  assert (Hrest : forall l j, l ∈ rest ->
            _is_main_content_start self (strip l) title lines j = false)
    by (intros l j Hl; apply Hno; now apply list_elem_of_further).
  destruct (match strip line with [] => true | _ => false end); [now apply IH |].
  destruct (negb (in_footer st) && _); [reflexivity |].
  destruct (_should_skip_line self (strip line)); [now apply IH |].
  destruct (skip_navigation_section st && _); now apply IH.
Qed.

End ClassificationPipeline.

(** X8. The classification loop of [clean_markdown_content] is a
    pipeline: cut the lines at the first footer line, drop everything
    before the first line that starts the content, drop the skipped and
    the navigation-like lines from the rest, and enhance what is left.
    (For a cleaner none of whose footer patterns is the empty text.) *)
Theorem classification_is_a_pipeline (self : ContentCleaner.t) (title markdown : str) :
  ContentCleaner._is_footer_line self [] = false ->
  markdown <> [] ->
  let lines := PyStr.split_on PyStr.nl (ContentCleaner.unwrap markdown) in
  let kept := List.filter (kept_line self)
                (from_start self title lines 0 (before_footer self lines)) in
  ContentCleaner.cleaned_lines (ContentCleaner.classify self title lines) =
    map ContentCleaner.enhance_markdown_formatting kept /\
  ContentCleaner.clean_markdown_content self markdown title =
    ContentCleaner._clean_whitespace
      (doc (map ContentCleaner.enhance_markdown_formatting kept)).
Proof.
  intros Hblank Hne lines kept.
  assert (H : ContentCleaner.cleaned_lines (ContentCleaner.classify self title lines) =
              map ContentCleaner.enhance_markdown_formatting kept).
  { unfold ContentCleaner.classify.
    now rewrite (classify_until_start self title lines 0 lines ContentCleaner.initial_state). }
  split; [exact H |].
  unfold ContentCleaner.clean_markdown_content. destruct markdown; [contradiction |].
  fold lines. cbv zeta. now rewrite H.
Qed.

Lemma classification_is_a_pipeline_witness :
  ContentCleaner.clean_markdown_content ContentCleaner.__init__ footer_doc [] =
  py "Substantial paragraph text here that is long enough.".
Proof.
  destruct (classification_is_a_pipeline ContentCleaner.__init__ [] footer_doc) as [_ H].
  - vm_compute. reflexivity.
  - discriminate.
  - rewrite H. vm_compute. reflexivity.
Defined.

(** X9. Whatever the cleaner's patterns are, the lines the
    classification loop collects are input lines in their original
    order, each enhanced, and none of them is a footer line, a skipped
    line or a navigation-like line. *)
Theorem cleaned_lines_are_input_lines (self : ContentCleaner.t) (title : str)
        (lines : list str) :
  exists kept,
    sublist kept lines /\
    ContentCleaner.cleaned_lines (ContentCleaner.classify self title lines) =
      map ContentCleaner.enhance_markdown_formatting kept /\
    Forall (fun line =>
              ContentCleaner._is_footer_line self (PyStr.strip line) = false /\
              ContentCleaner._should_skip_line self (PyStr.strip line) = false /\
              ContentCleaner._is_likely_navigation (PyStr.strip line) = false) kept.
Proof.
  destruct (classify_from_keeps self title lines 0 lines ContentCleaner.initial_state eq_refl)
    as [kept [H1 [H2 H3]]].
  exists kept. auto.
Qed.

(** X10. A page on which no line is accepted by
    [_is_main_content_start] is cleaned to the empty text. *)
Theorem no_content_start_gives_empty_page (self : ContentCleaner.t) (markdown title : str) :
  (forall line j, line ∈ PyStr.split_on PyStr.nl (ContentCleaner.unwrap markdown) ->
     ContentCleaner._is_main_content_start self (PyStr.strip line) title
       (PyStr.split_on PyStr.nl (ContentCleaner.unwrap markdown)) j = false) ->
  ContentCleaner.clean_markdown_content self markdown title = [].
Proof.
  intros Hno. unfold ContentCleaner.clean_markdown_content.
  destruct markdown as [|c m]; [reflexivity |]. cbv zeta.
  unfold ContentCleaner.classify.
  rewrite (classify_from_no_start self title _ 0 _ ContentCleaner.initial_state eq_refl Hno).
  reflexivity.
Qed.

Lemma no_content_start_gives_empty_page_witness :
  ContentCleaner.clean_markdown_content ContentCleaner.__init__ nav_only_doc (py "Docs") = [].
Proof.
  apply no_content_start_gives_empty_page.
  replace (PyStr.split_on PyStr.nl (ContentCleaner.unwrap nav_only_doc))
    with [py "Home"; py "About us"; py ""; py "Contact"] by (vm_compute; reflexivity).
  intros line j Hline.
  repeat (apply elem_of_cons in Hline as [-> | Hline]; [vm_compute; reflexivity |]).
  now apply not_elem_of_nil in Hline.
Defined.

(** ** Line enhancement *)

Section Enhancement.

Import PyStr ContentCleaner.

Lemma contains_unfold (sub s : str) :
  contains sub s = startswith sub s || match s with [] => false | _ :: t => contains sub t end.
Proof. destruct s; reflexivity. Qed.

Lemma contains_suffix (sub s : str) k :
  contains sub s = false -> startswith sub (skipn k s) = false.
Proof.
  revert s. induction k as [|k IH]; intros s; rewrite contains_unfold; intros H;
    apply orb_false_iff in H as [H1 H2].
  - exact H1.
  - destruct s as [|c s]; [exact H1 | now apply IH].
Qed.

(** A scan whose pattern matches nowhere returns the text. *)
Lemma scan_no_match m prev (s : str) :
  (forall p k, m p (skipn k s) = None) -> scan m prev 0 s = s.
Proof.
  revert prev. induction s as [|c s IH]; intros prev H; [reflexivity |].
  cbn [scan]. pose proof (H prev 0) as H0. change (drop 0 (c :: s)) with (c :: s) in H0.
  rewrite H0. f_equal. apply IH. intros p k. apply (H p (S k)).
Qed.

(** A scan that replaces every match by nothing only deletes. *)
Lemma scan_deletes m prev k (s : str) :
  (forall p t n repl, m p t = Some (n, repl) -> repl = []) ->
  sublist (scan m prev k s) s.
Proof.
  intros H. revert prev k. induction s as [|c s IH]; intros prev k; [constructor |].
  cbn [scan]. destruct k as [|k]; [| apply sublist_cons, IH].
  destruct (m prev (c :: s)) as [[n repl]|] eqn:E.
  - rewrite (H _ _ _ _ E). apply sublist_cons, IH.
  - apply sublist_skip, IH.
Qed.

Lemma scan_skips_all m prev k (s : str) : length s <= k -> scan m prev k s = [].
Proof.
  revert prev k. induction s as [|c s IH]; intros prev k Hk; [reflexivity |].
  cbn [scan]. destruct k as [|k]; [simpl in Hk; lia |]. apply IH. simpl in Hk. lia.
Qed.

Lemma tracking_at_prev key p q (s : str) : tracking_at key p s = tracking_at key q s.
Proof. reflexivity. Qed.

Lemma tracking_at_deletes key p (t : str) n repl :
  tracking_at key p t = Some (n, repl) -> repl = [].
Proof.
  unfold tracking_at.
  assert (H : forall (r : str) pre,
             (if startswith key r
              then match take_while not_backslash_s (skipn (length key) r) with
                   | [] => None
                   | run => Some (pre + length key + length run, @nil ascii)
                   end
              else None) = Some (n, repl) -> repl = []).
  { intros r pre. destruct (startswith key r); [| discriminate].
    destruct (take_while not_backslash_s _); [discriminate |].
    intros E. now injection E as _ <-. }
  destruct t as [|c r]; [apply (H [] 0) |].
  destruct (Ascii.eqb_spec c "\"%char) as [-> | Hc].
  - destruct (startswith key r) eqn:E1.
    + destruct (take_while not_backslash_s (skipn (length key) r)) eqn:E2.
      * apply (H ("\"%char :: r) 0).
      * intros E. now injection E as _ <-.
    + apply (H ("\"%char :: r) 0).
  - intros E. apply (H (c :: r) 0).
    destruct c as [[] [] [] [] [] [] [] []]; try exact E; now contradiction Hc.
Qed.

(** The match of [tracking_at] without the optional backslash. *)
#[local] Abbreviation try_at key r pre :=
  (if startswith key r
   then match take_while not_backslash_s (skipn (length key) r) with
        | [] => None
        | run => Some (pre + length key + length run, @nil ascii)
        end
   else None).

Lemma tracking_at_other key p c (r : str) :
  chr_eqb c "\"%char = false -> tracking_at key p (c :: r) = try_at key (c :: r) 0.
Proof.
  intros Hc. destruct c as [[] [] [] [] [] [] [] []]; try reflexivity; discriminate Hc.
Qed.

Lemma tracking_at_backslash key p (r : str) :
  tracking_at key p ("\"%char :: r) =
  match try_at key r 1 with
  | Some x => Some x
  | None => try_at key ("\"%char :: r) 0
  end.
Proof. reflexivity. Qed.

Lemma skipn_tail {A} k (s : list A) c r : skipn k s = c :: r -> skipn (S k) s = r.
Proof.
  revert s. induction k as [|k IH]; intros s H.
  - change (drop 0 s) with s in H. now subst s.
  - destruct s as [|x s]; [discriminate |]. apply (IH s H).
Qed.

(** Where the key does not occur, nothing matches. *)
Lemma contains_no_match key (s : str) :
  contains key s = false -> forall p k, tracking_at key p (skipn k s) = None.
Proof.
  intros H p k. pose proof (contains_suffix key s k H) as H0.
  destruct (skipn k s) as [|c r] eqn:E; [unfold tracking_at; now rewrite H0 |].
  pose proof (contains_suffix key s (S k) H) as H1. rewrite (skipn_tail _ _ _ _ E) in H1.
  destruct (chr_eqb c "\"%char) eqn:Hc.
  - apply Ascii.eqb_eq in Hc. subst c. rewrite tracking_at_backslash. now rewrite H1, H0.
  - rewrite tracking_at_other by exact Hc. now rewrite H0.
Qed.

Lemma no_match_cons key c (s : str) :
  (forall p, tracking_at key p (c :: s) = None) ->
  (forall p k, tracking_at key p (skipn k s) = None) ->
  forall p k, tracking_at key p (skipn k (c :: s)) = None.
Proof. intros H0 H p [|k]; [apply H0 | apply H]. Qed.

Lemma head_no_match k0 key p c (r : str) :
  chr_eqb c "\"%char = false -> chr_eqb k0 c = false ->
  tracking_at (k0 :: key) p (c :: r) = None.
Proof.
  intros Hc Hk. rewrite tracking_at_other by exact Hc. cbn [startswith]. now rewrite Hk.
Qed.

Lemma no_match_prefix k0 key (pre t : str) :
  has_char k0 pre = false -> has_char "\"%char pre = false ->
  (forall p k, tracking_at (k0 :: key) p (skipn k t) = None) ->
  forall p k, tracking_at (k0 :: key) p (skipn k (pre ++ t)) = None.
Proof.
  induction pre as [|c pre IH]; intros Hk Hb Ht; [exact Ht |].
  rewrite has_char_cons in Hk, Hb.
  apply orb_false_iff in Hk as [Hk Hk']. apply orb_false_iff in Hb as [Hb Hb'].
  cbn [app]. apply no_match_cons; [| now apply IH].
  intros p. apply head_no_match; [| exact Hk].
  unfold chr_eqb in *. now rewrite Ascii.eqb_sym.
Qed.

Lemma scan_prev m p q k (s : str) :
  (forall a b t, m a t = m b t) -> scan m p k s = scan m q k s.
Proof.
  intros H. destruct s as [|c s]; [reflexivity |]. cbn [scan].
  destruct k; [| reflexivity]. now rewrite (H p q).
Qed.

Lemma scan_tracking_prefix k0 key prev (pre t : str) :
  has_char k0 pre = false -> has_char "\"%char pre = false ->
  scan (tracking_at (k0 :: key)) prev 0 (pre ++ t) =
  pre ++ scan (tracking_at (k0 :: key)) None 0 t.
Proof.
  revert prev. induction pre as [|c pre IH]; intros prev Hk Hb.
  { apply scan_prev. intros a b s. reflexivity. }
  rewrite has_char_cons in Hk, Hb.
  apply orb_false_iff in Hk as [Hk Hk']. apply orb_false_iff in Hb as [Hb Hb'].
  cbn [app scan]. rewrite head_no_match; [| | exact Hk].
  - f_equal. now apply IH.
  - unfold chr_eqb in *. now rewrite Ascii.eqb_sym.
Qed.

Lemma enhance_links_no_match (line : str) :
  (forall p k, tracking_at (py "utm_") p (skipn k line) = None) ->
  (forall p k, tracking_at (py "ref=") p (skipn k line) = None) ->
  _enhance_links line = line.
Proof.
  intros H1 H2. unfold _enhance_links. cbv zeta.
  rewrite (scan_no_match _ None line H1). now apply scan_no_match.
Qed.

End Enhancement.

(** X11. [_enhance_links] only deletes characters, and it leaves a line
    in which neither [utm_] nor [ref=] occurs as it is. *)
Theorem enhance_links_only_deletes (line : str) :
  sublist (ContentCleaner._enhance_links line) line /\
  (PyStr.contains (py "utm_") line = false ->
   PyStr.contains (py "ref=") line = false ->
   ContentCleaner._enhance_links line = line).
Proof.
  split.
  - unfold ContentCleaner._enhance_links. cbv zeta.
    etransitivity; apply scan_deletes; intros p t n repl; apply tracking_at_deletes.
  - intros H1 H2. apply enhance_links_no_match; now apply contains_no_match.
Qed.

Lemma enhance_links_only_deletes_witness :
  ContentCleaner._enhance_links (py "See the [guide](https://docs.example/guide?page=2).") =
  py "See the [guide](https://docs.example/guide?page=2).".
Proof.
  apply (proj2 (enhance_links_only_deletes
                  (py "See the [guide](https://docs.example/guide?page=2)."))).
  - vm_compute. reflexivity.
  - vm_compute. reflexivity.
Defined.

(** X12. The two patterns of [_enhance_links] are written with doubled
    backslashes in raw strings, so the run after [utm_] or [ref=] ends
    at the next letter [s] or backslash, not at white space.  When no
    such character follows, the rest of the line is deleted with the
    parameter; and [utm_s...] (as in [utm_source]) is never deleted. *)
Theorem tracking_removal_runs_to_next_s (pre rest : str) :
  PyStr.has_char "u"%char pre = false ->
  PyStr.has_char "r"%char pre = false ->
  PyStr.has_char "\"%char pre = false ->
  (rest <> [] -> forallb ContentCleaner.not_backslash_s rest = true ->
   ContentCleaner._enhance_links (pre ++ py "utm_" ++ rest) = pre) /\
  (PyStr.contains (py "utm_") rest = false -> PyStr.contains (py "ref=") rest = false ->
   ContentCleaner._enhance_links (pre ++ py "utm_s" ++ rest) = pre ++ py "utm_s" ++ rest).
Proof.
  intros Hu Hr Hb. split.
  - intros Hne Hrest. unfold ContentCleaner._enhance_links. cbv zeta.
    rewrite (scan_tracking_prefix "u"%char (py "tm_") None pre _ Hu Hb).
    assert (Hfirst : PyStr.scan (ContentCleaner.tracking_at (py "utm_")) None 0
                       (py "utm_" ++ rest) = []).
    { change (py "utm_" ++ rest) with ("u"%char :: py "tm_" ++ rest). cbn [PyStr.scan].
      assert (Hm : ContentCleaner.tracking_at (py "utm_") None ("u"%char :: py "tm_" ++ rest)
                   = Some (4 + length rest, [])).
      { rewrite tracking_at_other by reflexivity.
        change (PyStr.startswith (py "utm_") ("u"%char :: py "tm_" ++ rest)) with true.
        change (skipn (length (py "utm_")) ("u"%char :: py "tm_" ++ rest)) with rest.
        destruct (take_while_all ContentCleaner.not_backslash_s rest [] Hrest I) as [Ht _].
        rewrite app_nil_r in Ht. rewrite Ht.
        destruct rest; [contradiction | reflexivity]. }
      rewrite Hm. cbn [app]. apply scan_skips_all. cbn. lia. }
    change ("u"%char :: py "tm_") with (py "utm_").
    rewrite Hfirst, app_nil_r.
    apply scan_no_match.
    intros p k. rewrite <- (app_nil_r pre).
    apply (no_match_prefix "r"%char (py "ef=") pre [] Hr Hb).
    intros q [|j]; reflexivity.
  - intros H1 H2. apply enhance_links_no_match.
    + apply (no_match_prefix "u"%char (py "tm_") pre _ Hu Hb).
      change (py "utm_s" ++ rest) with ("u"%char :: "t"%char :: "m"%char :: "_"%char ::
                                       "s"%char :: rest).
      repeat (apply no_match_cons; [intros q; reflexivity |]).
      now apply contains_no_match.
    + apply (no_match_prefix "r"%char (py "ef=") pre _ Hr Hb).
      change (py "utm_s" ++ rest) with ("u"%char :: "t"%char :: "m"%char :: "_"%char ::
                                       "s"%char :: rest).
      repeat (apply no_match_cons; [intros q; reflexivity |]).
      now apply contains_no_match.
Qed.

Lemma tracking_removal_runs_to_next_s_witness :
  ContentCleaner._enhance_links
    (py "[doc](http://a.example/?" ++ py "utm_" ++ py "medium=mail) and then more text") =
  py "[doc](http://a.example/?" /\
  ContentCleaner._enhance_links
    (py "[doc](http://a.example/?" ++ py "utm_s" ++ py "ource=mail) and then more text") =
  py "[doc](http://a.example/?" ++ py "utm_s" ++ py "ource=mail) and then more text".
Proof.
  destruct (tracking_removal_runs_to_next_s (py "[doc](http://a.example/?")
              (py "medium=mail) and then more text")) as [H1 _]; try reflexivity.
  destruct (tracking_removal_runs_to_next_s (py "[doc](http://a.example/?")
              (py "ource=mail) and then more text")) as [_ H2]; try reflexivity.
  split.
  - apply H1; [discriminate | vm_compute; reflexivity].
  - apply H2; vm_compute; reflexivity.
Defined.

(** ** The patterns written with doubled backslashes *)

Section BackslashPatterns.

Import PyStr ContentCleaner.

Lemma has_char_drop_while c p (s : str) :
  has_char c s = false -> has_char c (drop_while p s) = false.
Proof.
  induction s as [|a s IH]; [auto |]. intros H. cbn [drop_while].
  destruct (p a); [| exact H].
  rewrite has_char_cons in H. apply orb_false_iff in H as [_ H]. now apply IH.
Qed.

Lemma has_char_rev c (s : str) : has_char c (rev s) = has_char c s.
Proof.
  induction s as [|a s IH]; [reflexivity |].
  cbn [rev]. rewrite has_char_app, IH, !has_char_cons. cbn [has_char existsb].
  rewrite orb_false_r. apply orb_comm.
Qed.

Lemma has_char_strip c (s : str) : has_char c s = false -> has_char c (strip s) = false.
Proof.
  intros H. unfold strip, rstrip, lstrip.
  rewrite has_char_rev. apply has_char_drop_while. rewrite has_char_rev.
  now apply has_char_drop_while.
Qed.

Lemma has_char_skipn c k (s : str) : has_char c s = false -> has_char c (skipn k s) = false.
Proof.
  revert s. induction k as [|k IH]; intros s H; [exact H |].
  destruct s as [|a s]; [reflexivity |].
  rewrite has_char_cons in H. apply orb_false_iff in H as [_ H]. now apply IH.
Qed.

Lemma heading_prefix_needs_backslash (line : str) :
  has_char "\"%char line = false -> re_heading_prefix line = None.
Proof.
  intros H. unfold re_heading_prefix.
  destruct (_ && _); [| reflexivity].
  pose proof (has_char_skipn "\"%char (length (take_while (chr_eqb "#"%char) line)) line H)
    as Hs.
  destruct (skipn _ line) as [|x r]; [reflexivity |].
  rewrite has_char_cons in Hs. apply orb_false_iff in Hs as [Hx _].
  destruct x as [[] [] [] [] [] [] [] []]; try reflexivity; discriminate Hx.
Qed.

Lemma numbered_item_needs_backslash (s : str) :
  has_char "\"%char s = false -> re_match_numbered_item s = false.
Proof.
  intros H. destruct s as [|x r]; [reflexivity |].
  rewrite has_char_cons in H. apply orb_false_iff in H as [Hx _].
  destruct x as [[] [] [] [] [] [] [] []]; try reflexivity; discriminate Hx.
Qed.

End BackslashPatterns.

(** X13. The patterns for section headings and numbered list items are
    written with doubled backslashes in raw strings, so they ask for
    backslashes in the line.  On a line without a backslash
    [_is_section_heading] is false, the heading prefix is not removed,
    a numbered item is not recognised, and [_is_content_list] accepts
    exactly the [- ] and [* ] bullets of ten characters or more that
    hold no navigation word. *)
Theorem backslash_free_line_patterns (self : ContentCleaner.t) (line : str) :
  PyStr.has_char "\"%char line = false ->
  ContentCleaner._is_section_heading line = false /\
  ContentCleaner.re_sub_heading_prefix line = line /\
  ContentCleaner.re_match_numbered_item (PyStr.strip line) = false /\
  ContentCleaner._is_content_list self line =
    (PyStr.startswith (py "- ") (PyStr.strip line) ||
     PyStr.startswith (py "* ") (PyStr.strip line)) &&
    (10 <=? length (PyStr.strip line)) &&
    negb (PyStr.any_in (ContentCleaner.nav_indicators self) (PyStr.lower (PyStr.strip line))).
Proof.
  intros H.
  pose proof (heading_prefix_needs_backslash line H) as Hp.
  pose proof (numbered_item_needs_backslash _ (has_char_strip _ _ H)) as Hn.
  unfold ContentCleaner._is_section_heading, ContentCleaner.re_match_section_heading,
    ContentCleaner.re_sub_heading_prefix, ContentCleaner._is_content_list.
  rewrite Hp, Hn, orb_false_r.
  repeat split.
  destruct (_ || _); [| reflexivity]. cbn [negb andb].
  destruct (Nat.ltb_spec (length (PyStr.strip line)) 10) as [Hlt | Hge].
  - now rewrite (proj2 (Nat.leb_gt 10 _) Hlt).
  - rewrite (proj2 (Nat.leb_le 10 _) Hge). cbn [andb]. now destruct (PyStr.any_in _ _).
Qed.

Lemma backslash_free_line_patterns_witness :
  ContentCleaner._is_section_heading (py "## Installation and first steps") = false /\
  ContentCleaner._is_content_list ContentCleaner.__init__
    (py "1. Install the package with pip") = false /\
  ContentCleaner._is_content_list ContentCleaner.__init__
    (py "- Install the package with pip") = true.
Proof.
  destruct (backslash_free_line_patterns ContentCleaner.__init__
              (py "## Installation and first steps")) as [H1 _]; [reflexivity |].
  destruct (backslash_free_line_patterns ContentCleaner.__init__
              (py "1. Install the package with pip")) as [_ [_ [_ H2]]]; [reflexivity |].
  destruct (backslash_free_line_patterns ContentCleaner.__init__
              (py "- Install the package with pip")) as [_ [_ [_ H3]]]; [reflexivity |].
  split; [exact H1 |]. split; [rewrite H2 | rewrite H3]; vm_compute; reflexivity.
Defined.

(** ** The rule for section headings *)

Section HeadingRule.

Import PyStr ContentCleaner.

Lemma drop_while_snoc p (l : str) c :
  p c = false -> drop_while p (l ++ [c]) = drop_while p l ++ [c].
Proof.
  intros Hc. induction l as [|a l IH]; cbn [app drop_while]; [now rewrite Hc |].
  destruct (p a); [exact IH | reflexivity].
Qed.

(** Stripping keeps a first character that is no white space. *)
Lemma strip_keeps_head c (s : str) :
  isspace c = false -> exists r, strip (c :: s) = c :: r.
Proof.
  intros Hc. unfold strip, lstrip, rstrip. cbn [drop_while]. rewrite Hc.
  cbn [rev]. rewrite (drop_while_snoc _ _ _ Hc), rev_app_distr. cbn [rev app].
  eauto.
Qed.

(** On a line without a backslash that opens with two [#] signs, only
    the paragraph test of [_is_main_content_start] can succeed. *)
Lemma heading_start_is_paragraph_test self (line title : str) (lines : list str) (i : nat) :
  has_char "\"%char line = false ->
  startswith (py "##") line = true ->
  _is_main_content_start self line title lines i = _is_substantial_paragraph self line.
Proof.
  intros Hb Hh.
  destruct line as [|a [|b rest]]; [discriminate Hh | |];
    cbn [py list_ascii_of_string startswith] in Hh;
    apply andb_true_iff in Hh as [Ha Hh]; [discriminate Hh |].
  apply andb_true_iff in Hh as [Hb' _].
  apply Ascii.eqb_eq in Ha, Hb'. subst a b.
  unfold _is_main_content_start.
  replace (startswith (py "# ") ("#"%char :: "#"%char :: rest)) with false by reflexivity.
  unfold re_match_section_heading.
  rewrite (heading_prefix_needs_backslash _ Hb). cbn [andb].
  destruct (_is_substantial_paragraph self _); [reflexivity |].
  assert (Hl : _is_content_list self ("#"%char :: "#"%char :: rest) = false).
  { unfold _is_content_list.
    rewrite (numbered_item_needs_backslash _ (has_char_strip _ _ Hb)).
    destruct (strip_keeps_head "#"%char ("#"%char :: rest) eq_refl) as [r ->].
    reflexivity. }
  rewrite Hl.
  destruct (strip_keeps_head "#"%char ("#"%char :: rest) eq_refl) as [r ->].
  reflexivity.
Qed.

End HeadingRule.

(** C3. The rule for level-2 to level-6 headings in
    [_is_main_content_start] is written with doubled backslashes in a raw
    string and never applies to a heading: on every line without a
    backslash that opens with two [#] signs, for every cleaner and
    title, the answer is that of the paragraph test alone (20 characters
    and four words).  The heading [## Configuration options], of 24
    characters and with no navigation keyword, matches no footer
    indicator, no skip pattern and no navigation entry, and still is not
    taken as the start of the content: the pass leaves the flags as they
    were and drops the line, and the page that opens with it is cleaned
    to its paragraph alone. *)
Theorem section_heading_rule_never_applies :
  (forall (self : ContentCleaner.t) (line title : str) (lines : list str) (i : nat),
     PyStr.has_char "\"%char line = false ->
     PyStr.startswith (py "##") line = true ->
     ContentCleaner._is_section_heading line = false /\
     ContentCleaner._is_main_content_start self line title lines i =
       ContentCleaner._is_substantial_paragraph self line) /\
  (spec_section_heading options_heading = true /\
   length (spec_heading_text options_heading) = 21 /\
   length options_heading = 24 /\
   PyStr.any_in (ContentCleaner.nav_indicators ContentCleaner.__init__)
     (PyStr.lower options_heading) = false /\
   ContentCleaner._is_footer_line ContentCleaner.__init__ options_heading = false /\
   ContentCleaner._should_skip_line ContentCleaner.__init__ options_heading = false /\
   ContentCleaner._is_navigation_section options_heading [options_heading] 0 = false /\
   ContentCleaner._is_likely_navigation options_heading = false) /\
  (ContentCleaner._is_main_content_start ContentCleaner.__init__ options_heading (py "")
     [options_heading] 0 = false /\
   ContentCleaner.loop_body ContentCleaner.__init__ (py "") [options_heading] 0 options_heading
     ContentCleaner.initial_state = ContentCleaner.Next ContentCleaner.initial_state /\
   ~ heading_starts_content ContentCleaner.__init__ (py "") options_heading
       ContentCleaner.initial_state /\
   ContentCleaner.clean_markdown_content ContentCleaner.__init__ options_doc (py "") =
     options_paragraph).
Proof.
  split; [| split].
  - intros self line title lines i Hb Hh. split.
    + unfold ContentCleaner._is_section_heading, ContentCleaner.re_match_section_heading.
      now rewrite (heading_prefix_needs_backslash _ Hb).
    + now apply heading_start_is_paragraph_test.
  - vm_compute. repeat split; reflexivity.
  - split; [vm_compute; reflexivity |]. split; [vm_compute; reflexivity |].
    split; [| vm_compute; reflexivity].
    unfold heading_starts_content. vm_compute. discriminate.
Qed.

(** ** The shape of a cleaned page *)

Section WhitespaceShape.

Import PyStr ContentCleaner.

Lemma split_on_cons sep c (s : str) :
  split_on sep (c :: s) =
  if chr_eqb c sep then [] :: split_on sep s
  else match split_on sep s with
       | [] => [[c]]
       | w :: ws => (c :: w) :: ws
       end.
Proof. reflexivity. Qed.

Lemma split_on_fields sep (s : str) :
  split_on sep s <> [] /\ Forall (fun l => has_char sep l = false) (split_on sep s).
Proof.
  induction s as [|c s [IH1 IH2]]; [split; [discriminate | repeat constructor] |].
  rewrite split_on_cons. destruct (chr_eqb c sep) eqn:Hc.
  - split; [discriminate | now constructor].
  - destruct (split_on sep s) as [|w ws]; [contradiction |].
    split; [discriminate |]. inversion IH2; subst. constructor; [| assumption].
    rewrite has_char_cons. rewrite chr_eqb_sym, Hc. assumption.
Qed.

(** Splitting what was joined gives the lines back. *)
Lemma split_on_join sep (ls : list str) :
  ls <> [] -> Forall (fun l => has_char sep l = false) ls ->
  split_on sep (join [sep] ls) = ls.
Proof.
  assert (Hone : forall l : str, has_char sep l = false -> forall rest : list str,
             split_on sep (l ++ sep :: join [sep] rest) = l :: split_on sep (join [sep] rest)).
  { intros l Hl rest. induction l as [|c l IHl].
    - cbn [app]. rewrite split_on_cons.
      unfold chr_eqb. now rewrite Ascii.eqb_refl.
    - rewrite has_char_cons in Hl. apply orb_false_iff in Hl as [Hc Hl].
      cbn [app]. rewrite split_on_cons, chr_eqb_sym, Hc, (IHl Hl). reflexivity. }
  assert (Hlast : forall l : str, has_char sep l = false -> split_on sep l = [l]).
  { intros l Hl. induction l as [|c l IHl]; [reflexivity |].
    rewrite has_char_cons in Hl. apply orb_false_iff in Hl as [Hc Hl].
    rewrite split_on_cons, chr_eqb_sym, Hc, (IHl Hl). reflexivity. }
  induction ls as [|l ls IH]; [contradiction |]. intros _ HF.
  inversion HF as [|? ? Hl HF']; subst.
  destruct ls as [|l2 ls]; [now apply Hlast |].
  change (join [sep] (l :: l2 :: ls)) with (l ++ sep :: join [sep] (l2 :: ls)).
  rewrite (Hone l Hl). f_equal. now apply IH.
Qed.

Lemma drop_blank_head_suffix (ls : list str) : exists pre, ls = pre ++ drop_blank_head ls.
Proof.
  induction ls as [|l ls [pre IH]]; [now exists [] |].
  cbn [drop_blank_head]. destruct (strip l); [| now exists []].
  exists (l :: pre). cbn [app]. now f_equal.
Qed.

Lemma drop_blank_head_first (ls : list str) :
  match drop_blank_head ls with
  | [] => True
  | l :: _ => strip l <> []
  end.
Proof.
  induction ls as [|l ls IH]; [exact I |].
  cbn [drop_blank_head]. destruct (strip l) eqn:E; [exact IH |]. now rewrite E.
Qed.

Lemma rstrip_keeps_absent c (s : str) : has_char c s = false -> has_char c (rstrip s) = false.
Proof.
  intros H. unfold rstrip. rewrite has_char_rev. apply has_char_drop_while.
  now rewrite has_char_rev.
Qed.

Lemma last_rev_head (ls : list str) d : List.last (rev ls) d = hd d ls.
Proof.
  destruct ls as [|l ls]; [reflexivity |]. cbn [rev hd]. apply last_last.
Qed.

(** The lines [_clean_whitespace] joins. *)
Lemma clean_whitespace_lines (content : str) :
  exists ls,
    _clean_whitespace content = join [nl] ls /\
    Forall (fun l => rstrip l = l /\ has_char nl l = false) ls /\
    (ls = [] \/ strip (hd [] ls) <> [] /\ strip (List.last ls []) <> []).
Proof.
  unfold _clean_whitespace. cbv zeta.
  set (ls0 := map rstrip (split_on nl (scan newline_run_at None 0 content))).
  set (ls1 := drop_blank_head ls0).
  exists (rev (drop_blank_head (rev ls1))). split; [reflexivity |].
  assert (H0 : Forall (fun l => rstrip l = l /\ has_char nl l = false) ls0).
  { unfold ls0. apply Forall_map.
    destruct (split_on_fields nl (scan newline_run_at None 0 content)) as [_ HF].
    eapply Forall_impl; [exact HF |]. intros l Hl. cbn beta.
    split; [apply rstrip_idem | now apply rstrip_keeps_absent]. }
  assert (H1 : Forall (fun l => rstrip l = l /\ has_char nl l = false) ls1).
  { destruct (drop_blank_head_suffix ls0) as [pre Hpre]. fold ls1 in Hpre.
    rewrite Hpre in H0. now apply Forall_app in H0 as [_ H0]. }
  destruct (drop_blank_head_suffix (rev ls1)) as [pre Hpre].
  set (ls2 := drop_blank_head (rev ls1)) in *.
  assert (Hls1 : ls1 = rev ls2 ++ rev pre).
  { rewrite <- rev_app_distr, <- Hpre. now rewrite rev_involutive. }
  split.
  - rewrite Hls1 in H1. now apply Forall_app in H1 as [H1 _].
  - destruct ls2 as [|l2 ls2'] eqn:E2; [now left |]. right.
    pose proof (drop_blank_head_first (rev ls1)) as Hlast. fold ls2 in Hlast.
    rewrite E2 in Hlast.
    split.
    + pose proof (drop_blank_head_first ls0) as Hfirst. fold ls1 in Hfirst.
      rewrite Hls1 in Hfirst.
      destruct (rev (l2 :: ls2')) as [|f r] eqn:Er.
      * apply (f_equal (@length str)) in Er. rewrite length_rev in Er. discriminate.
      * exact Hfirst.
    + rewrite last_rev_head. exact Hlast.
Qed.

Lemma clean_whitespace_trimmed (content : str) : trimmed_page (_clean_whitespace content).
Proof.
  destruct (clean_whitespace_lines content) as [ls [Hout [HF Hends]]].
  rewrite Hout. destruct Hends as [-> | [Hfirst Hlast]]; [now left |]. right.
  assert (Hne : ls <> []) by (intros ->; now apply Hfirst).
  cbv zeta. rewrite split_on_join; [| exact Hne |].
  - split; [| auto]. eapply Forall_impl; [exact HF |]. now intros l [Hl _].
  - eapply Forall_impl; [exact HF |]. now intros l [_ Hl].
Qed.

End WhitespaceShape.

(** X14. What [_clean_whitespace] returns, and so what
    [clean_markdown_content] returns, is empty or a text whose lines
    carry no trailing white space and whose first and last lines are not
    blank. *)
Theorem cleaned_page_is_trimmed (self : ContentCleaner.t) (content markdown title : str) :
  trimmed_page (ContentCleaner._clean_whitespace content) /\
  trimmed_page (ContentCleaner.clean_markdown_content self markdown title).
Proof.
  split; [apply clean_whitespace_trimmed |].
  unfold ContentCleaner.clean_markdown_content.
  destruct markdown; [now left | apply clean_whitespace_trimmed].
Qed.

Section PlainLines.

Import PyStr ContentCleaner.

Lemma startswith_has_char (p s : str) c :
  startswith p s = true -> has_char c p = true -> has_char c s = true.
Proof.
  revert s. induction p as [|a p IH]; intros s H Hc; [discriminate |].
  destruct s as [|b s]; [discriminate |]. cbn [startswith] in H.
  apply andb_true_iff in H as [Hab H]. apply chr_eqb_true in Hab. subst b.
  rewrite has_char_cons in *. apply orb_true_iff in Hc as [Hc | Hc].
  - now rewrite Hc.
  - rewrite (IH _ H Hc). apply orb_true_r.
Qed.

Lemma no_colon_no_admonition (line : str) :
  has_char ":"%char line = false -> _enhance_admonitions line = line.
Proof.
  intros H. pose proof (has_char_strip _ _ H) as Hs.
  assert (Hno : forall p, has_char ":"%char p = true -> startswith p (strip line) = false).
  { intros p Hp. destruct (startswith p (strip line)) eqn:E; [| reflexivity].
    rewrite (startswith_has_char _ _ _ E Hp) in Hs. discriminate. }
  unfold _enhance_admonitions. cbv zeta.
  rewrite !Hno by reflexivity. reflexivity.
Qed.

End PlainLines.

(** X15. [enhance_markdown_formatting] returns a line unchanged when the
    line holds no colon and neither [utm_] nor [ref=]. *)
Theorem plain_line_is_not_changed (line : str) :
  PyStr.has_char ":"%char line = false ->
  PyStr.contains (py "utm_") line = false ->
  PyStr.contains (py "ref=") line = false ->
  ContentCleaner.enhance_markdown_formatting line = line.
Proof.
  intros Hc H1 H2. unfold ContentCleaner.enhance_markdown_formatting.
  destruct (PyStr.strip line); [reflexivity |].
  unfold ContentCleaner._enhance_code_blocks.
  rewrite (no_colon_no_admonition line Hc).
  apply enhance_links_no_match; now apply contains_no_match.
Qed.

Lemma plain_line_is_not_changed_witness :
  ContentCleaner.enhance_markdown_formatting (py "  Plain text of a paragraph, kept as it is.  ")
  = py "  Plain text of a paragraph, kept as it is.  ".
Proof.
  apply plain_line_is_not_changed; vm_compute; reflexivity.
Defined.

(** * Further properties of the crawler *)

(** ** Batches whose progress callback may raise *)

Section BatchCallbacks.

Import ContentCrawler.

Variable soup_select : str -> list str -> list str -> str.
Variable lxml_xpath : str -> list str -> list str -> str.
Variable arun : nat -> str -> ArunOutcome.
Variable persist : ContentData -> option str.
Variable progress_callback : option (nat -> nat -> str -> bool).

#[local] Abbreviation task :=
  (crawl_with_semaphore soup_select lxml_xpath arun persist progress_callback).
#[local] Abbreviation task_result :=
  (ContentCrawler.task_result soup_select lxml_xpath arun persist).

Lemma task_effect_called total self (t : nat * str) :
  callback_passes progress_callback total t = true ->
  task total self t =
  {| config := config self; content_cleaner := content_cleaner self;
     results := results self ++ [task_result self (fst t) (snd t)];
     failed_urls := failed_urls self ++ failure_entry (task_result self (fst t) (snd t)) |}.
Proof.
  destruct t as [index url]. unfold callback_passes, crawl_with_semaphore. cbn [fst snd].
  intros ->.
  pose proof (single_effect soup_select lxml_xpath arun persist self index url) as He.
  unfold ContentCrawler.task_result in *.
  destruct (crawl_single_url _ _ _ _ self index url) as [r s']. simpl in *. subst s'.
  reflexivity.
Qed.

Lemma task_effect_raised total self (t : nat * str) :
  callback_passes progress_callback total t = false -> task total self t = self.
Proof.
  destruct t as [index url]. unfold callback_passes, crawl_with_semaphore. cbn [fst snd].
  now intros ->.
Qed.

Lemma fold_tasks_called total order self :
  fold_left (task total) order self =
  {| config := config self; content_cleaner := content_cleaner self;
     results := results self ++
                map (fun t => task_result self (fst t) (snd t))
                    (List.filter (callback_passes progress_callback total) order);
     failed_urls :=
       failed_urls self ++
       concat (map (fun t => failure_entry (task_result self (fst t) (snd t)))
                   (List.filter (callback_passes progress_callback total) order)) |}.
Proof.
  revert self. induction order as [|t order IH]; intros self; cbn [fold_left List.filter].
  - cbn [map concat]. rewrite !app_nil_r. now destruct self.
  - destruct (callback_passes progress_callback total t) eqn:Hcb.
    + rewrite IH, (task_effect_called _ _ _ Hcb).
      cbn [config content_cleaner results failed_urls map concat].
      set (self1 := {| config := config self; content_cleaner := content_cleaner self;
                       results := results self ++ [task_result self (fst t) (snd t)];
                       failed_urls := failed_urls self ++
                                      failure_entry (task_result self (fst t) (snd t)) |}).
      assert (Hsame : forall j v, task_result self1 j v = task_result self j v)
        by (intros j v; apply task_result_same; reflexivity).
      rewrite (map_ext (fun t => task_result self1 (fst t) (snd t))
                       (fun t => task_result self (fst t) (snd t)))
        by (intros [j v]; apply Hsame).
      rewrite (map_ext (fun t => failure_entry (task_result self1 (fst t) (snd t)))
                       (fun t => failure_entry (task_result self (fst t) (snd t))))
        by (intros [j v]; simpl; now rewrite Hsame).
      rewrite <- !app_assoc. reflexivity.
    + rewrite (task_effect_raised _ _ _ Hcb). apply IH.
Qed.

End BatchCallbacks.

(** X16. [crawl_urls] starts from empty lists and leaves the settings
    and the cleaner alone; in the order in which the tasks end, every
    task whose progress callback returns contributes one result and a
    task whose callback raises contributes none; and [failed_urls] holds
    exactly the failure entries of [results], in the same order. *)
Theorem crawl_urls_records_in_step
  (soup_select lxml_xpath : str -> list str -> list str -> str)
  (arun : nat -> str -> ContentCrawler.ArunOutcome)
  (persist : ContentCrawler.ContentData -> option str)
  (progress_callback : option (nat -> nat -> str -> bool))
  (write_summary : ContentCrawler.Summary -> bool)
  (self : ContentCrawler.t) (urls : list str) (order : list (nat * str)) :
  let self' := fst (ContentCrawler.crawl_urls soup_select lxml_xpath arun persist
                      progress_callback write_summary self urls order) in
  ContentCrawler.results self' =
    map (fun t => ContentCrawler.task_result soup_select lxml_xpath arun persist self
                    (fst t) (snd t))
        (List.filter (ContentCrawler.callback_passes progress_callback (length urls)) order) /\
  ContentCrawler.failed_urls self' =
    concat (map ContentCrawler.failure_entry (ContentCrawler.results self')) /\
  ContentCrawler.config self' = ContentCrawler.config self /\
  ContentCrawler.content_cleaner self' = ContentCrawler.content_cleaner self.
Proof.
  cbv zeta. unfold ContentCrawler.crawl_urls. cbn [fst].
  rewrite fold_tasks_called.
  cbn [ContentCrawler.results ContentCrawler.failed_urls ContentCrawler.config
       ContentCrawler.content_cleaner app].
  split; [| split; [| split; reflexivity]].
  - apply map_ext. intros [i u]. apply task_result_same; reflexivity.
  - now rewrite map_map.
Qed.

(** X17. A page that [crawl_single_url] reports as crawled never has an
    empty text: its [content_length] is the length of its markdown, its
    URL is the one asked for, nothing was added to [failed_urls], the
    fetch had reported success and the page was written. *)
Theorem crawled_page_is_never_empty
  (soup_select lxml_xpath : str -> list str -> list str -> str)
  (arun : nat -> str -> ContentCrawler.ArunOutcome)
  (persist : ContentCrawler.ContentData -> option str)
  (self self' : ContentCrawler.t) (index : nat) (url : str)
  (data : ContentCrawler.ContentData) :
  ContentCrawler.crawl_single_url soup_select lxml_xpath arun persist self index url
    = (ContentCrawler.Crawled data, self') ->
  ContentCrawler.cd_markdown data <> [] /\
  ContentCrawler.cd_content_length data = length (ContentCrawler.cd_markdown data) /\
  ContentCrawler.cd_url data = url /\
  self' = self /\
  persist data = None /\
  exists result, arun index url = ContentCrawler.ArunReturns result /\
                 ContentCrawler.success result = true.
Proof.
  unfold ContentCrawler.crawl_single_url, ContentCrawler.record_failure.
  destruct (arun index url) as [m | r]; [discriminate |].
  destruct (ContentCrawler.success r) eqn:Hs; [| discriminate].
  set (mc := ContentCrawler.clean_markdown_content soup_select lxml_xpath self
               (ContentCrawler.markdown r) _ (ContentCrawler.html r)).
  cbv zeta.
  set (mc' := if length (PyStr.strip mc) <? 100 then _ else mc).
  assert (Hne : mc' <> []).
  { unfold mc'. destruct (Nat.ltb_spec (length (PyStr.strip mc)) 100) as [Hlt | Hge].
    - destruct (ContentCrawler.cleaned_html r); [destruct mc |]; discriminate.
    - intros ->. simpl in Hge. lia. }
  match goal with |- context [persist ?d] => destruct (persist d) eqn:Hp end; [discriminate |].
  intros H. injection H as <- <-. cbn [ContentCrawler.cd_markdown ContentCrawler.cd_url
                                       ContentCrawler.cd_content_length].
  repeat split; try assumption. eauto.
Qed.

Lemma crawled_page_is_never_empty_witness :
  exists data self',
    ContentCrawler.crawl_single_url (fun _ _ _ => []) (fun _ _ _ => []) five_arun
      (fun _ => None) five_crawler 0 (py "https://docs.example/a")
      = (ContentCrawler.Crawled data, self') /\
    ContentCrawler.cd_markdown data <> [] /\
    ContentCrawler.cd_content_length data = 104.
Proof.
  assert (H : match ContentCrawler.crawl_single_url (fun _ _ _ => []) (fun _ _ _ => [])
                      five_arun (fun _ => None) five_crawler 0 (py "https://docs.example/a") with
              | (ContentCrawler.Crawled d, _) =>
                  ContentCrawler.cd_content_length d =? 104
              | _ => false
              end = true) by (vm_compute; reflexivity).
  destruct (ContentCrawler.crawl_single_url _ _ _ _ _ _ _) as [[data | u e] self'] eqn:E;
    [| discriminate H].
  exists data, self'. split; [reflexivity |].
  split; [| now apply Nat.eqb_eq].
  exact (proj1 (crawled_page_is_never_empty _ _ _ _ _ _ _ _ _ E)).
Defined.

(** The enhanced line of the warning page has 99 characters (the sign
    and its selector count as two), one short of the threshold: the
    cleaned HTML is shown in its place.  The title stays [None]. *)
Lemma warning_page_falls_back :
  length (ContentCleaner.clean_markdown_content ContentCleaner.__init__
            (ContentCrawler.markdown warning_page) []) = 99 /\
  ContentCrawler.crawl_single_url (fun _ _ _ => []) (fun _ _ _ => [])
    (fun _ _ => ContentCrawler.ArunReturns warning_page) (fun _ => None) five_crawler 0
    (py "https://docs.example/a") =
  (ContentCrawler.Crawled
     {| ContentCrawler.cd_url := py "https://docs.example/a";
        ContentCrawler.cd_title := None;
        ContentCrawler.cd_description := Some [];
        ContentCrawler.cd_markdown :=
          py "[Note: Minimal markdown extracted, showing cleaned content]" ++
          [PyStr.nl; PyStr.nl] ++ py "<p>Kept for thirty days.</p>";
        ContentCrawler.cd_content_length := 89;
        ContentCrawler.cd_links_count := 3 |},
   five_crawler).
Proof. split; vm_compute; reflexivity. Qed.

(** ** Which cleaner a crawler uses *)

(** X18. A selector template is applied only to a configurable cleaner.
    With no selectors, no custom patterns and the [moderate] profile the
    crawler uses the basic cleaner, whatever [selector_template] is, and
    cleaning a page ignores its HTML. *)
Theorem selector_template_alone_is_ignored
  (selector_templates : str -> option SelectorExtractor.Template)
  (soup_select lxml_xpath : str -> list str -> list str -> str)
  (config : CrawlConfig.t) (markdown title html : str) :
  CrawlConfig.content_css_selectors config = [] ->
  CrawlConfig.content_xpath config = [] ->
  CrawlConfig.custom_nav_patterns config = [] ->
  CrawlConfig.custom_footer_patterns config = [] ->
  CrawlConfig.custom_skip_patterns config = [] ->
  CrawlConfig.cleaning_profile config = py "moderate" ->
  ContentCrawler.content_cleaner (ContentCrawler.__init__ selector_templates config)
    = ContentCrawler.Basic ContentCleaner.__init__ /\
  ContentCrawler.clean_markdown_content soup_select lxml_xpath
    (ContentCrawler.__init__ selector_templates config) markdown title html
    = ContentCleaner.clean_markdown_content ContentCleaner.__init__ markdown title.
Proof.
  intros H1 H2 H3 H4 H5 H6.
  assert (H : ContentCrawler.content_cleaner (ContentCrawler.__init__ selector_templates config)
              = ContentCrawler.Basic ContentCleaner.__init__).
  { unfold ContentCrawler.__init__. rewrite H1, H2, H3, H4, H5, H6. reflexivity. }
  split; [exact H |].
  unfold ContentCrawler.clean_markdown_content. now rewrite H.
Qed.

Lemma selector_template_alone_is_ignored_witness :
  ContentCrawler.content_cleaner
    (ContentCrawler.__init__
       (fun _ => Some {| SelectorExtractor.css := [py "article"];
                         SelectorExtractor.xpath := [];
                         SelectorExtractor.exclude_css := [];
                         SelectorExtractor.exclude_xpath := [] |})
       template_only_config)
  = ContentCrawler.Basic ContentCleaner.__init__.
Proof.
  apply (proj1 (selector_template_alone_is_ignored _ (fun _ _ _ => []) (fun _ _ _ => [])
                  template_only_config [] [] [] eq_refl eq_refl eq_refl eq_refl eq_refl eq_refl)).
Defined.

Section ConfiguredPatterns.

Import PyStr ContentCleaner.

Lemma any_in_app (a b : list str) (s : str) : any_in (a ++ b) s = any_in a s || any_in b s.
Proof. unfold any_in. apply existsb_app. Qed.

(** The pattern lists of a configured cleaner extend those of the basic
    cleaner. *)
Lemma configured_lists_extend
  (custom_nav custom_footer custom_skip css xpath exclude_css exclude_xpath : option (list str))
  (extraction_method : str) (min_content_length : Z) (preserve : option (list str))
  (profile : str) :
  let c := ConfigurableContentCleaner.cleaner
             (ConfigurableContentCleaner.__init__ custom_nav custom_footer custom_skip css xpath
                exclude_css exclude_xpath extraction_method min_content_length preserve
                profile) in
  (exists more, nav_indicators c = nav_indicators ContentCleaner.__init__ ++ more) /\
  (exists more, footer_indicators c = footer_indicators ContentCleaner.__init__ ++ more) /\
  (exists more, skip_patterns c = skip_patterns ContentCleaner.__init__ ++ more).
Proof.
  cbv zeta. unfold ConfigurableContentCleaner.__init__,
    ConfigurableContentCleaner._apply_cleaning_profile.
  destruct (str_eqb profile (py "strict")); [| destruct (str_eqb profile (py "minimal"))];
    cbn [ConfigurableContentCleaner.cleaner ConfigurableContentCleaner.with_cleaner
         ConfigurableContentCleaner.with_min_content_length
         nav_indicators footer_indicators skip_patterns];
    rewrite <- ?app_assoc;
    (split; [| split]); eexists; try reflexivity; symmetry; apply app_nil_r.
Qed.

End ConfiguredPatterns.

(** X19. Custom patterns and profiles only add to the pattern lists of
    the basic cleaner.  So a configured cleaner treats as a footer line
    or a skipped line every line the basic cleaner treats so, it accepts
    as a content list item only lines the basic cleaner accepts, and
    paragraph detection, which reads the first five navigation
    indicators only, is the same for both. *)
Theorem configured_cleaner_extends_basic
  (custom_nav custom_footer custom_skip css xpath exclude_css exclude_xpath : option (list str))
  (extraction_method : str) (min_content_length : Z) (preserve : option (list str))
  (profile : str) (line : str) :
  let c := ConfigurableContentCleaner.cleaner
             (ConfigurableContentCleaner.__init__ custom_nav custom_footer custom_skip css xpath
                exclude_css exclude_xpath extraction_method min_content_length preserve
                profile) in
  (ContentCleaner._is_footer_line ContentCleaner.__init__ line = true ->
   ContentCleaner._is_footer_line c line = true) /\
  (ContentCleaner._should_skip_line ContentCleaner.__init__ line = true ->
   ContentCleaner._should_skip_line c line = true) /\
  (ContentCleaner._is_content_list c line = true ->
   ContentCleaner._is_content_list ContentCleaner.__init__ line = true) /\
  ContentCleaner._is_substantial_paragraph c line =
  ContentCleaner._is_substantial_paragraph ContentCleaner.__init__ line.
Proof.
  intros c.
  destruct (configured_lists_extend custom_nav custom_footer custom_skip css xpath exclude_css
              exclude_xpath extraction_method min_content_length preserve profile)
    as [[n Hn] [[f Hf] [k Hk]]].
  fold c in Hn, Hf, Hk.
  unfold ContentCleaner._is_footer_line, ContentCleaner._should_skip_line,
    ContentCleaner._is_content_list, ContentCleaner._is_substantial_paragraph.
  rewrite Hn, Hf, Hk, !any_in_app.
  split; [intros ->; reflexivity |]. split; [intros ->; reflexivity |]. split.
  - destruct (negb _); [discriminate |]. destruct (_ <? 10); [discriminate |].
    destruct (PyStr.any_in (ContentCleaner.nav_indicators ContentCleaner.__init__) _);
      [discriminate | reflexivity].
  - reflexivity.
Qed.

(** ** Combined extraction *)

(** X20. [extract_combined] returns the CSS content when only that is
    found, the XPath content when only that is found, and otherwise both
    separated by a blank line, unless the two agree on the first 100
    characters (in lower case, with white space runs read as one
    blank), in which case the XPath content is dropped. *)
Theorem extract_combined_cases
  (soup_select lxml_xpath : str -> list str -> list str -> str)
  (html : str) (css_selectors xpath_expressions exclude_css exclude_xpath : list str) :
  let css_content :=
    SelectorExtractor.extract_by_css soup_select html css_selectors exclude_css in
  let xpath_content :=
    SelectorExtractor.extract_by_xpath lxml_xpath html xpath_expressions exclude_xpath in
  SelectorExtractor.extract_combined soup_select lxml_xpath html css_selectors
    xpath_expressions exclude_css exclude_xpath =
  match css_content, xpath_content with
  | [], _ => xpath_content
  | _, [] => css_content
  | _, _ =>
      if PyStr.str_eqb (SelectorExtractor.dedup_key css_content)
                       (SelectorExtractor.dedup_key xpath_content)
      then css_content
      else css_content ++ [PyStr.nl; PyStr.nl] ++ xpath_content
  end.
Proof.
  cbv zeta. unfold SelectorExtractor.extract_combined.
  assert (Hc : match css_selectors with
               | [] => []
               | _ => match SelectorExtractor.extract_by_css soup_select html css_selectors
                              exclude_css with
                      | [] => []
                      | c => [c]
                      end
               end =
               match SelectorExtractor.extract_by_css soup_select html css_selectors
                       exclude_css with
               | [] => []
               | c => [c]
               end).
  { destruct css_selectors; [| reflexivity].
    unfold SelectorExtractor.extract_by_css. now destruct html. }
  assert (Hx : match xpath_expressions with
               | [] => []
               | _ => match SelectorExtractor.extract_by_xpath lxml_xpath html xpath_expressions
                              exclude_xpath with
                      | [] => []
                      | c => [c]
                      end
               end =
               match SelectorExtractor.extract_by_xpath lxml_xpath html xpath_expressions
                       exclude_xpath with
               | [] => []
               | c => [c]
               end).
  { destruct xpath_expressions; [| reflexivity].
    unfold SelectorExtractor.extract_by_xpath. now destruct html. }
  rewrite Hc, Hx.
  destruct (SelectorExtractor.extract_by_css _ _ _ _) as [|a ca];
    destruct (SelectorExtractor.extract_by_xpath _ _ _ _) as [|b xb]; try reflexivity.
  cbn [app length Nat.ltb Nat.leb SelectorExtractor.unique_parts existsb].
  rewrite orb_false_r.
  unfold PyStr.str_eqb.
  destruct (decide (SelectorExtractor.dedup_key (a :: ca) = SelectorExtractor.dedup_key (b :: xb)))
    as [He | Hne].
  - rewrite (bool_decide_eq_true_2 _ He), bool_decide_eq_true_2 by (symmetry; exact He).
    reflexivity.
  - rewrite (bool_decide_eq_false_2 _ Hne), bool_decide_eq_false_2 by (intros E; now apply Hne).
    reflexivity.
Qed.

(** ** File names *)

Section FileNames.

Import PyStr.

Lemma replace_char_map a b (s : str) :
  replace [a] [b] s = map (fun c => if chr_eqb a c then b else c) s.
Proof.
  unfold replace. generalize (@None ascii) as prev.
  induction s as [|c s IH]; intros prev; [reflexivity |].
  cbn [scan map startswith]. rewrite andb_true_r.
  destruct (chr_eqb a c); cbn [length Nat.pred app]; now rewrite IH.
Qed.

Lemma replace_char_gone a b (s : str) :
  chr_eqb a b = false -> has_char a (replace [a] [b] s) = false.
Proof.
  intros Hab. rewrite replace_char_map.
  induction s as [|c s IH]; [reflexivity |].
  cbn [map]. rewrite has_char_cons, IH, orb_false_r.
  destruct (chr_eqb a c) eqn:E; [exact Hab | exact E].
Qed.

Lemma replace_char_keeps a b d (s : str) :
  chr_eqb d b = false -> has_char d s = false -> has_char d (replace [a] [b] s) = false.
Proof.
  intros Hdb. rewrite replace_char_map.
  induction s as [|c s IH]; [reflexivity |].
  rewrite has_char_cons. intros H. apply orb_false_iff in H as [Hc Hs].
  cbn [map]. rewrite has_char_cons, (IH Hs), orb_false_r.
  now destruct (chr_eqb a c).
Qed.

(** Replacing each character of a list by [b] leaves none of them. *)
Lemma fold_replace_keeps (chars : str) b d (s : str) :
  chr_eqb d b = false -> has_char d s = false ->
  has_char d (fold_left (fun f c => replace [c] [b] f) chars s) = false.
Proof.
  intros Hdb. revert s. induction chars as [|a chars IH]; intros s H; [exact H |].
  cbn [fold_left]. apply IH. now apply replace_char_keeps.
Qed.

Lemma fold_replace_clears (chars : str) b d (s : str) :
  has_char b chars = false -> has_char d chars = true ->
  has_char d (fold_left (fun f c => replace [c] [b] f) chars s) = false.
Proof.
  revert s. induction chars as [|a chars IH]; intros s Hb Hd; [discriminate |].
  rewrite has_char_cons in Hb, Hd. apply orb_false_iff in Hb as [Hba Hb].
  cbn [fold_left].
  destruct (chr_eqb d a) eqn:Hda.
  - apply chr_eqb_true in Hda. subst d.
    assert (Hab : chr_eqb a b = false) by (now rewrite chr_eqb_sym).
    apply fold_replace_keeps; [exact Hab | now apply replace_char_gone].
  - apply IH; [exact Hb | exact Hd].
Qed.

Lemma sublist_has_char c (a b : str) : sublist a b -> has_char c b = false -> has_char c a = false.
Proof.
  induction 1 as [|x l1 l2 _ IH | x l1 l2 _ IH]; [auto | |];
    rewrite ?has_char_cons; intros H; apply orb_false_iff in H as [Hx H].
  - now rewrite Hx, IH.
  - now apply IH.
Qed.

Lemma sublist_forallb (p : ascii -> bool) (a b : str) :
  sublist a b -> forallb p b = true -> forallb p a = true.
Proof.
  induction 1 as [|x l1 l2 _ IH | x l1 l2 _ IH]; [auto | |]; cbn [forallb];
    intros H; apply andb_true_iff in H as [Hx H].
  - now rewrite Hx, IH.
  - now apply IH.
Qed.

Lemma drop_while_sublist p (s : str) : sublist (drop_while p s) s.
Proof.
  induction s as [|c s IH]; [constructor |]. cbn [drop_while].
  destruct (p c); [now apply sublist_cons | reflexivity].
Qed.

Lemma rstrip_chars_sublist chars (s : str) : sublist (rstrip_chars chars s) s.
Proof.
  unfold rstrip_chars.
  assert (H : s = rev (drop_while (fun c => has_char c chars) (rev s)) ++
                  rev (take_while (fun c => has_char c chars) (rev s))).
  { rewrite <- rev_app_distr, take_drop_while. now rewrite rev_involutive. }
  rewrite H at 2. apply sublist_inserts_r. reflexivity.
Qed.

Lemma strip_chars_sublist chars (s : str) : sublist (strip_chars chars s) s.
Proof.
  unfold strip_chars. etransitivity; [apply rstrip_chars_sublist | apply drop_while_sublist].
Qed.

Lemma filter_sublist (p : ascii -> bool) (s : str) : sublist (List.filter p s) s.
Proof.
  induction s as [|c s IH]; [constructor |]. cbn [List.filter].
  destruct (p c); [now apply sublist_skip | now apply sublist_cons].
Qed.

Lemma filter_forallb (p : ascii -> bool) (s : str) : forallb p (List.filter p s) = true.
Proof.
  induction s as [|c s IH]; [reflexivity |]. cbn [List.filter].
  destruct (p c) eqn:E; [cbn [forallb]; now rewrite E | exact IH].
Qed.

Lemma slice_to_sublist k (s : str) : sublist (slice_to k s) s.
Proof. unfold slice_to. destruct (0 <=? k)%Z; apply sublist_take. Qed.

Lemma endswith_app (p s : str) : endswith p (s ++ p) = true.
Proof.
  unfold endswith. rewrite rev_app_distr.
  induction (rev p) as [|c r IH]; [reflexivity |].
  cbn [app startswith]. unfold chr_eqb at 1. now rewrite Ascii.eqb_refl.
Qed.

Lemma with_extension (f : str) :
  let out := if endswith (py ".md") f then f else f ++ py ".md" in
  endswith (py ".md") out = true /\ length out <= length f + 3 /\
  forall c, has_char c (py ".md") = false -> has_char c f = false -> has_char c out = false.
Proof.
  cbv zeta. destruct (endswith (py ".md") f) eqn:E.
  - split; [exact E | split; [lia | auto]].
  - split; [apply endswith_app |]. split; [rewrite length_app; simpl; lia |].
    intros c H1 H2. now rewrite has_char_app, H1, H2.
Qed.

End FileNames.

(** X21. The file name [url_to_filename] makes for a URL ends in [.md]
    and holds none of the characters it replaces (slash, backslash,
    colon, star, question mark, double quote, angle brackets, bar). *)
Theorem url_to_filename_is_clean (check_bracketed_host : str -> bool) (url filename : str) :
  ContentCrawler.url_to_filename check_bracketed_host url = Some filename ->
  PyStr.endswith (py ".md") filename = true /\
  forall c, PyStr.has_char c ContentCrawler.filename_invalid_chars = true ->
            PyStr.has_char c filename = false.
Proof.
  unfold ContentCrawler.url_to_filename.
  destruct (UrlParse.urlparse check_bracketed_host url) as [parsed|]; [| discriminate].
  cbv zeta. intros H. injection H as <-.
  match goal with |- context [if PyStr.endswith _ ?f then _ else _] =>
    destruct (with_extension f) as [H1 [_ H3]]; set (name := f) in * end.
  cbv zeta in H1, H3. split; [exact H1 |].
  intros c Hc. apply H3.
  - destruct c as [[] [] [] [] [] [] [] []]; try reflexivity; discriminate Hc.
  - unfold name. eapply sublist_has_char; [apply strip_chars_sublist |].
    apply (fold_replace_clears ContentCrawler.filename_invalid_chars "_"%char c);
      [reflexivity | exact Hc].
Qed.

Lemma url_to_filename_is_clean_witness :
  ContentCrawler.url_to_filename (fun _ => true) (py "https://docs.example/guide/start?x=1")
    = Some (py "docs.example_guide_start.md") /\
  PyStr.endswith (py ".md") (py "docs.example_guide_start.md") = true /\
  forall c, PyStr.has_char c ContentCrawler.filename_invalid_chars = true ->
            PyStr.has_char c (py "docs.example_guide_start.md") = false.
Proof.
  split; [vm_compute; reflexivity |].
  apply (url_to_filename_is_clean (fun _ => true) (py "https://docs.example/guide/start?x=1")).
  vm_compute. reflexivity.
Defined.

Section CleanFileNames.

Import PyStr OutputManager.

(** What [_clean_filename] returns for any text. *)
Lemma clean_filename_facts (self : OutputManager.t) (filename : str) :
  let out := _clean_filename self filename in
  out <> [] /\
  (forall c, has_char c invalid_chars = true -> has_char c out = false) /\
  forallb (fun c => (32 <=? code c)%N) out = true /\
  ((3 <= max_filename_length self)%Z ->
   (Z.of_nat (length out) <= Z.max (max_filename_length self - 3) 7)%Z).
Proof.
  cbv zeta. unfold _clean_filename. cbv zeta.
  set (f1 := fold_left (fun f char => replace [char] (py "_") f) invalid_chars filename).
  set (f2 := List.filter (fun c => (32 <=? code c)%N) f1).
  set (f3 := if (max_filename_length self - 3 <? Z.of_nat (length f2))%Z
             then slice_to (max_filename_length self - 3) f2 else f2).
  set (f4 := rstrip_chars (py ". ") f3).
  assert (S3 : sublist f3 f2) by (unfold f3; destruct (_ <? _)%Z; [apply slice_to_sublist | reflexivity]).
  assert (S4 : sublist f4 f2) by (etransitivity; [apply rstrip_chars_sublist | exact S3]).
  assert (S41 : sublist f4 f1) by (etransitivity; [exact S4 | apply filter_sublist]).
  assert (Hlen : (3 <= max_filename_length self)%Z ->
                 (Z.of_nat (length f4) <= max_filename_length self - 3)%Z).
  { intros Hm. pose proof (sublist_length _ _ (rstrip_chars_sublist (py ". ") f3)) as L4.
    fold f4 in L4. unfold f3 in *.
    destruct (Z.ltb_spec (max_filename_length self - 3) (Z.of_nat (length f2))) as [Hlt | Hge].
    - unfold slice_to in L4. destruct (Z.leb_spec 0 (max_filename_length self - 3)); [| lia].
      rewrite length_take in L4. lia.
    - lia. }
  destruct f4 as [|c f4'] eqn:E4.
  - split; [discriminate |].
    split; [| split; [reflexivity | intros; change (length (py "unnamed")) with 7; lia]].
    intros c Hc. destruct c as [[] [] [] [] [] [] [] []]; try reflexivity; discriminate Hc.
  - rewrite <- E4 in *. split; [rewrite E4; discriminate |].
    split; [| split; [| intros Hm; specialize (Hlen Hm); lia]].
    + intros d Hd. eapply sublist_has_char; [exact S41 |].
      now apply (fold_replace_clears invalid_chars "_"%char d).
    + eapply sublist_forallb; [exact S4 | apply filter_forallb].
Qed.

End CleanFileNames.

(** X22. Whatever the naming convention is, the file name
    [_generate_filename] returns ends in [.md], holds no control
    character and none of the characters of [invalid_chars], and, with
    a length limit of at least 10, is no longer than the limit: the
    three characters reserved for the extension are enough. *)
Theorem generated_filename_fits
  (check_bracketed_host : str -> bool) (now_strftime : str) (md5_hexdigest : str -> str)
  (self : OutputManager.t) (content_data : OutputManager.ContentData) (filename : str) :
  (10 <= OutputManager.max_filename_length self)%Z ->
  OutputManager._generate_filename check_bracketed_host now_strftime md5_hexdigest self
    content_data = Some filename ->
  PyStr.endswith (py ".md") filename = true /\
  (Z.of_nat (length filename) <= OutputManager.max_filename_length self)%Z /\
  (forall c, PyStr.has_char c OutputManager.invalid_chars = true ->
             PyStr.has_char c filename = false) /\
  forallb (fun c => (32 <=? PyStr.code c)%N) filename = true.
Proof.
  intros Hm. unfold OutputManager._generate_filename. cbv zeta.
  match goal with |- match ?b with _ => _ end = _ -> _ => destruct b as [base|] end;
    [| discriminate].
  intros H. injection H as <-.
  destruct (clean_filename_facts self base) as [Hne [Hinv [Hctl Hlen]]]. cbv zeta in *.
  set (name := OutputManager._clean_filename self base) in *.
  destruct (with_extension name) as [H1 [H2 H3]]. cbv zeta in H1, H2, H3.
  change ["."%char; "m"%char; "d"%char] with (py ".md").
  split; [exact H1 |]. split; [specialize (Hlen ltac:(lia)); lia |]. split.
  - intros c Hc. apply H3; [| now apply Hinv].
    destruct c as [[] [] [] [] [] [] [] []]; try reflexivity; discriminate Hc.
  - destruct (PyStr.endswith (py ".md") name); [exact Hctl |].
    rewrite forallb_app, Hctl. reflexivity.
Qed.

Lemma generated_filename_fits_witness :
  OutputManager._generate_filename (fun _ => true) (py "20240101_120000") (fun _ => [])
    OutputManager.__init__
    {| OutputManager.url := Some (py "https://www.example.com/docs/getting-started/");
       OutputManager.title := None |}
  = Some (py "example.com_docs_getting_started.md") /\
  (Z.of_nat (length (py "example.com_docs_getting_started.md")) <= 255)%Z.
Proof.
  split; [vm_compute; reflexivity |].
  apply (generated_filename_fits (fun _ => true) (py "20240101_120000") (fun _ => [])
           OutputManager.__init__
           {| OutputManager.url := Some (py "https://www.example.com/docs/getting-started/");
              OutputManager.title := None |}).
  - vm_compute. discriminate.
  - vm_compute. reflexivity.
Defined.

(** * Further properties of the wildcard patterns *)

Section WildcardConversion.

Import PyStr URLPatternHandler.

Lemma replace_char_flat_map a (new s : str) :
  replace [a] new s = flat_map (fun c => if chr_eqb a c then new else [c]) s.
Proof.
  unfold replace. generalize (@None ascii) as prev.
  induction s as [|c s IH]; intros prev; [reflexivity |].
  cbn [scan flat_map startswith]. rewrite andb_true_r.
  destruct (chr_eqb a c); cbn [length Nat.pred app]; now rewrite IH.
Qed.

Lemma flat_map_comp (f g : ascii -> str) (s : str) :
  flat_map g (flat_map f s) = flat_map (fun c => flat_map g (f c)) s.
Proof.
  induction s as [|c s IH]; [reflexivity |].
  cbn [flat_map]. now rewrite flat_map_app, IH.
Qed.

(** The ten escaping steps work character by character. *)
Lemma escape_steps (pattern : str) :
  replace (py "}") (py "\}") (replace (py "{") (py "\{")
    (replace (py "]") (py "\]") (replace (py "[") (py "\[")
      (replace (py ")") (py "\)") (replace (py "(") (py "\(")
        (replace (py "$") (py "\$") (replace (py "^") (py "\^")
          (replace (py "+") (py "\+") (replace (py ".") (py "\.") pattern)))))))))
  = flat_map escape_char pattern.
Proof.
  change (py "}") with ["}"%char]. change (py "{") with ["{"%char].
  change (py "]") with ["]"%char]. change (py "[") with ["["%char].
  change (py ")") with [")"%char]. change (py "(") with ["("%char].
  change (py "$") with ["$"%char]. change (py "^") with ["^"%char].
  change (py "+") with ["+"%char]. change (py ".") with ["."%char].
  rewrite !replace_char_flat_map, !flat_map_comp.
  apply flat_map_ext. intros c.
  destruct c as [[] [] [] [] [] [] [] []]; vm_compute; reflexivity.
Qed.

(** A text in which the first character of [old] does not occur is
    left alone, and a prefix of that kind is passed over. *)
Lemma replace_prefix_absent a (old new q t : str) :
  has_char a q = false ->
  replace (a :: old) new (q ++ t) = q ++ replace (a :: old) new t.
Proof.
  unfold replace.
  set (m := fun (_ : option ascii) (r : str) =>
              if startswith (a :: old) r then Some (length (a :: old), new) else None).
  assert (Hprev : forall p (s : str), scan m p 0 s = scan m None 0 s).
  { intros p s. apply scan_prev. reflexivity. }
  induction q as [|c q IH]; intros H; [reflexivity |].
  rewrite has_char_cons in H. apply orb_false_iff in H as [Hc Hq].
  cbn [app scan]. unfold m at 1. cbn [startswith]. rewrite Hc. cbn [andb].
  f_equal. rewrite Hprev. now apply IH.
Qed.

Lemma replace_absent a (old new q : str) :
  has_char a q = false -> replace (a :: old) new q = q.
Proof.
  intros H. rewrite <- (app_nil_r q) at 1. rewrite (replace_prefix_absent a old new q [] H).
  apply app_nil_r.
Qed.

Lemma escape_keeps_absent d (pattern : str) :
  chr_eqb d "\"%char = false -> has_char d pattern = false ->
  has_char d (flat_map escape_char pattern) = false.
Proof.
  intros Hd. induction pattern as [|c p IH]; [reflexivity |].
  rewrite has_char_cons. intros H. apply orb_false_iff in H as [Hc Hp].
  cbn [flat_map]. rewrite has_char_app, (IH Hp), orb_false_r.
  unfold escape_char. destruct (has_char c _); rewrite !has_char_cons, ?Hd, Hc; reflexivity.
Qed.

Lemma literal_pattern_chars (pattern : str) :
  literal_pattern pattern = true ->
  has_char "*"%char pattern = false /\ has_char "?"%char pattern = false /\
  has_char "|"%char pattern = false /\ has_char "\"%char pattern = false /\
  has_char "<"%char pattern = false.
Proof.
  induction pattern as [|c p IH]; [now repeat split |].
  unfold literal_pattern. cbn [forallb]. intros H. apply andb_true_iff in H as [Hc Hp].
  destruct (IH Hp) as [I1 [I2 [I3 [I4 I5]]]].
  rewrite !has_char_cons, I1, I2, I3, I4, I5, !orb_false_r.
  destruct c as [[] [] [] [] [] [] [] []]; try discriminate Hc; now repeat split.
Qed.

(** What [convert_wildcard_to_regex] makes of a pattern without
    wildcards followed by a tail in which the escaping steps change
    nothing: the escaped pattern, then what the wildcard steps make of
    the tail. *)
Lemma convert_literal_then (pattern tail : str) :
  literal_pattern pattern = true ->
  flat_map escape_char tail = tail ->
  convert_wildcard_to_regex (pattern ++ tail) =
  py "^" ++ flat_map escape_char pattern ++
  replace (py "?") (py ".")
    (replace (py "<<<DOUBLESTAR>>>") (py ".*")
       (replace (py "*") (py "[^/]*")
          (replace (py "**") (py "<<<DOUBLESTAR>>>") tail))) ++ py "$".
Proof.
  intros Hlit Htail. destruct (literal_pattern_chars _ Hlit) as [H1 [H2 [_ [_ H5]]]].
  unfold convert_wildcard_to_regex. cbv zeta. rewrite escape_steps, flat_map_app, Htail.
  assert (E1 := escape_keeps_absent "*"%char pattern eq_refl H1).
  assert (E2 := escape_keeps_absent "?"%char pattern eq_refl H2).
  assert (E5 := escape_keeps_absent "<"%char pattern eq_refl H5).
  change (py "**") with ("*"%char :: py "*").
  change (py "*") with ("*"%char :: []).
  change (py "<<<DOUBLESTAR>>>") with ("<"%char :: py "<<DOUBLESTAR>>>").
  change (py "?") with ("?"%char :: []).
  rewrite (replace_prefix_absent "*"%char _ _ _ _ E1).
  rewrite (replace_prefix_absent "*"%char _ _ _ _ E1).
  rewrite (replace_prefix_absent "<"%char _ _ _ _ E5).
  rewrite (replace_prefix_absent "?"%char _ _ _ _ E2).
  now rewrite <- !app_assoc.
Qed.

End WildcardConversion.

Section WildcardParsing.

Import PyStr Regex.

#[local] Abbreviation lit := (fun c : ascii => IOne (CLit c)).

Lemma parse_seq_nil fuel : parse_seq fuel [] = Some ([], []).
Proof. destruct fuel; reflexivity. Qed.

(** The check for a bar at the head of the text. *)
Lemma bar_match {T} (x : ascii) (s' : str) (A B C : T) :
  chr_eqb x "|"%char = false ->
  match x :: s' with [] => A | "|"%char :: _ => B | _ => C end = C.
Proof.
  intros H. destruct x as [[] [] [] [] [] [] [] []]; try reflexivity; discriminate H.
Qed.

(** The cases of [parse_seq] for a one-character item that no
    quantifier follows. *)
Lemma pair_match cs fuel (t : str) :
  next_ok t ->
  match (Some (inl cs) : option (cset + bool), t) with
  | (Some (inr b), t) =>
      match t with
      | "*"%char :: _ => None
      | _ =>
          match parse_seq fuel t with
          | Some (its, r) => Some ((if b then IStart else IEnd) :: its, r)
          | None => None
          end
      end
  | (Some (inl cs), "*"%char :: t) =>
      match t with
      | "*"%char :: _ | "?"%char :: _ | "+"%char :: _ => None
      | _ =>
          match parse_seq fuel t with
          | Some (its, r) => Some (IStar cs :: its, r)
          | None => None
          end
      end
  | (Some (inl cs), t) =>
      match t with
      | "?"%char :: _ | "+"%char :: _ | "{"%char :: _ => None
      | _ =>
          match parse_seq fuel t with
          | Some (its, r) => Some (IOne cs :: its, r)
          | None => None
          end
      end
  | (None, _) => None
  end =
  match parse_seq fuel t with
  | Some (its, r) => Some (IOne cs :: its, r)
  | None => None
  end.
Proof.
  intros Hnext. destruct t as [|y t']; [reflexivity |]. unfold next_ok in Hnext.
  generalize (parse_seq fuel (y :: t')). intros P.
  destruct y as [[] [] [] [] [] [] [] []]; try discriminate Hnext; reflexivity.
Qed.

Lemma parse_seq_item fuel (s t : str) c :
  parse_atom s = (Some (inl (CLit c)), t) ->
  match s with [] => False | x :: _ => chr_eqb x "|"%char = false end ->
  next_ok t ->
  parse_seq (S fuel) s =
  match parse_seq fuel t with
  | Some (its, r) => Some (IOne (CLit c) :: its, r)
  | None => None
  end.
Proof.
  intros Hatom Hbar Hnext. destruct s as [|x s']; [contradiction |].
  cbn [parse_seq].
  refine (eq_trans (bar_match x s' (Some ([], [])) (Some ([], x :: s')) _ Hbar) _).
  rewrite Hatom. now apply pair_match.
Qed.

Lemma parse_seq_start fuel (t : str) :
  match t with [] => True | x :: _ => chr_eqb x "*"%char = false end ->
  parse_seq (S fuel) ("^"%char :: t) =
  match parse_seq fuel t with
  | Some (its, r) => Some (IStart :: its, r)
  | None => None
  end.
Proof.
  intros H. cbn [parse_seq]. change (parse_atom ("^"%char :: t)) with (Some (inr true : cset + bool), t).
  cbv beta iota.
  destruct t as [|y t']; [reflexivity |].
  generalize (parse_seq fuel (y :: t')). intros P.
  destruct y as [[] [] [] [] [] [] [] []]; try discriminate H; reflexivity.
Qed.

Lemma escape_char_atom c (t : str) :
  negb (has_char c (py "*?|\<")) = true ->
  parse_atom (escape_char c ++ t) = (Some (inl (CLit c)), t) /\
  match escape_char c ++ t with [] => False | x :: _ => chr_eqb x "|"%char = false end /\
  next_ok (escape_char c ++ t) /\
  match escape_char c ++ t with [] => True | x :: _ => chr_eqb x "*"%char = false end.
Proof.
  intros Hc.
  destruct c as [[] [] [] [] [] [] [] []]; try discriminate Hc; repeat split; reflexivity.
Qed.

Lemma escaped_next_ok (pattern rest : str) :
  literal_pattern pattern = true -> next_ok rest ->
  next_ok (flat_map escape_char pattern ++ rest).
Proof.
  destruct pattern as [|c p]; [auto |]. unfold literal_pattern. cbn [forallb flat_map].
  intros H _. apply andb_true_iff in H as [Hc _]. rewrite <- app_assoc.
  apply (escape_char_atom c _ Hc).
Qed.

Lemma escaped_not_star (pattern rest : str) :
  literal_pattern pattern = true ->
  match rest with [] => True | x :: _ => chr_eqb x "*"%char = false end ->
  match flat_map escape_char pattern ++ rest with
  | [] => True
  | x :: _ => chr_eqb x "*"%char = false
  end.
Proof.
  destruct pattern as [|c p]; [auto |]. unfold literal_pattern. cbn [forallb flat_map].
  intros H _. apply andb_true_iff in H as [Hc _]. rewrite <- app_assoc.
  apply (escape_char_atom c _ Hc).
Qed.

(** The escaped pattern is read as one literal item per character. *)
Lemma parse_seq_escaped (pattern rest : str) its r n0 :
  literal_pattern pattern = true -> next_ok rest ->
  (forall f, n0 <= f -> parse_seq f rest = Some (its, r)) ->
  forall fuel, n0 + length pattern <= fuel ->
    parse_seq fuel (flat_map escape_char pattern ++ rest) = Some (map lit pattern ++ its, r).
Proof.
  intros Hlit Hnext Hrest. induction pattern as [|c p IH]; intros fuel Hfuel.
  { apply Hrest. cbn [length] in Hfuel. lia. }
  pose proof Hlit as Hlit'. unfold literal_pattern in Hlit'. cbn [forallb] in Hlit'.
  apply andb_true_iff in Hlit' as [Hc Hp].
  destruct fuel as [|fuel]; [cbn [length] in Hfuel; lia |].
  cbn [flat_map map app]. rewrite <- app_assoc.
  destruct (escape_char_atom c (flat_map escape_char p ++ rest) Hc) as [Hatom [Hbar _]].
  rewrite (parse_seq_item fuel _ _ c Hatom Hbar (escaped_next_ok p rest Hp Hnext)).
  rewrite (IH Hp) by (cbn [length] in Hfuel; lia). reflexivity.
Qed.

Lemma escaped_length (pattern : str) : length pattern <= length (flat_map escape_char pattern).
Proof.
  induction pattern as [|c p IH]; [reflexivity |].
  cbn [flat_map]. rewrite length_app.
  assert (H : 1 <= length (escape_char c))
    by (unfold escape_char; destruct (has_char c _); cbn [length]; lia).
  cbn [length]. lia.
Qed.

(** The whole expression: [^], the escaped pattern, and a tail that is
    read as the items [its]. *)
Lemma parse_anchored (pattern tail : str) its n0 :
  literal_pattern pattern = true -> next_ok tail ->
  match tail with [] => True | x :: _ => chr_eqb x "*"%char = false end ->
  n0 <= length tail ->
  (forall f, n0 <= f -> parse_seq f tail = Some (its, [])) ->
  parse (py "^" ++ flat_map escape_char pattern ++ tail) =
  Some [IStart :: map lit pattern ++ its].
Proof.
  intros Hlit Hnext Hstar Hn Htail. unfold parse.
  change (py "^" ++ flat_map escape_char pattern ++ tail)
    with ("^"%char :: (flat_map escape_char pattern ++ tail)).
  cbn [parse_alt length].
  rewrite (parse_seq_start _ _ (escaped_not_star pattern tail Hlit Hstar)).
  rewrite (parse_seq_escaped pattern tail its [] n0 Hlit Hnext Htail).
  - reflexivity.
  - rewrite length_app. pose proof (escaped_length pattern). lia.
Qed.

End WildcardParsing.

Section WildcardMatching.

Import PyStr Regex.

#[local] Abbreviation lit := (fun c : ascii => IOne (CLit c)).

(** Literal items match the pattern text as a prefix. *)
Lemma match_literals (pattern : str) (k : list item) st (u : str) :
  (forall a b s, match_items k a s = match_items k b s) ->
  match_items (map lit pattern ++ k) st u =
  startswith pattern u && match_items k st (skipn (length pattern) u).
Proof.
  intros Hk. revert st u. induction pattern as [|c p IH]; intros st u; [reflexivity |].
  destruct u as [|a u]; [reflexivity |].
  cbn [map app match_items cset_mem startswith length skipn].
  rewrite IH, (Hk false st), chr_eqb_sym. apply andb_assoc.
Qed.

Lemma startswith_prefix (p u : str) :
  startswith p u = true -> u = p ++ skipn (length p) u.
Proof.
  revert u. induction p as [|c p IH]; intros u H; [reflexivity |].
  destruct u as [|a u]; [discriminate |]. cbn [startswith] in H.
  apply andb_true_iff in H as [Hc H]. apply chr_eqb_true in Hc. subst a.
  cbn [app length skipn]. f_equal. now apply IH.
Qed.

Lemma startswith_app (p r : str) : startswith p (p ++ r) = true.
Proof.
  induction p as [|c p IH]; [reflexivity |].
  cbn [app startswith]. unfold chr_eqb at 1. now rewrite Ascii.eqb_refl.
Qed.

Lemma skipn_app_length (p r : str) : skipn (length p) (p ++ r) = r.
Proof. induction p as [|c p IH]; [reflexivity | exact IH]. Qed.

Lemma at_end_spec (r : str) : at_end r = true <-> r = [] \/ r = [nl].
Proof.
  destruct r as [|a [|b r]]; cbn [at_end].
  - split; auto.
  - rewrite chr_eqb_true. split; [intros ->; now right | intros [H | H]; congruence].
  - split; [discriminate | intros [H | H]; discriminate].
Qed.

(** [.*$]: no line break, except a last one. *)
Lemma star_any_end st (r : str) :
  star CAny (match_items [IEnd]) st r = negb (has_char nl (drop_last r)).
Proof.
  revert st. induction r as [|a r IH]; intros st; [reflexivity |].
  rewrite star_unfold, IH. cbn [match_items cset_mem]. rewrite andb_true_r.
  destruct r as [|b r].
  - cbn [at_end drop_last removelast has_char existsb negb]. now destruct (chr_eqb a nl).
  - cbn [at_end orb]. change (drop_last (a :: b :: r)) with (a :: drop_last (b :: r)).
    rewrite has_char_cons, negb_orb, chr_eqb_sym. reflexivity.
Qed.

(** [[^/]*$]: no slash. *)
Lemma star_not_slash_end st (r : str) :
  star CNotSlash (match_items [IEnd]) st r = negb (has_char "/"%char r).
Proof.
  revert st. induction r as [|a r IH]; intros st; [reflexivity |].
  rewrite star_unfold, IH. cbn [match_items cset_mem]. rewrite andb_true_r.
  rewrite has_char_cons, negb_orb, (chr_eqb_sym "/"%char a).
  destruct r as [|b r]; [| reflexivity].
  cbn [at_end has_char existsb negb]. rewrite andb_true_r.
  destruct (chr_eqb a nl) eqn:E; [| reflexivity].
  apply chr_eqb_true in E. now subst a.
Qed.

Lemma star_end_ignores cs a b (s : str) :
  match_items [IStar cs; IEnd] a s = match_items [IStar cs; IEnd] b s.
Proof.
  change (star cs (match_items [IEnd]) a s = star cs (match_items [IEnd]) b s).
  now rewrite (star_unfold cs _ a), (star_unfold cs _ b).
Qed.

End WildcardMatching.

(** X23. A wildcard pattern without wildcards (and without bar,
    backslash and [<]) matches exactly itself: the ten characters
    [. + ^ $ ( ) [ ] { }] are escaped, so a dot in the pattern stands
    for a dot only.  (The [$] of the expression also accepts one line
    break after the text.) *)
Theorem literal_pattern_matches_itself (pattern url : str) :
  literal_pattern pattern = true ->
  Regex.re_match (URLPatternHandler.convert_wildcard_to_regex pattern) url =
  Some (PyStr.str_eqb url pattern || PyStr.str_eqb url (pattern ++ [PyStr.nl])).
Proof.
  intros Hlit.
  pose proof (convert_literal_then pattern [] Hlit eq_refl) as Hconv.
  rewrite app_nil_r in Hconv. rewrite Hconv.
  change (PyStr.replace (py "?") (py ".") _ ++ py "$") with (py "$").
  unfold Regex.re_match.
  rewrite (parse_anchored pattern (py "$") [Regex.IEnd] 1 Hlit eq_refl eq_refl (le_n _)).
  2:{ intros f Hf. destruct f as [|[|f]]; [lia | reflexivity | reflexivity]. }
  f_equal. unfold Regex.matches. cbn [existsb Regex.match_items andb]. rewrite orb_false_r.
  change (Regex.match_items (map (fun c => Regex.IOne (Regex.CLit c)) pattern ++ [Regex.IEnd])
            true url =
          PyStr.str_eqb url pattern || PyStr.str_eqb url (pattern ++ [PyStr.nl])).
  rewrite match_literals by reflexivity.
  cbn [Regex.match_items]. rewrite andb_true_r.
  apply eq_true_iff_eq. rewrite andb_true_iff, orb_true_iff, at_end_spec.
  unfold PyStr.str_eqb. rewrite !bool_decide_eq_true. split.
  - intros [Hp Hr]. apply startswith_prefix in Hp. rewrite Hp.
    destruct Hr as [-> | ->]; [left; apply app_nil_r | now right].
  - intros [-> | ->].
    + pose proof (startswith_app pattern []) as H1.
      pose proof (skipn_app_length pattern []) as H2.
      rewrite app_nil_r in H1, H2. rewrite H1, H2. auto.
    + rewrite startswith_app, skipn_app_length. auto.
Qed.

Lemma literal_pattern_matches_itself_witness :
  Regex.re_match
    (URLPatternHandler.convert_wildcard_to_regex (py "https://docs.example/guide.html"))
    (py "https://docs.example/guide.html") = Some true /\
  Regex.re_match
    (URLPatternHandler.convert_wildcard_to_regex (py "https://docs.example/guide.html"))
    (py "https://docs.example/guide-html") = Some false.
Proof.
  split.
  - rewrite literal_pattern_matches_itself by reflexivity. vm_compute. reflexivity.
  - rewrite literal_pattern_matches_itself by reflexivity. vm_compute. reflexivity.
Defined.

(** X24. After a prefix without wildcards, [**] stands for any rest of
    the URL and [*] for a rest without a slash: [prefix**] matches the
    URLs that start with the prefix (with no line break in the rest,
    but for a last one), and [prefix*] matches those whose rest holds
    no slash. *)
Theorem prefix_wildcard_patterns (prefix url : str) :
  literal_pattern prefix = true ->
  Regex.re_match (URLPatternHandler.convert_wildcard_to_regex (prefix ++ py "**")) url =
    Some (PyStr.startswith prefix url &&
          negb (PyStr.has_char PyStr.nl (PyStr.drop_last (skipn (length prefix) url)))) /\
  Regex.re_match (URLPatternHandler.convert_wildcard_to_regex (prefix ++ py "*")) url =
    Some (PyStr.startswith prefix url &&
          negb (PyStr.has_char "/"%char (skipn (length prefix) url))).
Proof.
  intros Hlit. split.
  - rewrite (convert_literal_then prefix (py "**") Hlit eq_refl).
    change (PyStr.replace (py "?") (py ".") _ ++ py "$") with (py ".*$").
    unfold Regex.re_match.
    rewrite (parse_anchored prefix (py ".*$") [Regex.IStar Regex.CAny; Regex.IEnd] 2
               Hlit eq_refl eq_refl).
    2:{ cbn. lia. }
    2:{ intros f Hf. destruct f as [|[|[|f]]]; [lia | lia | reflexivity | reflexivity]. }
    f_equal. unfold Regex.matches. cbn [existsb Regex.match_items andb]. rewrite orb_false_r.
    match goal with |- _ = ?R =>
      change (Regex.match_items (map (fun c => Regex.IOne (Regex.CLit c)) prefix ++
                                 [Regex.IStar Regex.CAny; Regex.IEnd]) true url = R) end.
    rewrite match_literals by (intros; apply star_end_ignores).
    f_equal. apply star_any_end.
  - rewrite (convert_literal_then prefix (py "*") Hlit eq_refl).
    change (PyStr.replace (py "?") (py ".") _ ++ py "$") with (py "[^/]*$").
    unfold Regex.re_match.
    rewrite (parse_anchored prefix (py "[^/]*$") [Regex.IStar Regex.CNotSlash; Regex.IEnd] 2
               Hlit eq_refl eq_refl).
    2:{ cbn. lia. }
    2:{ intros f Hf. destruct f as [|[|[|f]]]; [lia | lia | reflexivity | reflexivity]. }
    f_equal. unfold Regex.matches. cbn [existsb Regex.match_items andb]. rewrite orb_false_r.
    match goal with |- _ = ?R =>
      change (Regex.match_items (map (fun c => Regex.IOne (Regex.CLit c)) prefix ++
                                 [Regex.IStar Regex.CNotSlash; Regex.IEnd]) true url = R) end.
    rewrite match_literals by (intros; apply star_end_ignores).
    f_equal. apply star_not_slash_end.
Qed.

Lemma prefix_wildcard_patterns_witness :
  Regex.re_match (URLPatternHandler.convert_wildcard_to_regex
                    (py "https://docs.example/" ++ py "**"))
    (py "https://docs.example/guide/start") = Some true /\
  Regex.re_match (URLPatternHandler.convert_wildcard_to_regex
                    (py "https://docs.example/" ++ py "*"))
    (py "https://docs.example/guide/start") = Some false.
Proof.
  destruct (prefix_wildcard_patterns (py "https://docs.example/")
              (py "https://docs.example/guide/start") eq_refl) as [H1 H2].
  split; [rewrite H1 | rewrite H2]; vm_compute; reflexivity.
Defined.

(** * Further properties of URL normalization *)

Section NormalizedDomain.

Import PyStr UrlParse.

Variable check_bracketed_host : str -> bool.

(** A text put together from a scheme, a host and a rest that starts
    with a delimiter parses with that scheme and that host. *)
Lemma urlparse_rebuilt (s n rest : str) :
  scheme_shape s ->
  forallb (fun c => negb (is_netloc_delim c)) n = true ->
  brackets_ok check_bracketed_host n ->
  plain n -> plain rest ->
  match rest with [] => True | x :: _ => negb (is_netloc_delim x) = false end ->
  match urlparse check_bracketed_host (s ++ py "://" ++ n ++ rest) with
  | Some r => scheme r = s /\ netloc r = n
  | None => False
  end.
Proof.
  intros [[c [pre [Hs [Hal Hc0]]]] [Hsc Hlow]] Hn [Hb1 Hb2] Pn Prest Hrest.
  destruct (scheme_chars_avoid s Hsc) as [Hcolon Ps].
  set (tail := n ++ rest).
  assert (HU : s ++ py "://" ++ tail = s ++ ":"%char :: "/"%char :: "/"%char :: tail)
    by reflexivity.
  unfold urlparse, urlsplit. rewrite HU.
  assert (Hdw : drop_while is_c0_or_space (s ++ ":"%char :: "/"%char :: "/"%char :: tail)
                = s ++ ":"%char :: "/"%char :: "/"%char :: tail).
  { rewrite Hs. simpl. now rewrite Hc0. }
  rewrite Hdw.
  rewrite remove_plain.
  2:{ apply (proj2 (plain_app check_bracketed_host _ _)). split; [exact Ps |].
      change (plain (py "://" ++ tail)). apply (proj2 (plain_app check_bracketed_host _ _)).
      split; [now repeat split |].
      unfold tail. apply (proj2 (plain_app check_bracketed_host _ _)). auto. }
  rewrite (break_at_found ":"%char s _ Hcolon).
  subst s. cbv beta iota.
  rewrite Hal, Hsc. cbn [andb]. rewrite Hlow.
  change (startswith (py "//") ("/"%char :: "/"%char :: tail)) with true.
  cbv beta iota.
  unfold _splitnetloc. cbn [skipn].
  destruct (take_while_all _ n rest Hn Hrest) as [Ht Hd].
  fold tail in Ht, Hd. change (drop 0 tail) with tail. rewrite Ht, Hd.
  cbv zeta. rewrite Hb1, Hb2.
  destruct (break_at "#"%char rest) as [u1 [f|]];
    destruct (break_at "?"%char _) as [u2 [q|]];
    cbv beta iota;
    match goal with |- context [if ?b then _ else _] => destruct b end;
    try match goal with |- context [_splitparams ?x] => destruct (_splitparams x) end;
    split; reflexivity.
Qed.

Lemma has_char_drop_last c (s : str) : has_char c s = false -> has_char c (drop_last s) = false.
Proof.
  unfold drop_last. induction s as [|a s IH]; [auto |].
  rewrite has_char_cons. intros H. apply orb_false_iff in H as [Ha Hs].
  destruct s as [|b s]; [reflexivity |].
  change (removelast (a :: b :: s)) with (a :: removelast (b :: s)).
  now rewrite has_char_cons, Ha, IH.
Qed.

Lemma plain_drop_last (s : str) : plain s -> plain (drop_last s).
Proof. intros [H1 [H2 H3]]. repeat split; now apply has_char_drop_last. Qed.

Lemma scheme_no_hash (s : str) : forallb is_scheme_char s = true -> has_char "#"%char s = false.
Proof.
  induction s as [|c s IH]; [reflexivity |]. cbn [forallb]. intros H.
  apply andb_true_iff in H as [Hc Hs]. rewrite has_char_cons, (IH Hs), orb_false_r.
  destruct c as [[] [] [] [] [] [] [] []]; try reflexivity; discriminate Hc.
Qed.

Lemma netloc_no_hash (n : str) :
  forallb (fun c => negb (is_netloc_delim c)) n = true -> has_char "#"%char n = false.
Proof.
  induction n as [|c n IH]; [reflexivity |]. cbn [forallb]. intros H.
  apply andb_true_iff in H as [Hc Hn]. rewrite has_char_cons, (IH Hn), orb_false_r.
  destruct c as [[] [] [] [] [] [] [] []]; try reflexivity; discriminate Hc.
Qed.

(** What [normalize_url] returns for a URL with a scheme and a host:
    scheme, [://], host, and a rest that is empty or starts with a
    delimiter and holds no [#]. *)
Lemma normalize_rest u r :
  urlparse check_bracketed_host u = Some r ->
  scheme r <> [] -> netloc r <> [] ->
  exists rest,
    normalize1 check_bracketed_host u = Some (scheme r ++ py "://" ++ netloc r ++ rest) /\
    plain rest /\ has_char "#"%char rest = false /\
    match rest with [] => True | x :: _ => negb (is_netloc_delim x) = false end.
Proof.
  intros Hparse Hs Hn.
  destruct (urlparse_shape check_bracketed_host u r Hparse Hs Hn)
    as [Ss Sn Sb [Sp0 [Sp1 Sp2]] Sq [Pn [Pp Pq]]].
  unfold normalize1, URLDiscovery.normalize_url.
  rewrite strip_fragment_and_slash_unfold, Hparse. cbv zeta. unfold unsplit.
  set (optq := match query r with [] => [] | _ :: _ => py "?" ++ query r end).
  assert (Poptq : plain optq /\ has_char "#"%char optq = false /\
                  match optq with [] => True | x :: _ => negb (is_netloc_delim x) = false end).
  { unfold optq. destruct (query r) as [|a q]; [now repeat split |].
    split; [| split; [| reflexivity]].
    - apply (proj2 (plain_app check_bracketed_host _ _)). split; [now repeat split | exact Pq].
    - change (py "?" ++ a :: q) with ("?"%char :: a :: q). rewrite has_char_cons. exact Sq. }
  destruct Poptq as [Po [Ho Hhead]].
  set (rest := path r ++ optq).
  assert (Prest : plain rest) by (apply (proj2 (plain_app check_bracketed_host _ _)); auto).
  assert (Hrest : has_char "#"%char rest = false)
    by (unfold rest; now rewrite has_char_app, Sp1, Ho).
  destruct (_ && (1 <? length (path r))) eqn:Hcond.
  - apply andb_true_iff in Hcond as [_ Hlen]. apply Nat.ltb_lt in Hlen.
    destruct Sp0 as [Hp | [t Hp]]; [rewrite Hp in Hlen; simpl in Hlen; lia |].
    destruct t as [|x t]; [rewrite Hp in Hlen; simpl in Hlen; lia |].
    exists (drop_last rest).
    assert (Hne : rest <> []) by (unfold rest; rewrite Hp; discriminate).
    split; [| split; [now apply plain_drop_last | split; [now apply has_char_drop_last |]]].
    + f_equal. unfold drop_last. fold rest.
      assert (Hnr : forall l : str, l ++ rest <> [])
        by (intros l E; apply app_eq_nil in E as [_ E]; contradiction).
      rewrite (removelast_app (scheme r)).
      2:{ intros E. apply app_eq_nil in E as [E _]. discriminate. }
      rewrite (removelast_app (py "://")).
      2:{ apply Hnr. }
      rewrite (removelast_app (netloc r)) by exact Hne. reflexivity.
    + unfold rest. rewrite Hp. reflexivity.
  - exists rest. split; [reflexivity | split; [exact Prest | split; [exact Hrest |]]].
    unfold rest. destruct Sp0 as [-> | [t ->]]; [exact Hhead | reflexivity].
Qed.

End NormalizedDomain.

(** X25. For a URL with a scheme and a host, [normalize_url] returns a
    text that starts with the scheme (in lower case), [://] and the
    host, holds no [#], and has the same [extract_domain] as the URL:
    [is_same_domain] holds between a URL and its normalized form. *)
Theorem normalize_url_keeps_domain
  (check_bracketed_host : str -> bool) (url : str) (parts : UrlParse.ParseResult) :
  UrlParse.urlparse check_bracketed_host url = Some parts ->
  UrlParse.scheme parts <> [] ->
  UrlParse.netloc parts <> [] ->
  exists normalized,
    normalize1 check_bracketed_host url = Some normalized /\
    PyStr.startswith (UrlParse.scheme parts ++ py "://" ++ UrlParse.netloc parts) normalized
      = true /\
    PyStr.has_char "#"%char normalized = false /\
    URLDiscovery.extract_domain check_bracketed_host normalized =
      URLDiscovery.extract_domain check_bracketed_host url /\
    URLDiscovery.is_same_domain check_bracketed_host normalized url = Some true.
Proof.
  intros Hparse Hs Hn.
  destruct (normalize_rest check_bracketed_host url parts Hparse Hs Hn)
    as [rest [Hnorm [Prest [Hhash Hhead]]]].
  destruct (urlparse_shape check_bracketed_host url parts Hparse Hs Hn)
    as [Ss Sn Sb _ _ [Pn _]].
  pose proof (urlparse_rebuilt check_bracketed_host _ _ rest Ss Sn Sb Pn Prest Hhead) as Hre.
  destruct (UrlParse.urlparse check_bracketed_host
              (UrlParse.scheme parts ++ py "://" ++ UrlParse.netloc parts ++ rest))
    as [r|] eqn:Hr; [| contradiction].
  destruct Hre as [Hrs Hrn].
  assert (Hdom : URLDiscovery.extract_domain check_bracketed_host
                   (UrlParse.scheme parts ++ py "://" ++ UrlParse.netloc parts ++ rest) =
                 URLDiscovery.extract_domain check_bracketed_host url).
  { unfold URLDiscovery.extract_domain. now rewrite Hr, Hparse, Hrs, Hrn. }
  eexists. split; [exact Hnorm |]. split; [| split; [| split]].
  - rewrite !app_assoc. rewrite <- (app_assoc _ (py "://")). apply startswith_app.
  - destruct Ss as [_ [Hsc _]].
    rewrite !has_char_app, (scheme_no_hash _ Hsc), (netloc_no_hash _ Sn), Hhash. reflexivity.
  - exact Hdom.
  - unfold URLDiscovery.is_same_domain. rewrite Hdom.
    unfold URLDiscovery.extract_domain. rewrite Hparse.
    unfold PyStr.str_eqb. now rewrite bool_decide_eq_true_2.
Qed.

Lemma normalize_url_keeps_domain_witness :
  exists normalized,
    normalize1 (fun _ => true) (py "HTTPS://docs.example/guide/start/?page=2#intro")
      = Some normalized /\
    PyStr.has_char "#"%char normalized = false /\
    URLDiscovery.is_same_domain (fun _ => true) normalized
      (py "HTTPS://docs.example/guide/start/?page=2#intro") = Some true.
Proof.
  assert (H : match UrlParse.urlparse (fun _ => true)
                      (py "HTTPS://docs.example/guide/start/?page=2#intro") with
              | Some parts =>
                  negb (PyStr.str_eqb (UrlParse.scheme parts) []) &&
                  negb (PyStr.str_eqb (UrlParse.netloc parts) [])
              | None => false
              end = true) by (vm_compute; reflexivity).
  destruct (UrlParse.urlparse (fun _ => true)
              (py "HTTPS://docs.example/guide/start/?page=2#intro")) as [parts|] eqn:E;
    [| discriminate H].
  apply andb_true_iff in H as [H1 H2].
  destruct (normalize_url_keeps_domain (fun _ => true) _ parts E) as [w [Hw [_ [Hh [_ Hd]]]]].
  - intros Hs. rewrite Hs in H1. discriminate H1.
  - intros Hn. rewrite Hn in H2. discriminate H2.
  - exists w. auto.
Defined.

(** * Where the discovered URLs come from *)

(** X26. The discovery loop only follows links: every URL it queues or
    fetches is the seed, or a normalized link of a page that was
    fetched before with success. *)
Theorem discovery_follows_links
  (check_bracketed_host : str -> bool) (urljoin : str -> str -> option str)
  (re_match : str -> str -> option bool) (arun : str -> URLDiscovery.ArunOutcome)
  (config : CrawlConfig.t) (start_url : str) (patterns exclude_patterns : option (list str))
  (st : URLDiscovery.State) :
  URLDiscovery.reachable check_bracketed_host urljoin re_match arun config start_url
    patterns exclude_patterns st ->
  forall u, u ∈ URLDiscovery.to_visit st \/ u ∈ URLDiscovery.fetched st ->
    u = start_url \/
    exists page internal,
      page ∈ URLDiscovery.fetched st /\
      arun page = URLDiscovery.ArunReturns true internal /\
      u ∈ URLDiscovery.children check_bracketed_host urljoin arun page.
Proof.
  induction 1 as [| st st' _ IH Hstep].
  - intros u [Hu | Hu]; [| now apply not_elem_of_nil in Hu].
    apply list_elem_of_singleton in Hu. now left.
  - destruct (step_shape _ _ _ _ _ _ _ _ _ _ Hstep) as [cur [rest [Hq Hcases]]].
    assert (Hold : forall u, u ∈ cur :: rest \/ u ∈ URLDiscovery.fetched st ->
              forall fetched' : list str, (forall p, p ∈ URLDiscovery.fetched st -> p ∈ fetched') ->
              u = start_url \/
              exists page internal,
                page ∈ fetched' /\ arun page = URLDiscovery.ArunReturns true internal /\
                u ∈ URLDiscovery.children check_bracketed_host urljoin arun page).
    { intros u Hu fetched' Hsub. rewrite <- Hq in Hu.
      destruct (IH u Hu) as [-> | [p [internal [Hp [Ha Hc]]]]]; [now left |].
      right. exists p, internal. auto. }
    assert (Hgrow : forall p, p ∈ URLDiscovery.fetched st -> p ∈ URLDiscovery.fetched st ++ [cur])
      by (intros p Hp; apply elem_of_app; now left).
    assert (Hcur : forall u, u ∈ URLDiscovery.fetched st ++ [cur] ->
              u ∈ cur :: rest \/ u ∈ URLDiscovery.fetched st).
    { intros u Hu. apply elem_of_app in Hu as [Hu | Hu]; [now right |].
      apply list_elem_of_singleton in Hu as ->. left. apply list_elem_of_here. }
    destruct Hcases as [[H1 [H2 _]] | [[H1 [H2 _]] | Hlinks]].
    + rewrite H1, H2. intros u [Hu | Hu].
      * apply Hold; [left; now apply list_elem_of_further | auto].
      * apply Hold; [now right | auto].
    + rewrite H1, H2. intros u [Hu | Hu].
      * apply Hold; [left; now apply list_elem_of_further | exact Hgrow].
      * apply Hold; [now apply Hcur | exact Hgrow].
    + destruct Hlinks as [internal [added [Harun [_ [H1 [H2 [Hsub _]]]]]]].
      rewrite H1, H2. intros u [Hu | Hu].
      * apply elem_of_app in Hu as [Hu | Hu].
        -- apply Hold; [left; now apply list_elem_of_further | exact Hgrow].
        -- right. exists cur, internal. split; [| split; [exact Harun |]].
           ++ apply elem_of_app. right. now apply list_elem_of_singleton.
           ++ unfold URLDiscovery.children. rewrite Harun.
              eapply elem_of_sublist; [exact Hu | exact Hsub].
      * apply Hold; [now apply Hcur | exact Hgrow].
Qed.

Lemma discovery_follows_links_witness :
  exists st,
    URLDiscovery.step (fun _ => true) (fun _ link => Some link) Regex.re_match site_arun
      CrawlConfig.__init__ site_seed None None (URLDiscovery.initial site_seed) = Some st /\
    forall u, u ∈ URLDiscovery.to_visit st \/ u ∈ URLDiscovery.fetched st ->
      u = site_seed \/
      exists page internal,
        page ∈ URLDiscovery.fetched st /\
        site_arun page = URLDiscovery.ArunReturns true internal /\
        u ∈ URLDiscovery.children (fun _ => true) (fun _ link => Some link) site_arun page.
Proof.
  assert (H : match URLDiscovery.step (fun _ => true) (fun _ link => Some link) Regex.re_match
                      site_arun CrawlConfig.__init__ site_seed None None
                      (URLDiscovery.initial site_seed) with
              | Some _ => true
              | None => false
              end = true) by (vm_compute; reflexivity).
  destruct (URLDiscovery.step _ _ _ _ _ _ _ _ _) as [st|] eqn:E; [| discriminate H].
  exists st. split; [reflexivity |].
  apply (discovery_follows_links (fun _ => true) (fun _ link => Some link) Regex.re_match
           site_arun CrawlConfig.__init__ site_seed None None st).
  eapply URLDiscovery.reachable_step; [apply URLDiscovery.reachable_initial | exact E].
Defined.
